(** * dewey.beer: the brewing and dough calculators

    A shallow embedding of the numeric code of the dashboard:
    - [src/components/ServiceCard.tsx] (second unit: the BrewMaster tool):
      [calculateGravity], [calculateABV], [calculateIBU], [calculateSRM],
      [calculateWaterChemistry] and the derived values of the [BrewMaster]
      component;
    - [src/pages/tools/PizzaCalculator.tsx]: the style table, the state
      of the component with its effects, the baker's math and the
      timeline;
    - [src/unnamed/part_000] (the tap list): [srmToColor].

    The code computes on JavaScript Numbers.  Every function is written
    once, over an interface [Number] of the operations the source uses,
    and read at two instances:
    - [IEEE]: binary64 floats (Rocq's primitive floats), bit for bit what
      the engine computes, with NaN, the infinities and signed zeros;
    - [Exact]: the same expressions over the rationals, where the
      algebraic laws of the specification (sums, linearity, monotonicity)
      can be stated without rounding error.
    [Math.exp] and [Math.pow] are implementation-approximated by
    ECMA-262; their exactly specified cases are written out and the rest
    is a parameter ([MathApprox]). *)

From Stdlib Require Import ZArith QArith Qround Qabs Qpower Qminmax.
From Stdlib Require Import Floats Uint63.
From Stdlib Require Import List String Bool Lia Lra Psatz.
From Stdlib Require Import DecimalString.
Import ListNotations.

Set Implicit Arguments.
Set Warnings "-inexact-float".

(** ** JavaScript Numbers *)

(** The operations of the source on Numbers.  [lit] reads a decimal
    literal of the source text; [ltb] and [leb] are [<] and [<=] ([>] and
    [>=] swap the arguments); [ToBoolean] is the truthiness test behind
    [||]; [Object_is] is the comparison React applies to the dependencies
    of an effect; [TimeClip] is what [new Date(number)] stores ([None]:
    Invalid Date) and [of_time] what [getTime()] returns for a valid
    date. *)
Class Number (N : Type) : Type := {
  lit : Q -> N;
  add : N -> N -> N;
  sub : N -> N -> N;
  mul : N -> N -> N;
  div : N -> N -> N;
  ltb : N -> N -> bool;
  leb : N -> N -> bool;
  ToBoolean : N -> bool;
  Object_is : N -> N -> bool;
  Math_max : N -> N -> N;
  Math_min : N -> N -> N;
  Math_round : N -> N;
  TimeClip : N -> option Z;
  of_time : Z -> N
}.

(** [Math.exp] and [Math.pow]. *)
Class MathLib (N : Type) : Type := {
  Math_exp : N -> N;
  Math_pow : N -> N -> N
}.

(** The part of [Math.exp] and [Math.pow] that ECMA-262 leaves to the
    implementation. *)
Record MathApprox (N : Type) : Type := {
  exp_approx : N -> N;
  pow_approx : N -> N -> N
}.

Declare Scope js_scope.
Delimit Scope js_scope with js.
Notation "$ q" := (lit q%Q) (at level 1, q at level 1, format "$ q") : js_scope.
Notation "x + y" := (add x y) : js_scope.
Notation "x - y" := (sub x y) : js_scope.
Notation "x * y" := (mul x y) : js_scope.
Notation "x / y" := (div x y) : js_scope.
Notation "x <? y" := (ltb x y) (at level 70, no associativity) : js_scope.
Notation "x <=? y" := (leb x y) (at level 70, no associativity) : js_scope.
Notation "x >? y" := (ltb y x) (at level 70, no associativity) : js_scope.

(** *** The exact reading: rationals *)

Module Exact.

Definition ltb (x y : Q) : bool := negb (Qle_bool y x).

Definition ToBoolean (x : Q) : bool := negb (Qeq_bool x 0).

Definition max (x y : Q) : Q := if Qle_bool x y then y else x.
Definition min (x y : Q) : Q := if Qle_bool x y then x else y.

(** [Math.round]: the nearest integer, a tie going up. *)
Definition round (x : Q) : Q := inject_Z (Qfloor (x + (1 # 2))).

(** Truncation toward zero, as [ToIntegerOrInfinity]. *)
Definition truncate (x : Q) : Z :=
  if Qle_bool 0 x then Qfloor x else Qceiling x.

Definition TimeClip (x : Q) : option Z :=
  if Qle_bool (Qabs x) 8640000000000000 then Some (truncate x) else None.

Definition is_integer (y : Q) : bool :=
  (Qnum y mod Zpos (Qden y) =? 0)%Z.

(** [Math.exp(0)] is 1 and an integral power is a product; the rest is
    irrational and left to the approximation. *)
Definition exp (M : MathApprox Q) (x : Q) : Q :=
  if Qeq_bool x 0 then 1 else exp_approx M x.

Definition pow (M : MathApprox Q) (x y : Q) : Q :=
  if is_integer y then Qpower x (Qfloor y) else pow_approx M x y.

End Exact.

#[export] Instance ExactNumber : Number Q := {
  lit q := q;
  add := Qplus;
  sub := Qminus;
  mul := Qmult;
  div := Qdiv;
  ltb := Exact.ltb;
  leb := Qle_bool;
  ToBoolean := Exact.ToBoolean;
  Object_is := Qeq_bool;
  Math_max := Exact.max;
  Math_min := Exact.min;
  Math_round := Exact.round;
  TimeClip := Exact.TimeClip;
  of_time := inject_Z
}.

Definition ExactMath (M : MathApprox Q) : MathLib Q := {|
  Math_exp := Exact.exp M;
  Math_pow := Exact.pow M
|}.

(** *** The machine reading: binary64 *)

Module IEEE.

Local Open Scope float_scope.

(** An integer below 2^53 in magnitude, exactly. *)
Definition of_Z (z : Z) : float :=
  match z with
  | Z0 => 0
  | Zpos _ => of_uint63 (Uint63.of_Z z)
  | Zneg p => - of_uint63 (Uint63.of_Z (Zpos p))
  end.

(** A decimal literal [n / 10^k] is the binary64 number nearest to it:
    one correctly rounded division of two exact integers. *)
Definition lit (q : Q) : float := of_Z (Qnum q) / of_Z (Zpos (Qden q)).

Definition ToBoolean (x : float) : bool := (x =? x) && negb (x =? 0).

Definition max (x y : float) : float :=
  if is_nan x || is_nan y then nan
  else if x <? y then y
  else if y <? x then x
  else if get_sign x then y else x.

Definition min (x y : float) : float :=
  if is_nan x || is_nan y then nan
  else if x <? y then x
  else if y <? x then y
  else if get_sign x then x else y.

(** The integer [floor (x + 1/2)] of a finite [x = (-1)^s m 2^e], [e < 0]. *)
Definition round_Z (s : bool) (m : positive) (e : Z) : Z :=
  let sm := if s then Zneg m else Zpos m in
  ((2 * sm + 2 ^ (- e)) / 2 ^ (1 - e))%Z.

Definition round (x : float) : float :=
  match Prim2SF x with
  | S754_finite s m e =>
      if (0 <=? e)%Z then x
      else let k := round_Z s m e in
           if (k =? 0)%Z then (if s then neg_zero else zero) else of_Z k
  | _ => x
  end.

Definition truncate (s : bool) (m : positive) (e : Z) : Z :=
  let a := if (0 <=? e)%Z then (Zpos m * 2 ^ e)%Z else (Zpos m / 2 ^ (- e))%Z in
  if s then (- a)%Z else a.

Definition TimeClip (x : float) : option Z :=
  match Prim2SF x with
  | S754_zero _ => Some 0%Z
  | S754_finite s m e =>
      if 8640000000000000 <? abs x then None else Some (truncate s m e)
  | _ => None
  end.

(** [y] is an odd integer. *)
Definition is_odd_integer (y : float) : bool :=
  match Prim2SF y with
  | S754_finite _ m e =>
      if (0 <? e)%Z then false
      else (Zpos m mod 2 ^ (- e) =? 0)%Z && Z.odd (Zpos m / 2 ^ (- e))
  | _ => false
  end.

Definition is_integer (y : float) : bool :=
  match Prim2SF y with
  | S754_zero _ => true
  | S754_finite _ m e =>
      if (0 <=? e)%Z then true else (Zpos m mod 2 ^ (- e) =? 0)%Z
  | _ => false
  end.

(** [Math.exp] (ECMA-262, 21.3.2.14). *)
Definition exp (M : MathApprox float) (x : float) : float :=
  if is_nan x then nan
  else if x =? 0 then 1
  else if x =? infinity then infinity
  else if x =? neg_infinity then 0
  else exp_approx M x.

(** [Math.pow], that is Number::exponentiate (ECMA-262, 6.1.6.1.3). *)
Definition pow (M : MathApprox float) (base exponent : float) : float :=
  if is_nan exponent then nan
  else if exponent =? 0 then 1
  else if is_nan base then nan
  else if base =? infinity then
    (if 0 <? exponent then infinity else 0)
  else if base =? neg_infinity then
    (if 0 <? exponent
     then (if is_odd_integer exponent then neg_infinity else infinity)
     else (if is_odd_integer exponent then neg_zero else 0))
  else if base =? 0 then
    (if get_sign base
     then (if 0 <? exponent
           then (if is_odd_integer exponent then neg_zero else 0)
           else (if is_odd_integer exponent then neg_infinity else infinity))
     else (if 0 <? exponent then 0 else infinity))
  else if exponent =? infinity then
    (if 1 <? abs base then infinity
     else if abs base =? 1 then nan else 0)
  else if exponent =? neg_infinity then
    (if 1 <? abs base then 0
     else if abs base =? 1 then nan else infinity)
  else if (base <? 0) && negb (is_integer exponent) then nan
  else pow_approx M base exponent.

End IEEE.

#[export] Instance IEEENumber : Number float := {
  lit := IEEE.lit;
  add := PrimFloat.add;
  sub := PrimFloat.sub;
  mul := PrimFloat.mul;
  div := PrimFloat.div;
  ltb := PrimFloat.ltb;
  leb := PrimFloat.leb;
  ToBoolean := IEEE.ToBoolean;
  Object_is := PrimFloat.Leibniz.eqb;
  Math_max := IEEE.max;
  Math_min := IEEE.min;
  Math_round := IEEE.round;
  TimeClip := IEEE.TimeClip;
  of_time := IEEE.of_Z
}.

Definition IEEEMath (M : MathApprox float) : MathLib float := {|
  Math_exp := IEEE.exp M;
  Math_pow := IEEE.pow M
|}.

(** ** BrewMaster: types ([ServiceCard.tsx], second unit) *)

Module EquipmentProfile.
Record t (N : Type) : Type := mk {
  systemName : string;
  batchSizeGal : N;
  brewhouseEfficiency : N;
  grainAbsorptionGalPerLb : N;
  boilOffRateGalPerHr : N;
  trubLossGal : N;
  mashTunDeadspaceGal : N
}.
End EquipmentProfile.

Module Fermentable.
Record t (N : Type) : Type := mk {
  id : string;
  name : string;
  weightLb : N;
  ppg : N;
  lovibond : N
}.
End Fermentable.

(** ['boil' | 'whirlpool' | 'dry'] *)
Inductive HopUse : Type := boil | whirlpool | dry.

Module HopAddition.
Record t (N : Type) : Type := mk {
  id : string;
  name : string;
  weightOz : N;
  alphaAcid : N;
  timeMin : N;
  type : HopUse;
  whirlpoolTempF : option N
}.
End HopAddition.

Module WaterProfile.
Record t (N : Type) : Type := mk {
  ca : N;
  mg : N;
  na : N;
  cl : N;
  so4 : N;
  hco3 : N
}.
End WaterProfile.

Module SaltAdditions.
Record t (N : Type) : Type := mk {
  gypsum : N;
  cacl2 : N;
  epsom : N;
  salt : N;
  bakingSoda : N;
  chalk : N
}.
End SaltAdditions.

Inductive YeastType : Type := ale | lager | hybrid.
Inductive YeastForm : Type := liquid | dry_yeast.

Module YeastProfile.
Record t (N : Type) : Type := mk {
  type : YeastType;
  form : YeastForm;
  cellsPerPack : N;
  packs : N;
  viability : N;
  targetPitchRate : N
}.
End YeastProfile.

Module FermentationStep.
Record t (N : Type) : Type := mk {
  id : string;
  name : string;
  tempF : N;
  days : N
}.
End FermentationStep.

Module KegConfig.
Record t (N : Type) : Type := mk {
  tempF : N;
  co2Vol : N;
  lineResistance : N;
  heightRiseFt : N
}.
End KegConfig.

Module RecipeContext.
Record t (N : Type) : Type := mk {
  name : string;
  style : string;
  batchSizeGal : N;
  efficiency : N;
  grainBill : list (Fermentable.t N);
  hopSchedule : list (HopAddition.t N);
  measuredOG : option N;
  measuredFG : option N;
  sourceWater : WaterProfile.t N;
  salts : SaltAdditions.t N;
  yeast : YeastProfile.t N;
  fermentationSchedule : list (FermentationStep.t N);
  kegConfig : KegConfig.t N
}.
End RecipeContext.

(** [a || b] on an optional Number: [b] when [a] is undefined or falsy
    (0, -0, NaN). *)
Definition or_default {N : Type} `{Number N} (a : option N) (b : N) : N :=
  match a with
  | Some x => if ToBoolean x then x else b
  | None => b
  end.

(** ** BrewMaster: the math helper functions *)

Section MathHelpers.

Context {N : Type} `{Number N} `{MathLib N}.
Local Open Scope js_scope.

(** [calculateGravity] returns [{ og, points }]. *)
Record Gravity : Type := { og : N; points : N }.

Definition calculateGravity
    (grains : list (Fermentable.t N)) (efficiency volume : N) : Gravity :=
  let totalPoints :=
    fold_left
      (fun acc grain =>
         acc + (Fermentable.weightLb grain * Fermentable.ppg grain))
      grains $0 in
  let potentialPoints := totalPoints * (efficiency / $100) in
  let pointsPerGal :=
    if volume >? $0 then potentialPoints / volume else $0 in
  let og := $1 + (pointsPerGal / $1000) in
  {| og := og; points := pointsPerGal |}.

Definition calculateABV (og fg : N) : N := (og - fg) * $131.25.

(** The callback of [hops.forEach], as a function of the running
    [totalIBU]; the early [return] of a dry hop leaves it as it is. *)
Definition addHopIBU (og volume : N) (totalIBU : N) (hop : HopAddition.t N)
    : N :=
  match HopAddition.type hop with
  | dry => totalIBU
  | use =>
      let bignessFactor := $1.65 * Math_pow $0.000125 (og - $1) in
      let boilTimeFactor :=
        ($1 - Math_exp ($(-0.04) * HopAddition.timeMin hop)) / $4.15 in
      let utilization := bignessFactor * boilTimeFactor in
      let utilization :=
        match use with
        | whirlpool =>
            let temp := or_default (HopAddition.whirlpoolTempF hop) $200 in
            let tempFactor :=
              if temp >? $180 then $0.5
              else if temp >? $160 then $0.2 else $0.05 in
            bignessFactor * (($1 - Math_exp ($(-0.04) * $20)) / $4.15)
            * tempFactor
        | _ => utilization
        end in
      let alphaAcidUnits :=
        HopAddition.alphaAcid hop * HopAddition.weightOz hop in
      let ibu := (alphaAcidUnits * utilization * $74.9) / volume in
      totalIBU + ibu
  end.

Definition calculateIBU
    (hops : list (HopAddition.t N)) (og volume : N) : N :=
  fold_left (addHopIBU og volume) hops $0.

Definition calculateSRM (grains : list (Fermentable.t N)) (volume : N) : N :=
  let mcu :=
    fold_left
      (fun acc g => acc + (Fermentable.weightLb g * Fermentable.lovibond g))
      grains $0 / volume in
  $1.4922 * Math_pow mcu $0.6859.

Definition calculateWaterChemistry
    (source : WaterProfile.t N) (salts : SaltAdditions.t N)
    (totalWaterGal : N) : WaterProfile.t N :=
  if totalWaterGal <=? $0 then source
  else
    let ppm (val grams : N) := (val * grams) / totalWaterGal in
    {| WaterProfile.ca :=
         WaterProfile.ca source + ppm $60 (SaltAdditions.gypsum salts)
         + ppm $72 (SaltAdditions.cacl2 salts)
         + ppm $105 (SaltAdditions.chalk salts);
       WaterProfile.mg :=
         WaterProfile.mg source + ppm $24 (SaltAdditions.epsom salts);
       WaterProfile.na :=
         WaterProfile.na source + ppm $104 (SaltAdditions.salt salts)
         + ppm $72 (SaltAdditions.bakingSoda salts);
       WaterProfile.cl :=
         WaterProfile.cl source + ppm $128 (SaltAdditions.cacl2 salts)
         + ppm $160 (SaltAdditions.salt salts);
       WaterProfile.so4 :=
         WaterProfile.so4 source + ppm $147 (SaltAdditions.gypsum salts)
         + ppm $98 (SaltAdditions.epsom salts);
       WaterProfile.hco3 :=
         WaterProfile.hco3 source + ppm $184 (SaltAdditions.bakingSoda salts)
         + ppm $158 (SaltAdditions.chalk salts) |}.

End MathHelpers.

(** ** BrewMaster: the values derived on every render *)

Section BrewMaster.

Context {N : Type} `{Number N} `{MathLib N}.
Local Open Scope js_scope.

Variable recipe : RecipeContext.t N.
Variable equipment : EquipmentProfile.t N.
Variable boilTime : N.

(** Core calculations *)
Definition gravity : Gravity :=
  calculateGravity (RecipeContext.grainBill recipe)
    (RecipeContext.efficiency recipe) (RecipeContext.batchSizeGal recipe).

Definition fg : N :=
  or_default (RecipeContext.measuredFG recipe)
    ($1 + (og gravity - $1) * $0.25).

Definition abv : N := calculateABV (og gravity) fg.

Definition ibu : N :=
  calculateIBU (RecipeContext.hopSchedule recipe) (og gravity)
    (RecipeContext.batchSizeGal recipe).

Definition srm : N :=
  calculateSRM (RecipeContext.grainBill recipe)
    (RecipeContext.batchSizeGal recipe).

(** Water volumes *)
Definition totalGrainWeight : N :=
  fold_left (fun acc g => acc + Fermentable.weightLb g)
    (RecipeContext.grainBill recipe) $0.

Definition absorption : N :=
  totalGrainWeight * EquipmentProfile.grainAbsorptionGalPerLb equipment.

Definition boilOff : N :=
  EquipmentProfile.boilOffRateGalPerHr equipment * (boilTime / $60).

Definition preBoilVol : N :=
  RecipeContext.batchSizeGal recipe + boilOff
  + EquipmentProfile.trubLossGal equipment.

Definition mashVol : N := totalGrainWeight * ($1.25 / $4).

Definition spargeVol : N :=
  preBoilVol - mashVol + absorption
  + EquipmentProfile.mashTunDeadspaceGal equipment.

Definition totalWater : N := mashVol + spargeVol.

(** Water chemistry *)
Definition waterProfile : WaterProfile.t N :=
  calculateWaterChemistry (RecipeContext.sourceWater recipe)
    (RecipeContext.salts recipe) totalWater.

Definition chlorideSulfateRatio : N :=
  if WaterProfile.so4 waterProfile >? $0
  then WaterProfile.cl waterProfile / WaterProfile.so4 waterProfile
  else $0.

(** Yeast *)
Definition plato : N := (og gravity - $1) * $1000 / $4.

Definition totalCellsNeededBillions : N :=
  (YeastProfile.targetPitchRate (RecipeContext.yeast recipe)
   * (RecipeContext.batchSizeGal recipe * $3785.41) * plato) / $1000.

Definition totalCellsAvailable : N :=
  YeastProfile.packs (RecipeContext.yeast recipe)
  * YeastProfile.cellsPerPack (RecipeContext.yeast recipe)
  * (YeastProfile.viability (RecipeContext.yeast recipe) / $100).

Definition yeastDifference : N :=
  totalCellsAvailable - totalCellsNeededBillions.

(** Kegging *)
Definition servingPSI : N :=
  let tempF := KegConfig.tempF (RecipeContext.kegConfig recipe) in
  let co2Vol := KegConfig.co2Vol (RecipeContext.kegConfig recipe) in
  Math_max $0
    ($(-16.6999) - $0.0101059 * tempF + $0.00116512 * Math_pow tempF $2
     + $0.173354 * tempF * co2Vol + $4.24267 * co2Vol
     - $0.0684226 * Math_pow co2Vol $2).

Definition resistanceNeeded : N :=
  servingPSI
  - (KegConfig.heightRiseFt (RecipeContext.kegConfig recipe) * $0.5).

Definition lineLengthFt : N :=
  Math_max $0
    (resistanceNeeded
     / KegConfig.lineResistance (RecipeContext.kegConfig recipe)).

End BrewMaster.

(** [DEFAULT_EQUIPMENT] and [DEFAULT_RECIPE]. *)
Section Defaults.

Context {N : Type} `{Number N}.
Local Open Scope js_scope.

Definition DEFAULT_EQUIPMENT : EquipmentProfile.t N :=
  {| EquipmentProfile.systemName := "Default System";
     EquipmentProfile.batchSizeGal := $5.5;
     EquipmentProfile.brewhouseEfficiency := $72;
     EquipmentProfile.grainAbsorptionGalPerLb := $0.125;
     EquipmentProfile.boilOffRateGalPerHr := $1.0;
     EquipmentProfile.trubLossGal := $0.5;
     EquipmentProfile.mashTunDeadspaceGal := $0.0 |}.

Definition DEFAULT_RECIPE : RecipeContext.t N :=
  {| RecipeContext.name := "New Recipe";
     RecipeContext.style := "American IPA";
     RecipeContext.batchSizeGal := $5.5;
     RecipeContext.efficiency := $72;
     RecipeContext.grainBill :=
       [ Fermentable.mk "1" "2-Row" $10 $37 $1.8;
         Fermentable.mk "2" "Crystal 40" $0.5 $34 $40 ];
     RecipeContext.hopSchedule :=
       [ HopAddition.mk "1" "Citra" $1 $12 $60 boil None;
         HopAddition.mk "2" "Mosaic" $2 $11.5 $0 whirlpool (Some $170) ];
     RecipeContext.measuredOG := None;
     RecipeContext.measuredFG := None;
     RecipeContext.sourceWater := WaterProfile.mk $5 $2 $8 $10 $10 $15;
     RecipeContext.salts := SaltAdditions.mk $0 $0 $0 $0 $0 $0;
     RecipeContext.yeast := YeastProfile.mk ale liquid $100 $1 $95 $0.75;
     RecipeContext.fermentationSchedule :=
       [ FermentationStep.mk "1" "Primary" $67 $10;
         FermentationStep.mk "2" "Cold Crash" $38 $2 ];
     RecipeContext.kegConfig := KegConfig.mk $38 $2.4 $2.2 $1 |}.

End Defaults.

(** The change handlers of the inputs the properties below vary:
    [setRecipe({...recipe, batchSizeGal: v})] and
    [setRecipe({...recipe, kegConfig: {...recipe.kegConfig, co2Vol: v}})]. *)
Definition setBatchSizeGal {N : Type} (v : N) (recipe : RecipeContext.t N)
    : RecipeContext.t N :=
  {| RecipeContext.name := RecipeContext.name recipe;
     RecipeContext.style := RecipeContext.style recipe;
     RecipeContext.batchSizeGal := v;
     RecipeContext.efficiency := RecipeContext.efficiency recipe;
     RecipeContext.grainBill := RecipeContext.grainBill recipe;
     RecipeContext.hopSchedule := RecipeContext.hopSchedule recipe;
     RecipeContext.measuredOG := RecipeContext.measuredOG recipe;
     RecipeContext.measuredFG := RecipeContext.measuredFG recipe;
     RecipeContext.sourceWater := RecipeContext.sourceWater recipe;
     RecipeContext.salts := RecipeContext.salts recipe;
     RecipeContext.yeast := RecipeContext.yeast recipe;
     RecipeContext.fermentationSchedule :=
       RecipeContext.fermentationSchedule recipe;
     RecipeContext.kegConfig := RecipeContext.kegConfig recipe |}.

Definition setCo2Vol {N : Type} (v : N) (recipe : RecipeContext.t N)
    : RecipeContext.t N :=
  {| RecipeContext.name := RecipeContext.name recipe;
     RecipeContext.style := RecipeContext.style recipe;
     RecipeContext.batchSizeGal := RecipeContext.batchSizeGal recipe;
     RecipeContext.efficiency := RecipeContext.efficiency recipe;
     RecipeContext.grainBill := RecipeContext.grainBill recipe;
     RecipeContext.hopSchedule := RecipeContext.hopSchedule recipe;
     RecipeContext.measuredOG := RecipeContext.measuredOG recipe;
     RecipeContext.measuredFG := RecipeContext.measuredFG recipe;
     RecipeContext.sourceWater := RecipeContext.sourceWater recipe;
     RecipeContext.salts := RecipeContext.salts recipe;
     RecipeContext.yeast := RecipeContext.yeast recipe;
     RecipeContext.fermentationSchedule :=
       RecipeContext.fermentationSchedule recipe;
     RecipeContext.kegConfig :=
       {| KegConfig.tempF :=
            KegConfig.tempF (RecipeContext.kegConfig recipe);
          KegConfig.co2Vol := v;
          KegConfig.lineResistance :=
            KegConfig.lineResistance (RecipeContext.kegConfig recipe);
          KegConfig.heightRiseFt :=
            KegConfig.heightRiseFt (RecipeContext.kegConfig recipe) |} |}.

Definition setTempF {N : Type} (v : N) (recipe : RecipeContext.t N)
    : RecipeContext.t N :=
  {| RecipeContext.name := RecipeContext.name recipe;
     RecipeContext.style := RecipeContext.style recipe;
     RecipeContext.batchSizeGal := RecipeContext.batchSizeGal recipe;
     RecipeContext.efficiency := RecipeContext.efficiency recipe;
     RecipeContext.grainBill := RecipeContext.grainBill recipe;
     RecipeContext.hopSchedule := RecipeContext.hopSchedule recipe;
     RecipeContext.measuredOG := RecipeContext.measuredOG recipe;
     RecipeContext.measuredFG := RecipeContext.measuredFG recipe;
     RecipeContext.sourceWater := RecipeContext.sourceWater recipe;
     RecipeContext.salts := RecipeContext.salts recipe;
     RecipeContext.yeast := RecipeContext.yeast recipe;
     RecipeContext.fermentationSchedule :=
       RecipeContext.fermentationSchedule recipe;
     RecipeContext.kegConfig :=
       {| KegConfig.tempF := v;
          KegConfig.co2Vol :=
            KegConfig.co2Vol (RecipeContext.kegConfig recipe);
          KegConfig.lineResistance :=
            KegConfig.lineResistance (RecipeContext.kegConfig recipe);
          KegConfig.heightRiseFt :=
            KegConfig.heightRiseFt (RecipeContext.kegConfig recipe) |} |}.

(** ** The tap list: [srmToColor] ([src/unnamed/part_000]) *)

Section TapList.

Context {N : Type} `{Number N}.
Local Open Scope js_scope.

Definition srmToColor (srm : N) : string :=
  if srm <=? $2 then "#F8F753"        (* Pale Straw *)
  else if srm <=? $3 then "#F6F513"   (* Straw *)
  else if srm <=? $4 then "#ECE61A"   (* Pale Gold *)
  else if srm <=? $6 then "#D5BC26"   (* Deep Gold *)
  else if srm <=? $9 then "#BF923B"   (* Pale Amber *)
  else if srm <=? $12 then "#BF813A"  (* Medium Amber *)
  else if srm <=? $15 then "#BC6733"  (* Deep Amber *)
  else if srm <=? $20 then "#8D4C32"  (* Brown *)
  else if srm <=? $24 then "#5D341A"  (* Dark Brown *)
  else if srm <=? $30 then "#261716"  (* Very Dark Brown *)
  else if srm >? $30 then "#030403"   (* Black *)
  else "#F8F753".

Definition getBarColor (srm : N) : string := srmToColor srm.

End TapList.

(** ** PizzaCalculator: types and the style table *)

Module Hydration.
Record t (N : Type) : Type := mk { min : N; max : N; default : N }.
End Hydration.

Module Percent.
Record t (N : Type) : Type := mk { default : N }.
End Percent.

Module Fermentation.
Record t (N : Type) : Type := mk {
  roomMin : N;
  roomMax : N;
  roomDefault : N;
  coldMin : N;
  coldMax : N;
  coldDefault : N;
  ballingTime : N
}.
End Fermentation.

Module Bake.
Record t : Type := mk { temp : string; time : string; note : option string }.
End Bake.

Module DoughStyle.
Record t (N : Type) : Type := mk {
  id : string;
  name : string;
  tf : N;
  hydration : Hydration.t N;
  salt : Percent.t N;
  oil : Percent.t N;
  sugar : Percent.t N;
  yeast : Percent.t N;
  fermentation : Fermentation.t N;
  bake : Bake.t
}.
End DoughStyle.

(** The keys of [STYLES]; the style selector offers exactly these. *)
Inductive StyleId : Type := thin | ny_street | medium | neapolitan | detroit.

Definition StyleId_eqb (a b : StyleId) : bool :=
  match a, b with
  | thin, thin | ny_street, ny_street | medium, medium
  | neapolitan, neapolitan | detroit, detroit => true
  | _, _ => false
  end.

Section Styles.

Context {N : Type} `{Number N}.
Local Open Scope js_scope.

Definition STYLES (key : StyleId) : DoughStyle.t N :=
  match key with
  | thin =>
      DoughStyle.mk "thin" "Thin Crust (Bar Style)" $0.07
        (Hydration.mk $50 $60 $56)
        (Percent.mk $2.0) (Percent.mk $2.0) (Percent.mk $1.0)
        (Percent.mk $0.4)
        (Fermentation.mk $2 $24 $4 $0 $48 $24 $2)
        (Bake.mk "600°F" "4-6 mins" None)
  | ny_street =>
      DoughStyle.mk "ny_street" "NY Street" $0.085
        (Hydration.mk $58 $65 $62)
        (Percent.mk $2.5) (Percent.mk $1.5) (Percent.mk $2.0)
        (Percent.mk $0.5)
        (Fermentation.mk $2 $6 $3 $24 $72 $48 $4)
        (Bake.mk "650°F" "6-8 mins" None)
  | medium =>
      DoughStyle.mk "medium" "Takeout Pizza" $0.10
        (Hydration.mk $60 $65 $62)
        (Percent.mk $2.0) (Percent.mk $3.0) (Percent.mk $2.0)
        (Percent.mk $0.5)
        (Fermentation.mk $2 $8 $3 $0 $48 $24 $2)
        (Bake.mk "550°F" "10-12 mins" None)
  | neapolitan =>
      DoughStyle.mk "neapolitan" "Neapolitan" $0.075
        (Hydration.mk $60 $75 $65)
        (Percent.mk $3.0) (Percent.mk $0) (Percent.mk $0)
        (Percent.mk $0.2)
        (Fermentation.mk $8 $24 $12 $0 $72 $24 $6)
        (Bake.mk "850°F+" "60-90 secs" None)
  | detroit =>
      DoughStyle.mk "detroit" "Detroit / Sicilian" $0.13
        (Hydration.mk $65 $75 $70)
        (Percent.mk $2.5) (Percent.mk $1.0) (Percent.mk $1.0)
        (Percent.mk $0.6)
        (Fermentation.mk $2 $6 $4 $12 $48 $24 $0)
        (Bake.mk "500°F" "12-15 mins" None)
  end.

End Styles.

(** A [Date] is its time value, in milliseconds since the epoch; [None]
    is the Invalid Date. *)
Definition Date : Type := option Z.

Section Dates.

Context {N : Type} `{Number N}.

(** [d.getTime()]: NaN for the Invalid Date, here [None]. *)
Definition getTime (d : Date) : option N := option_map of_time d.

(** [new Date(number)] *)
Definition Date_of_number (x : option N) : Date :=
  match x with
  | Some t => TimeClip t
  | None => None
  end.

(** [d.getTime() - offset] *)
Definition time_minus (d : Date) (offset : N) : option N :=
  option_map (fun t => sub t offset) (getTime d).

End Dates.

(** ** PizzaCalculator: the component *)

Module PizzaCalculator.

(** The [useState] cells.  [targetDate] holds the text of a
    [datetime-local] input and is only ever passed to [new Date]: it is
    kept as the [Date] it denotes (the initial [''] is the Invalid
    Date). *)
Record State (N : Type) : Type := mkState {
  selectedStyleId : StyleId;
  diameter : N;
  count : N;
  roomTempHours : N;
  coldFermentHours : N;
  targetDate : Date;
  customMode : bool;
  hydration : N;
  salt : N;
  oil : N;
  sugar : N;
  yeast : N
}.

Record Ingredients (N : Type) : Type := mkIngredients {
  flour_g : N;
  water_g : N;
  salt_g : N;
  oil_g : N;
  sugar_g : N;
  yeast_g : N
}.

(** What the user can do.  The five formula sliders are disabled unless
    [customMode] is on. *)
Inductive Event (N : Type) : Type :=
| SelectStyle (id : StyleId)
| ChangeDiameter (v : N)
| ChangeCount (v : N)
| ChangeTargetDate (d : Date)
| ChangeRoomTempHours (v : N)
| ChangeColdFermentHours (v : N)
| ToggleCustomMode
| ChangeHydration (v : N)
| ChangeSalt (v : N)
| ChangeOil (v : N)
| ChangeSugar (v : N)
| ChangeYeast (v : N).
Arguments SelectStyle {N} id.
Arguments ChangeTargetDate {N} d.
Arguments ToggleCustomMode {N}.

Section Component.

Context {N : Type} `{Number N} `{MathLib N}.
Local Open Scope js_scope.

Definition initial : State N :=
  {| selectedStyleId := ny_street;
     diameter := $16;
     count := $2;
     roomTempHours := $3;
     coldFermentHours := $48;
     targetDate := None;
     customMode := false;
     hydration := $62;
     salt := $2.5;
     oil := $1.5;
     sugar := $2.0;
     yeast := $0.5 |}.

Definition setHydration (v : N) (p : State N) : State N :=
  mkState (selectedStyleId p) (diameter p) (count p) (roomTempHours p)
    (coldFermentHours p) (targetDate p) (customMode p)
    v (salt p) (oil p) (sugar p) (yeast p).
Definition setSalt (v : N) (p : State N) : State N :=
  mkState (selectedStyleId p) (diameter p) (count p) (roomTempHours p)
    (coldFermentHours p) (targetDate p) (customMode p)
    (hydration p) v (oil p) (sugar p) (yeast p).
Definition setOil (v : N) (p : State N) : State N :=
  mkState (selectedStyleId p) (diameter p) (count p) (roomTempHours p)
    (coldFermentHours p) (targetDate p) (customMode p)
    (hydration p) (salt p) v (sugar p) (yeast p).
Definition setSugar (v : N) (p : State N) : State N :=
  mkState (selectedStyleId p) (diameter p) (count p) (roomTempHours p)
    (coldFermentHours p) (targetDate p) (customMode p)
    (hydration p) (salt p) (oil p) v (yeast p).
Definition setYeast (v : N) (p : State N) : State N :=
  mkState (selectedStyleId p) (diameter p) (count p) (roomTempHours p)
    (coldFermentHours p) (targetDate p) (customMode p)
    (hydration p) (salt p) (oil p) (sugar p) v.
Definition setRoomTempHours (v : N) (p : State N) : State N :=
  mkState (selectedStyleId p) (diameter p) (count p) v
    (coldFermentHours p) (targetDate p) (customMode p)
    (hydration p) (salt p) (oil p) (sugar p) (yeast p).
Definition setColdFermentHours (v : N) (p : State N) : State N :=
  mkState (selectedStyleId p) (diameter p) (count p) (roomTempHours p)
    v (targetDate p) (customMode p)
    (hydration p) (salt p) (oil p) (sugar p) (yeast p).
Definition setSelectedStyleId (v : StyleId) (p : State N) : State N :=
  mkState v (diameter p) (count p) (roomTempHours p)
    (coldFermentHours p) (targetDate p) (customMode p)
    (hydration p) (salt p) (oil p) (sugar p) (yeast p).
Definition setDiameter (v : N) (p : State N) : State N :=
  mkState (selectedStyleId p) v (count p) (roomTempHours p)
    (coldFermentHours p) (targetDate p) (customMode p)
    (hydration p) (salt p) (oil p) (sugar p) (yeast p).
Definition setCount (v : N) (p : State N) : State N :=
  mkState (selectedStyleId p) (diameter p) v (roomTempHours p)
    (coldFermentHours p) (targetDate p) (customMode p)
    (hydration p) (salt p) (oil p) (sugar p) (yeast p).
Definition setTargetDate (v : Date) (p : State N) : State N :=
  mkState (selectedStyleId p) (diameter p) (count p) (roomTempHours p)
    (coldFermentHours p) v (customMode p)
    (hydration p) (salt p) (oil p) (sugar p) (yeast p).
Definition setCustomMode (v : bool) (p : State N) : State N :=
  mkState (selectedStyleId p) (diameter p) (count p) (roomTempHours p)
    (coldFermentHours p) (targetDate p) v
    (hydration p) (salt p) (oil p) (sugar p) (yeast p).

(** *** The effects

    An effect reads the state [s] of the render it belongs to and
    queues updates; [p] is the state with the updates queued so far. *)

(** Effect: update defaults on style change;
    dependencies [selectedStyleId, customMode]. *)
Definition updateDefaults (s p : State N) : State N :=
  let style := STYLES (selectedStyleId s) in
  if negb (customMode s) then
    let p := setHydration (Hydration.default (DoughStyle.hydration style)) p in
    let p := setSalt (Percent.default (DoughStyle.salt style)) p in
    let p := setOil (Percent.default (DoughStyle.oil style)) p in
    let p := setSugar (Percent.default (DoughStyle.sugar style)) p in
    let p := setYeast (Percent.default (DoughStyle.yeast style)) p in
    let p :=
      setRoomTempHours
        (Fermentation.roomDefault (DoughStyle.fermentation style)) p in
    setColdFermentHours
      (Fermentation.coldDefault (DoughStyle.fermentation style)) p
  else p.

(** The value the auto-adjust effect hands to [setHydration]. *)
Definition calcHydration
    (style : DoughStyle.t N) (roomTempHours coldFermentHours : N) : N :=
  (* Base hydration *)
  let calcHydration := Hydration.default (DoughStyle.hydration style) in
  (* Adjust for cold ferment: +0.5% per 12h over min *)
  let coldDiff :=
    Math_max $0
      (coldFermentHours
       - Fermentation.coldMin (DoughStyle.fermentation style)) in
  let calcHydration := calcHydration + (coldDiff / $12) * $0.5 in
  (* Adjust for room ferment: +0.25% per 1h over min *)
  let roomDiff :=
    Math_max $0
      (roomTempHours
       - Fermentation.roomMin (DoughStyle.fermentation style)) in
  let calcHydration := calcHydration + roomDiff * $0.25 in
  (* Clamp *)
  let calcHydration :=
    Math_min (Hydration.max (DoughStyle.hydration style))
      (Math_max (Hydration.min (DoughStyle.hydration style)) calcHydration) in
  (* Round to 1 decimal *)
  Math_round (calcHydration * $10) / $10.

(** Effect: auto-adjust hydration; dependencies
    [roomTempHours, coldFermentHours, selectedStyleId, customMode]. *)
Definition autoAdjustHydration (s p : State N) : State N :=
  if customMode s then p
  else
    let style := STYLES (selectedStyleId s) in
    setHydration
      (calcHydration style (roomTempHours s) (coldFermentHours s)) p.

Definition same_deps_updateDefaults (a b : State N) : bool :=
  StyleId_eqb (selectedStyleId a) (selectedStyleId b)
  && Bool.eqb (customMode a) (customMode b).

Definition same_deps_autoAdjustHydration (a b : State N) : bool :=
  Object_is (roomTempHours a) (roomTempHours b)
  && Object_is (coldFermentHours a) (coldFermentHours b)
  && StyleId_eqb (selectedStyleId a) (selectedStyleId b)
  && Bool.eqb (customMode a) (customMode b).

(** Effect: initialize date; no dependencies, so it runs on mount only.
    It sets [targetDate] to the next Friday at 6 PM by the clock, which
    [nextFriday] stands for. *)
Variable nextFriday : Date.

Definition initializeDate (p : State N) : State N :=
  setTargetDate nextFriday p.

(** The effects of one commit, in source order: an effect runs on the
    first render ([prev = None]) and whenever one of its dependencies
    differs from the previous render's; the queued updates make the
    next state. *)
Definition run_effects (prev : option (State N)) (s : State N) : State N :=
  let run (same : State N -> State N -> bool) :=
    match prev with
    | None => true
    | Some s0 => negb (same s0 s)
    end in
  let p := s in
  let p := match prev with None => initializeDate p | Some _ => p end in
  let p := if run same_deps_updateDefaults then updateDefaults s p else p in
  let p :=
    if run same_deps_autoAdjustHydration then autoAdjustHydration s p
    else p in
  p.

(** Render, run the effects, render the state they queued, and so on,
    for at most [fuel] commits. *)
Fixpoint render_loop (fuel : nat) (prev : option (State N)) (s : State N)
    : State N :=
  match fuel with
  | O => s
  | S fuel' => render_loop fuel' (Some s) (run_effects prev s)
  end.

Definition handle (e : Event N) (s : State N) : State N :=
  match e with
  | SelectStyle id => setSelectedStyleId id s
  | ChangeDiameter v => setDiameter v s
  | ChangeCount v => setCount v s
  | ChangeTargetDate d => setTargetDate d s
  | ChangeRoomTempHours v => setRoomTempHours v s
  | ChangeColdFermentHours v => setColdFermentHours v s
  | ToggleCustomMode => setCustomMode (negb (customMode s)) s
  | ChangeHydration v => if customMode s then setHydration v s else s
  | ChangeSalt v => if customMode s then setSalt v s else s
  | ChangeOil v => if customMode s then setOil v s else s
  | ChangeSugar v => if customMode s then setSugar v s else s
  | ChangeYeast v => if customMode s then setYeast v s else s
  end.

(** Two commits settle every update (see [render_loop_settles]). *)
Definition mount : State N := render_loop 2 None initial.

Definition step (e : Event N) (s : State N) : State N :=
  render_loop 2 (Some s) (handle e s).

(** The states at rest: the component after the mount, or after an
    event, once the effects have run and queue nothing more. *)
Inductive settled : State N -> Prop :=
| settled_mount : settled mount
| settled_step e s : settled s -> settled (step e s).

(** Every state the component renders: the first render, of the initial
    state, and the renders that follow it as the effects queue their
    updates; the render that handles an event on a state at rest, and
    the renders that follow that one.  [commits] is the number of
    commits whose effects have run since.  (React runs the effects of a
    render, and renders what they queued, before it handles the next
    event.) *)
Inductive reachable : State N -> Prop :=
| reachable_mount commits : reachable (render_loop commits None initial)
| reachable_event e s commits :
    settled s -> reachable (render_loop commits (Some s) (handle e s)).

(** Two commits bring the component to rest: the render after the
    second commit, and every later one, is a state at rest. *)
Definition at_rest_after_two_commits : Prop :=
  forall commits : nat,
    settled (render_loop (2 + commits) None initial)
    /\ (forall e s,
           settled s ->
           settled (render_loop (2 + commits) (Some s) (handle e s))).

(** *** The values computed on every render *)

Definition Math_PI : N := $3.141592653589793.

Section Render.

Variable s : State N.

Definition style : DoughStyle.t N := STYLES (selectedStyleId s).

(** 1. Dough weight (oz -> g) *)
Definition radius : N := diameter s / $2.
Definition area : N := Math_PI * Math_pow radius $2.
Definition singleDoughWeightOz : N := area * DoughStyle.tf style.
Definition singleDoughWeightG : N := singleDoughWeightOz * $28.3495.
Definition totalDoughWeightG : N := singleDoughWeightG * count s.

(** 2. Baker's math *)
Definition totalPercent : N :=
  $100 + hydration s + salt s + oil s + sugar s + yeast s.
Definition flourG : N := totalDoughWeightG / (totalPercent / $100).

Definition ingredients : Ingredients N :=
  {| flour_g := Math_round flourG;
     water_g := Math_round (flourG * (hydration s / $100));
     salt_g := Math_round (flourG * (salt s / $100));
     oil_g := Math_round (flourG * (oil s / $100));
     sugar_g := Math_round (flourG * (sugar s / $100));
     yeast_g := Math_round (flourG * (yeast s / $100) * $10) / $10 |}.

(** 3. Timeline *)
Definition bakeDate : Date := targetDate s.
Definition ballDate : Date :=
  Date_of_number
    (time_minus bakeDate
       (Fermentation.ballingTime (DoughStyle.fermentation style)
        * $60 * $60 * $1000)).
Definition coldStartDate : Date :=
  Date_of_number
    (time_minus ballDate (coldFermentHours s * $60 * $60 * $1000)).
Definition startMixDate : Date :=
  Date_of_number
    (time_minus coldStartDate (roomTempHours s * $60 * $60 * $1000)).

End Render.

End Component.

End PizzaCalculator.

(** ** The formulas of the specification *)

(** The sum of a list of rationals. *)
Definition Qsum (l : list Q) : Q := fold_right Qplus 0 l.


(** ** A sample [Math] library

    Any implementation of [Math.exp] and [Math.pow] within the accuracy
    ECMA-262 asks for will do; this one sums the power series, and serves
    to run the engines on concrete recipes. *)

Section Series.

Context {N : Type} `{Number N}.
Local Open Scope js_scope.

(** [1 + x/k (1 + x/(k+1) (1 + ...))], [fuel] terms deep. *)
Fixpoint exp_horner (fuel : nat) (k : positive) (x : N) : N :=
  match fuel with
  | O => $1
  | S fuel' => $1 + (x / lit (Zpos k # 1)) * exp_horner fuel' (Pos.succ k) x
  end.

Definition exp_series (x : N) : N := exp_horner 30 1 x.

(** Halve or double [x] into [1/2, 2], counting the steps. *)
Fixpoint ln_reduce (fuel : nat) (x : N) (k : Z) : N * Z :=
  match fuel with
  | O => (x, k)
  | S fuel' =>
      if x >? $2 then ln_reduce fuel' (x / $2) (k + 1)%Z
      else if x <? $0.5 then ln_reduce fuel' (x * $2) (k - 1)%Z
      else (x, k)
  end.

(** [1/(2j+1) + z2 (1/(2j+3) + ...)]: the series of [atanh z / z] in
    [z2 = z^2]. *)
Fixpoint atanh_horner (fuel : nat) (j : positive) (z2 : N) : N :=
  match fuel with
  | O => $1 / lit (Zpos j # 1)
  | S fuel' =>
      $1 / lit (Zpos j # 1) + z2 * atanh_horner fuel' (j + 2)%positive z2
  end.

Definition ln_series (x : N) : N :=
  let '(m, k) := ln_reduce 1100 x 0%Z in
  let z := (m - $1) / (m + $1) in
  lit (k # 1) * $0.6931471805599453 + $2 * (z * atanh_horner 20 1 (z * z)).

Definition is_even (y : N) : bool :=
  let h := Math_round (y / $2) * $2 in (h <=? y) && (y <=? h).

(** [trim] cuts a result to the precision carried: nothing to do on
    binary64, thirty decimals on the rationals. *)
Variable trim : N -> N.

Definition exp_sample (x : N) : N := trim (exp_series x).

Definition pow_sample (x y : N) : N :=
  if x <? $0 then
    let r := exp_sample (trim (y * trim (ln_series ($0 - x)))) in
    if is_even y then r else $0 - r
  else exp_sample (trim (y * trim (ln_series x))).

Definition SampleMath : MathApprox N :=
  {| exp_approx := exp_sample; pow_approx := pow_sample |}.

End Series.

Definition trim30 (x : Q) : Q :=
  Qfloor (x * 1000000000000000000000000000000)
  # 1000000000000000000000000000000.

Definition ExactSample : MathLib Q := ExactMath (SampleMath trim30).
Definition IEEESample : MathLib float := IEEEMath (SampleMath (fun x => x)).

(** The whirlpool addition of [DEFAULT_RECIPE] with another recorded
    temperature. *)
Definition mosaic_at {N : Type} `{Number N} (temp : N) : HopAddition.t N :=
  HopAddition.mk "2" "Mosaic" (lit 2) (lit 11.5) (lit 0) whirlpool (Some temp).

(** ** Bitterness (4.2): the contribution of one addition *)

Section BitternessFormula.

Variable M : MathApprox Q.

(** Bigness factor times the time-utilization factor of [minutes]. *)
Definition utilization (og minutes : Q) : Q :=
  1.65 * Exact.pow M 0.000125 (og - 1)
  * ((1 - Exact.exp M (-0.04 * minutes)) / 4.15).

Definition temperature_utilization (temp : Q) : Q :=
  if Exact.ltb 180 temp then 0.5
  else if Exact.ltb 160 temp then 0.2 else 0.05.

(** The whirlpool temperature as the claim has it: the recorded one,
    200 when there is none. *)
Definition recorded_temperature (hop : HopAddition.t Q) : Q :=
  match HopAddition.whirlpoolTempF hop with
  | Some t => t
  | None => 200
  end.

(** The whirlpool temperature as the code has it: a recorded 0 counts as
    none. *)
Definition effective_temperature (hop : HopAddition.t Q) : Q :=
  match HopAddition.whirlpoolTempF hop with
  | Some t => if Qeq_bool t 0 then 200 else t
  | None => 200
  end.

Definition contribution
    (temperature : HopAddition.t Q -> Q) (og v : Q) (hop : HopAddition.t Q)
    : Q :=
  let aau := HopAddition.alphaAcid hop * HopAddition.weightOz hop in
  match HopAddition.type hop with
  | dry => 0
  | boil => aau * utilization og (HopAddition.timeMin hop) * 74.9 / v
  | whirlpool =>
      aau * (utilization og 20 * temperature_utilization (temperature hop))
      * 74.9 / v
  end.

End BitternessFormula.

(** ** Water chemistry (4.4): the table of the salts *)

Inductive Salt : Type :=
  Gypsum | CalciumChloride | Epsom | TableSalt | BakingSoda | Chalk.

Inductive Ion : Type := Ca | Mg | Na | Cl | SO4 | HCO3.

Definition all_salts : list Salt :=
  [Gypsum; CalciumChloride; Epsom; TableSalt; BakingSoda; Chalk].

(** ppm added to an ion by one gram of a salt in one gallon; 0 where the
    salt does not contribute. *)
Definition ppm_per_gram (s : Salt) (i : Ion) : Q :=
  match s, i with
  | Gypsum, Ca => 60
  | Gypsum, SO4 => 147
  | CalciumChloride, Ca => 72
  | CalciumChloride, Cl => 128
  | Epsom, Mg => 24
  | Epsom, SO4 => 98
  | TableSalt, Na => 104
  | TableSalt, Cl => 160
  | BakingSoda, Na => 72
  | BakingSoda, HCO3 => 184
  | Chalk, Ca => 105
  | Chalk, HCO3 => 158
  | _, _ => 0
  end.

Definition mass (a : SaltAdditions.t Q) (s : Salt) : Q :=
  match s with
  | Gypsum => SaltAdditions.gypsum a
  | CalciumChloride => SaltAdditions.cacl2 a
  | Epsom => SaltAdditions.epsom a
  | TableSalt => SaltAdditions.salt a
  | BakingSoda => SaltAdditions.bakingSoda a
  | Chalk => SaltAdditions.chalk a
  end.

Definition ion (w : WaterProfile.t Q) (i : Ion) : Q :=
  match i with
  | Ca => WaterProfile.ca w
  | Mg => WaterProfile.mg w
  | Na => WaterProfile.na w
  | Cl => WaterProfile.cl w
  | SO4 => WaterProfile.so4 w
  | HCO3 => WaterProfile.hco3 w
  end.

(** The contribution of the salts to one ion, in [v] gallons. *)
Definition ion_contribution (a : SaltAdditions.t Q) (v : Q) (i : Ion) : Q :=
  Qsum (map (fun s => ppm_per_gram s i * mass a s / v) all_salts).

(** Every salt mass times [k]. *)
Definition scale_salts (k : Q) (a : SaltAdditions.t Q) : SaltAdditions.t Q :=
  {| SaltAdditions.gypsum := k * SaltAdditions.gypsum a;
     SaltAdditions.cacl2 := k * SaltAdditions.cacl2 a;
     SaltAdditions.epsom := k * SaltAdditions.epsom a;
     SaltAdditions.salt := k * SaltAdditions.salt a;
     SaltAdditions.bakingSoda := k * SaltAdditions.bakingSoda a;
     SaltAdditions.chalk := k * SaltAdditions.chalk a |}.

(** ** Keg balance (4.6): the pressure polynomial *)

Definition pressure_polynomial (T V : Q) : Q :=
  -16.6999 - 0.0101059 * T + 0.00116512 * (T * T) + 0.173354 * T * V
  + 4.24267 * V - 0.0684226 * (V * V).

(** *** The pressure as computed on binary64 *)

(** [Math.pow(x, 2)] as the product [x * x], which is what the engines
    return for the exponent 2 (fdlibm's [pow] has the case "y is 2:
    return x*x"); every other power, and [Math.exp], as the sample. *)
Definition IEEEProduct : MathLib float :=
  IEEEMath
    {| exp_approx := exp_approx (SampleMath (fun x : float => x));
       pow_approx :=
         fun x y =>
           if PrimFloat.eqb y 2 then PrimFloat.mul x x
           else pow_approx (SampleMath (fun x : float => x)) x y |}.

(** The serving pressure of the default keg at [T] degrees, for [V]
    volumes. *)
Definition keg_pressure (T V : float) : float :=
  @servingPSI float IEEENumber IEEEProduct
    (setCo2Vol V (setTempF T DEFAULT_RECIPE)).

(** What the steppers of the two inputs give, [parseFloat] of the
    decimal: [T] whole degrees, and [k] tenths of a volume, the
    binary64 number nearest to [k / 10]. *)
Definition degrees (T : nat) : float := IEEE.lit (inject_Z (Z.of_nat T)).

Definition tenths (k : nat) : float :=
  IEEE.lit (inject_Z (Z.of_nat k) / 10).

(** The last tenth of a volume that is not beyond the vertex of the
    polynomial at [T] degrees. *)
Definition vertex_tenths (T : nat) : nat :=
  Z.to_nat
    (Qfloor ((0.173354 * inject_Z (Z.of_nat T) + 4.24267)
             / (2 * 0.0684226) * 10)).

(** At [T] degrees, from [k] tenths, where the pressure is [pressure],
    each of the next [n] steps of a tenth raises the pressure, or
    leaves it at 0. *)
Fixpoint rises_by_tenths (T pressure : float) (k n : nat) : bool :=
  match n with
  | O => true
  | S n' =>
      let next := keg_pressure T (tenths (S k)) in
      PrimFloat.leb pressure next
      && (if PrimFloat.ltb 0 next then PrimFloat.ltb pressure next else true)
      && rises_by_tenths T next (S k) n'
  end.

Definition rises_to_vertex (T : nat) : bool :=
  rises_by_tenths (degrees T) (keg_pressure (degrees T) (tenths 0)) 0
    (vertex_tenths T).

(** ** Color swatches (4.3): the thresholds and their bands *)

Definition THRESHOLDS : list Q := [2; 3; 4; 6; 9; 12; 15; 20; 24; 30].

(** The swatch of each [<=] branch, in order, then the swatch above 30. *)
Definition SWATCHES : list string :=
  ["#F8F753"; "#F6F513"; "#ECE61A"; "#D5BC26"; "#BF923B"; "#BF813A";
   "#BC6733"; "#8D4C32"; "#5D341A"; "#261716"; "#030403"]%string.

(** The swatch of band [i]. *)
Definition swatch (i : nat) : string := nth i SWATCHES EmptyString.

(** The position of the first element that passes [p]; the length of the
    list when none does. *)
Fixpoint first_index {A : Type} (p : A -> bool) (l : list A) : nat :=
  match l with
  | [] => O
  | x :: l' => if p x then O else S (first_index p l')
  end.

(** The band of a swatch: its position in [SWATCHES]. *)
Definition band (color : string) : nat :=
  first_index (String.eqb color) SWATCHES.

(** The band a color value falls in when the thresholds are tried in
    ascending order and the first match wins. *)
Definition first_match {N : Type} `{Number N} (srm : N) : nat :=
  first_index (fun t => leb srm (lit t)) THRESHOLDS.

(** ** Dough formulation (4.7): rounding and the auto-hydration rule *)

(** [r] is [x] rounded to the nearest multiple of [unit]. *)
Definition rounded_to (unit x r : Q) : Prop :=
  (exists k : Z, r == inject_Z k * unit)
  /\ x - unit / 2 < r /\ r <= x + unit / 2.

(** By how much a chosen duration exceeds the style's minimum, floored
    at 0. *)
Definition excess (chosen minimum : Q) : Q := Qmax 0 (chosen - minimum).

Definition clamp (lo hi x : Q) : Q := Qmax lo (Qmin hi x).

(** The hydration the rule aims at, before rounding: the default, plus
    0.5 per 12 hours of cold excess, plus 0.25 per hour of room excess,
    clamped into the style's range. *)
Definition hydration_target (style : DoughStyle.t Q) (room cold : Q) : Q :=
  let f := DoughStyle.fermentation style in
  let h := DoughStyle.hydration style in
  clamp (Hydration.min h) (Hydration.max h)
    (Hydration.default h
     + 0.5 * (excess cold (Fermentation.coldMin f) / 12)
     + 0.25 * excess room (Fermentation.roomMin f)).

(** In auto mode the hydration is what the effect computes for the
    current style and durations, the Numbers being compared up to
    [eqv]. *)
Definition hydration_follows_rule {N : Type} `{Number N}
    (eqv : N -> N -> Prop) (s : PizzaCalculator.State N) : Prop :=
  PizzaCalculator.customMode s = false ->
  eqv (PizzaCalculator.hydration s)
    (PizzaCalculator.calcHydration
       (STYLES (PizzaCalculator.selectedStyleId s))
       (PizzaCalculator.roomTempHours s)
       (PizzaCalculator.coldFermentHours s)).

(** ** Fermentation schedule (4.8): the range of a Date *)

(** A time value a Date can hold. *)
Definition in_Date_range (t : Z) : Prop :=
  (-8640000000000000 <= t <= 8640000000000000)%Z.

(** The number of milliseconds in [h] hours is the integer [ms]. *)
Definition whole_ms (h : Q) (ms : Z) : Prop :=
  h * 60 * 60 * 1000 == inject_Z ms.

(** *** What the inputs of the component give *)

(** A range input gives the whole numbers from its [min] to its [max]:
    its step is 1, and the minima of [STYLES] are whole. *)
Definition slider_gives (min max v : Q) : Prop :=
  exists k : Z, v == inject_Z k /\ min <= v <= max.

(** The text of a [datetime-local] input holds a year from 1 on, and
    [new Date] reads it as a local time; so does the text the effect
    makes of the next Friday.  The Date such a text denotes is the
    Invalid Date, or one not before the first of January of the year 1
    (-62135596800000 in UTC; here with a day to spare for the time
    zone). *)
Definition datetime_local (d : Date) : Prop :=
  match d with
  | Some T => (-62135683200000 <= T <= 8640000000000000)%Z
  | None => True
  end.

(** What an input hands to its handler, in the render of [s]: the two
    duration sliders run from the minimum to the maximum of the style
    selected. *)
Definition input_gives (s : PizzaCalculator.State Q)
    (e : PizzaCalculator.Event Q) : Prop :=
  let f :=
    DoughStyle.fermentation (STYLES (PizzaCalculator.selectedStyleId s)) in
  match e with
  | PizzaCalculator.ChangeRoomTempHours v =>
      slider_gives (Fermentation.roomMin f) (Fermentation.roomMax f) v
  | PizzaCalculator.ChangeColdFermentHours v =>
      slider_gives (Fermentation.coldMin f) (Fermentation.coldMax f) v
  | PizzaCalculator.ChangeTargetDate d => datetime_local d
  | _ => True
  end.

Section Inputs.

Variable nextFriday : Date.

(** The states at rest, and all the states rendered, when every event
    carries what its input gives. *)
Inductive settled_from_inputs : PizzaCalculator.State Q -> Prop :=
| from_inputs_mount :
    settled_from_inputs (PizzaCalculator.mount nextFriday)
| from_inputs_step e s :
    settled_from_inputs s -> input_gives s e ->
    settled_from_inputs (PizzaCalculator.step nextFriday e s).

Inductive rendered_from_inputs : PizzaCalculator.State Q -> Prop :=
| rendered_mount commits :
    rendered_from_inputs
      (PizzaCalculator.render_loop nextFriday commits None
         PizzaCalculator.initial)
| rendered_event e s commits :
    settled_from_inputs s -> input_gives s e ->
    rendered_from_inputs
      (PizzaCalculator.render_loop nextFriday commits (Some s)
         (PizzaCalculator.handle e s)).

End Inputs.

(** The durations are whole hours, at most 24 at room temperature and
    at most 72 in the cold, and the date is one of the input. *)
Definition timeline_inputs (s : PizzaCalculator.State Q) : Prop :=
  (exists r : Z,
      PizzaCalculator.roomTempHours s == inject_Z r /\ (0 <= r <= 24)%Z)
  /\ (exists c : Z,
         PizzaCalculator.coldFermentHours s == inject_Z c
         /\ (0 <= c <= 72)%Z)
  /\ datetime_local (PizzaCalculator.targetDate s).

(** ** Failure semantics: Numbers that are not finite *)

(** NaN or an infinity. *)
Definition SFnonfinite (x : spec_float) : bool :=
  match x with
  | S754_nan | S754_infinity _ => true
  | _ => false
  end.

(** * The rest of the tools

    What the source files hold besides the code of the engines: the
    remaining values and handlers of [BrewMaster], the history of the
    [UTMGenerator], the tap editor and the settings of [TapList], and
    the router through which [App] mounts the pages. *)

(** ** BrewMaster: the other rendered values *)

Section BrewMasterRender.

Context {N : Type} `{Number N} `{MathLib N}.
Local Open Scope js_scope.

Variable recipe : RecipeContext.t N.

(** The BU:GU ratio of the hop card, [ibu / ((og - 1) * 1000)]. *)
Definition buGuRatio : N :=
  ibu recipe / ((og (gravity recipe) - $1) * $1000).

(** The visual timeline of the fermentation profile:
    [recipe.fermentationSchedule.reduce((a, b) => a + b.days, 0)] and
    the width, in percent, of the bar of a step. *)
Definition totalDays : N :=
  fold_left (fun a b => a + FermentationStep.days b)
    (RecipeContext.fermentationSchedule recipe) $0.

Definition stepWidth (step : FermentationStep.t N) : N :=
  (FermentationStep.days step / totalDays) * $100.

Definition timelineWidths : list N :=
  map stepWidth (RecipeContext.fermentationSchedule recipe).

End BrewMasterRender.

(** [NumberInput]: [onChange(parseFloat(e.target.value) || 0)], as a
    function of the Number [parseFloat] returns (NaN for an empty
    field). *)
Definition NumberInput_onChange {N : Type} `{Number N} (parsed : N) : N :=
  or_default (Some parsed) (lit 0).

(** ** BrewMaster: the handlers *)

(** [{ ...prev, grainBill: grains }] and the like. *)
Definition setGrainBill {N : Type} (grains : list (Fermentable.t N))
    (prev : RecipeContext.t N) : RecipeContext.t N :=
  {| RecipeContext.name := RecipeContext.name prev;
     RecipeContext.style := RecipeContext.style prev;
     RecipeContext.batchSizeGal := RecipeContext.batchSizeGal prev;
     RecipeContext.efficiency := RecipeContext.efficiency prev;
     RecipeContext.grainBill := grains;
     RecipeContext.hopSchedule := RecipeContext.hopSchedule prev;
     RecipeContext.measuredOG := RecipeContext.measuredOG prev;
     RecipeContext.measuredFG := RecipeContext.measuredFG prev;
     RecipeContext.sourceWater := RecipeContext.sourceWater prev;
     RecipeContext.salts := RecipeContext.salts prev;
     RecipeContext.yeast := RecipeContext.yeast prev;
     RecipeContext.fermentationSchedule :=
       RecipeContext.fermentationSchedule prev;
     RecipeContext.kegConfig := RecipeContext.kegConfig prev |}.

Definition setHopSchedule {N : Type} (hops : list (HopAddition.t N))
    (prev : RecipeContext.t N) : RecipeContext.t N :=
  {| RecipeContext.name := RecipeContext.name prev;
     RecipeContext.style := RecipeContext.style prev;
     RecipeContext.batchSizeGal := RecipeContext.batchSizeGal prev;
     RecipeContext.efficiency := RecipeContext.efficiency prev;
     RecipeContext.grainBill := RecipeContext.grainBill prev;
     RecipeContext.hopSchedule := hops;
     RecipeContext.measuredOG := RecipeContext.measuredOG prev;
     RecipeContext.measuredFG := RecipeContext.measuredFG prev;
     RecipeContext.sourceWater := RecipeContext.sourceWater prev;
     RecipeContext.salts := RecipeContext.salts prev;
     RecipeContext.yeast := RecipeContext.yeast prev;
     RecipeContext.fermentationSchedule :=
       RecipeContext.fermentationSchedule prev;
     RecipeContext.kegConfig := RecipeContext.kegConfig prev |}.

(** [setRecipe({...recipe, kegConfig: {...recipe.kegConfig,
    lineResistance: v}})] *)
Definition setLineResistance {N : Type} (v : N) (recipe : RecipeContext.t N)
    : RecipeContext.t N :=
  {| RecipeContext.name := RecipeContext.name recipe;
     RecipeContext.style := RecipeContext.style recipe;
     RecipeContext.batchSizeGal := RecipeContext.batchSizeGal recipe;
     RecipeContext.efficiency := RecipeContext.efficiency recipe;
     RecipeContext.grainBill := RecipeContext.grainBill recipe;
     RecipeContext.hopSchedule := RecipeContext.hopSchedule recipe;
     RecipeContext.measuredOG := RecipeContext.measuredOG recipe;
     RecipeContext.measuredFG := RecipeContext.measuredFG recipe;
     RecipeContext.sourceWater := RecipeContext.sourceWater recipe;
     RecipeContext.salts := RecipeContext.salts recipe;
     RecipeContext.yeast := RecipeContext.yeast recipe;
     RecipeContext.fermentationSchedule :=
       RecipeContext.fermentationSchedule recipe;
     RecipeContext.kegConfig :=
       {| KegConfig.tempF :=
            KegConfig.tempF (RecipeContext.kegConfig recipe);
          KegConfig.co2Vol :=
            KegConfig.co2Vol (RecipeContext.kegConfig recipe);
          KegConfig.lineResistance := v;
          KegConfig.heightRiseFt :=
            KegConfig.heightRiseFt (RecipeContext.kegConfig recipe) |} |}.

(** [Date.now().toString()]: the decimal digits of the clock reading, an
    integer number of milliseconds. *)
Definition Date_now_toString (now : Z) : string :=
  NilZero.string_of_int (Z.to_int now).

(** A computed property [[field]: value] of a [Fermentable], the value
    being of the type of the field. *)
Module FermentableField.
Inductive t (N : Type) : Type :=
| id (value : string)
| name (value : string)
| weightLb (value : N)
| ppg (value : N)
| lovibond (value : N).
Arguments id {N} value.
Arguments name {N} value.
Arguments weightLb {N} value.
Arguments ppg {N} value.
Arguments lovibond {N} value.
End FermentableField.

(** A computed property [[field]: value] of a [HopAddition]. *)
Module HopField.
Inductive t (N : Type) : Type :=
| id (value : string)
| name (value : string)
| weightOz (value : N)
| alphaAcid (value : N)
| timeMin (value : N)
| type (value : HopUse)
| whirlpoolTempF (value : option N).
Arguments id {N} value.
Arguments name {N} value.
Arguments weightOz {N} value.
Arguments alphaAcid {N} value.
Arguments timeMin {N} value.
Arguments type {N} value.
Arguments whirlpoolTempF {N} value.
End HopField.

Section Handlers.

Context {N : Type} `{Number N}.
Local Open Scope js_scope.

(** [{ ...g, [field]: value }] *)
Definition withFermentableField
    (g : Fermentable.t N) (fv : FermentableField.t N) : Fermentable.t N :=
  match fv with
  | FermentableField.id v =>
      Fermentable.mk v (Fermentable.name g) (Fermentable.weightLb g)
        (Fermentable.ppg g) (Fermentable.lovibond g)
  | FermentableField.name v =>
      Fermentable.mk (Fermentable.id g) v (Fermentable.weightLb g)
        (Fermentable.ppg g) (Fermentable.lovibond g)
  | FermentableField.weightLb v =>
      Fermentable.mk (Fermentable.id g) (Fermentable.name g) v
        (Fermentable.ppg g) (Fermentable.lovibond g)
  | FermentableField.ppg v =>
      Fermentable.mk (Fermentable.id g) (Fermentable.name g)
        (Fermentable.weightLb g) v (Fermentable.lovibond g)
  | FermentableField.lovibond v =>
      Fermentable.mk (Fermentable.id g) (Fermentable.name g)
        (Fermentable.weightLb g) (Fermentable.ppg g) v
  end.

(** [{ ...h, [field]: value }] *)
Definition withHopField
    (h : HopAddition.t N) (fv : HopField.t N) : HopAddition.t N :=
  match fv with
  | HopField.id v =>
      HopAddition.mk v (HopAddition.name h) (HopAddition.weightOz h)
        (HopAddition.alphaAcid h) (HopAddition.timeMin h)
        (HopAddition.type h) (HopAddition.whirlpoolTempF h)
  | HopField.name v =>
      HopAddition.mk (HopAddition.id h) v (HopAddition.weightOz h)
        (HopAddition.alphaAcid h) (HopAddition.timeMin h)
        (HopAddition.type h) (HopAddition.whirlpoolTempF h)
  | HopField.weightOz v =>
      HopAddition.mk (HopAddition.id h) (HopAddition.name h) v
        (HopAddition.alphaAcid h) (HopAddition.timeMin h)
        (HopAddition.type h) (HopAddition.whirlpoolTempF h)
  | HopField.alphaAcid v =>
      HopAddition.mk (HopAddition.id h) (HopAddition.name h)
        (HopAddition.weightOz h) v (HopAddition.timeMin h)
        (HopAddition.type h) (HopAddition.whirlpoolTempF h)
  | HopField.timeMin v =>
      HopAddition.mk (HopAddition.id h) (HopAddition.name h)
        (HopAddition.weightOz h) (HopAddition.alphaAcid h) v
        (HopAddition.type h) (HopAddition.whirlpoolTempF h)
  | HopField.type v =>
      HopAddition.mk (HopAddition.id h) (HopAddition.name h)
        (HopAddition.weightOz h) (HopAddition.alphaAcid h)
        (HopAddition.timeMin h) v (HopAddition.whirlpoolTempF h)
  | HopField.whirlpoolTempF v =>
      HopAddition.mk (HopAddition.id h) (HopAddition.name h)
        (HopAddition.weightOz h) (HopAddition.alphaAcid h)
        (HopAddition.timeMin h) (HopAddition.type h) v
  end.

(** The handlers, as the functions they pass to [setRecipe]; [now] is
    the reading of the clock. *)
Definition updateGrain (id : string) (fv : FermentableField.t N)
    (prev : RecipeContext.t N) : RecipeContext.t N :=
  setGrainBill
    (map (fun g =>
            if String.eqb (Fermentable.id g) id
            then withFermentableField g fv else g)
       (RecipeContext.grainBill prev))
    prev.

Definition addGrain (now : Z) (prev : RecipeContext.t N)
    : RecipeContext.t N :=
  setGrainBill
    (RecipeContext.grainBill prev
     ++ [Fermentable.mk (Date_now_toString now) "New Grain" $0 $35 $2])
    prev.

Definition removeGrain (id : string) (prev : RecipeContext.t N)
    : RecipeContext.t N :=
  setGrainBill
    (filter (fun g => negb (String.eqb (Fermentable.id g) id))
       (RecipeContext.grainBill prev))
    prev.

Definition updateHop (id : string) (fv : HopField.t N)
    (prev : RecipeContext.t N) : RecipeContext.t N :=
  setHopSchedule
    (map (fun h =>
            if String.eqb (HopAddition.id h) id
            then withHopField h fv else h)
       (RecipeContext.hopSchedule prev))
    prev.

Definition addHop (now : Z) (prev : RecipeContext.t N)
    : RecipeContext.t N :=
  setHopSchedule
    (RecipeContext.hopSchedule prev
     ++ [HopAddition.mk (Date_now_toString now) "New Hop" $1 $10 $60
           boil None])
    prev.

Definition removeHop (id : string) (prev : RecipeContext.t N)
    : RecipeContext.t N :=
  setHopSchedule
    (filter (fun h => negb (String.eqb (HopAddition.id h) id))
       (RecipeContext.hopSchedule prev))
    prev.

End Handlers.

(** No fermentable, no hop of the recipe carries the [id]. *)
Definition unused_grain_id {N : Type} (id : string)
    (recipe : RecipeContext.t N) : Prop :=
  forall g, In g (RecipeContext.grainBill recipe) -> Fermentable.id g <> id.

Definition unused_hop_id {N : Type} (id : string)
    (recipe : RecipeContext.t N) : Prop :=
  forall h, In h (RecipeContext.hopSchedule recipe) -> HopAddition.id h <> id.

(** *** What the hop table makes of the schedule *)

(** The inputs of a row of the hop table set the name, the ounces, the
    alpha acid, the minutes and the use of the hop; no input is bound
    to [whirlpoolTempF], nor to [id]. *)
Definition hop_table_field {N : Type} (fv : HopField.t N) : bool :=
  match fv with
  | HopField.name _ | HopField.weightOz _ | HopField.alphaAcid _
  | HopField.timeMin _ | HopField.type _ => true
  | HopField.id _ | HopField.whirlpoolTempF _ => false
  end.

(** The recipes [BrewMaster] holds: [DEFAULT_RECIPE], from which every
    component starts, and what the handlers make of a recipe.  Every
    [setRecipe] but those of the three hop handlers spreads the recipe
    and sets another property: it leaves [hopSchedule] as it is. *)
Inductive BrewMaster_holds {N : Type} `{Number N}
    : RecipeContext.t N -> Prop :=
| holds_default : BrewMaster_holds DEFAULT_RECIPE
| holds_updateHop id fv recipe :
    hop_table_field fv = true ->
    BrewMaster_holds recipe -> BrewMaster_holds (updateHop id fv recipe)
| holds_addHop now recipe :
    BrewMaster_holds recipe -> BrewMaster_holds (addHop now recipe)
| holds_removeHop id recipe :
    BrewMaster_holds recipe -> BrewMaster_holds (removeHop id recipe)
| holds_other recipe recipe' :
    BrewMaster_holds recipe ->
    RecipeContext.hopSchedule recipe' = RecipeContext.hopSchedule recipe ->
    BrewMaster_holds recipe'.

(** No whirlpool temperature of 0 F is recorded, which
    [hop.whirlpoolTempF || 200] would take for none. *)
Definition no_zero_temperature (hop : HopAddition.t Q) : Prop :=
  match HopAddition.whirlpoolTempF hop with
  | Some t => ~ (t == 0)%Q
  | None => True
  end.

(** The whirlpool temperature is that of [DEFAULT_RECIPE], 170 F, or
    none. *)
Definition default_temperature (hop : HopAddition.t Q) : Prop :=
  HopAddition.whirlpoolTempF hop = Some 170%Q
  \/ HopAddition.whirlpoolTempF hop = None.

(** Zero of either sign, or NaN. *)
Definition SFzero_or_nan (x : spec_float) : bool :=
  match x with
  | S754_zero _ | S754_nan => true
  | _ => false
  end.

(** ** BrewMaster: the fermentation steps, objects shared by reference

    The handlers of the fermentation profile copy the array of steps
    and assign to a field of one of its elements:
    [const newSched = [...recipe.fermentationSchedule];
     newSched[idx].days = v;
     setRecipe({...recipe, fermentationSchedule: newSched})].
    The copy is shallow, so the step object assigned to is the one the
    previous state holds, and, for the two steps of [DEFAULT_RECIPE],
    the one the constant holds: [useState(DEFAULT_RECIPE)] starts every
    mounted [BrewMaster] from that constant.  The step objects are kept
    in a store, an array of steps is a list of references. *)

Module FermentationEditor.

(** [newSched[idx].name = v], [.tempF = v], [.days = v] *)
Inductive Assignment (N : Type) : Type :=
| name (value : string)
| tempF (value : N)
| days (value : N).
Arguments name {N} value.
Arguments tempF {N} value.
Arguments days {N} value.

(** What happens to the component. *)
Inductive Event (N : Type) : Type :=
| Mount
| Unmount
| Edit (idx : nat) (a : Assignment N)
| Remove (id : string)
| Add (now : Z).
Arguments Mount {N}.
Arguments Unmount {N}.
Arguments Edit {N} idx a.
Arguments Remove {N} id.
Arguments Add {N} now.

Section Store.

Context {N : Type} `{Number N}.
Local Open Scope js_scope.

Definition Ref : Type := nat.

(** The step objects by address, and [recipe.fermentationSchedule] of
    the mounted component ([None]: no component is mounted). *)
Record World : Type := mkWorld {
  objects : list (FermentationStep.t N);
  fermentationSchedule : option (list Ref)
}.

(** [DEFAULT_RECIPE.fermentationSchedule]: the array of the first two
    objects.  No handler assigns to an array, so it stays that. *)
Definition DEFAULT_fermentationSchedule : list Ref := [0%nat; 1%nat].

(** The module is loaded: the objects of [DEFAULT_RECIPE] exist. *)
Definition loaded : World :=
  mkWorld (RecipeContext.fermentationSchedule DEFAULT_RECIPE) None.

(** [useState<RecipeContext>(DEFAULT_RECIPE)] *)
Definition mount (w : World) : World :=
  mkWorld (objects w) (Some DEFAULT_fermentationSchedule).

Definition unmount (w : World) : World := mkWorld (objects w) None.

Definition assign (a : Assignment N) (step : FermentationStep.t N)
    : FermentationStep.t N :=
  match a with
  | name v =>
      FermentationStep.mk (FermentationStep.id step) v
        (FermentationStep.tempF step) (FermentationStep.days step)
  | tempF v =>
      FermentationStep.mk (FermentationStep.id step)
        (FermentationStep.name step) v (FermentationStep.days step)
  | days v =>
      FermentationStep.mk (FermentationStep.id step)
        (FermentationStep.name step) (FermentationStep.tempF step) v
  end.

(** The store with the object at [r] assigned to. *)
Fixpoint assign_at (r : Ref) (a : Assignment N)
    (objs : list (FermentationStep.t N)) : list (FermentationStep.t N) :=
  match objs, r with
  | [], _ => []
  | o :: objs', O => assign a o :: objs'
  | o :: objs', S r' => o :: assign_at r' a objs'
  end.

(** The [onChange] of the inputs of step [idx]; [None]: there is no
    such element (a TypeError) or no component. *)
Definition editStep (idx : nat) (a : Assignment N) (w : World)
    : option World :=
  match fermentationSchedule w with
  | None => None
  | Some sched =>
      let newSched := sched in
      match nth_error newSched idx with
      | None => None
      | Some r => Some (mkWorld (assign_at r a (objects w)) (Some newSched))
      end
  end.

(** [recipe.fermentationSchedule.filter(s => s.id !== step.id)] *)
Definition removeStep (id : string) (w : World) : option World :=
  match fermentationSchedule w with
  | None => None
  | Some sched =>
      Some (mkWorld (objects w)
              (Some (filter
                       (fun r =>
                          match nth_error (objects w) r with
                          | Some s =>
                              negb (String.eqb (FermentationStep.id s) id)
                          | None => true
                          end)
                       sched)))
  end.

(** [[...recipe.fermentationSchedule, { id: Date.now().toString(),
    name: 'New Step', tempF: 68, days: 3 }]] *)
Definition addStep (now : Z) (w : World) : option World :=
  match fermentationSchedule w with
  | None => None
  | Some sched =>
      Some (mkWorld
              (objects w
               ++ [FermentationStep.mk (Date_now_toString now) "New Step"
                     $68 $3])
              (Some (sched ++ [List.length (objects w)])))
  end.

Definition handle (e : Event N) (w : World) : option World :=
  match e with
  | Mount => Some (mount w)
  | Unmount => Some (unmount w)
  | Edit idx a => editStep idx a w
  | Remove id => removeStep id w
  | Add now => addStep now w
  end.

Inductive reachable : World -> Prop :=
| reachable_loaded : reachable loaded
| reachable_handle e w w' :
    reachable w -> handle e w = Some w' -> reachable w'.

(** The steps the component renders,
    [recipe.fermentationSchedule.map(...)]. *)
Definition rendered (w : World) : list (option (FermentationStep.t N)) :=
  match fermentationSchedule w with
  | None => []
  | Some sched => map (fun r => nth_error (objects w) r) sched
  end.

End Store.

End FermentationEditor.

(** ** PizzaCalculator: the formula in auto mode *)

(** In auto mode the percentages beside the hydration are the defaults
    of the selected style. *)
Definition percentages_follow_style {N : Type} `{Number N}
    (s : PizzaCalculator.State N) : Prop :=
  PizzaCalculator.customMode s = false ->
  let style := STYLES (PizzaCalculator.selectedStyleId s) in
  PizzaCalculator.salt s = Percent.default (DoughStyle.salt style)
  /\ PizzaCalculator.oil s = Percent.default (DoughStyle.oil style)
  /\ PizzaCalculator.sugar s = Percent.default (DoughStyle.sugar style)
  /\ PizzaCalculator.yeast s = Percent.default (DoughStyle.yeast style).

(** In auto mode the hydration lies in the range of the selected
    style. *)
Definition hydration_in_style_range (s : PizzaCalculator.State Q) : Prop :=
  PizzaCalculator.customMode s = false ->
  let range :=
    DoughStyle.hydration (STYLES (PizzaCalculator.selectedStyleId s)) in
  (Hydration.min range <= PizzaCalculator.hydration s
   <= Hydration.max range)%Q.

(** The state a style sets up in auto mode: its default percentages and
    durations, and the hydration of the rule at these durations; the
    size, the count and the date are those of [s]. *)
Definition style_setup {N : Type} `{Number N}
    (id : StyleId) (s : PizzaCalculator.State N) : PizzaCalculator.State N :=
  let style := STYLES id in
  let room := Fermentation.roomDefault (DoughStyle.fermentation style) in
  let cold := Fermentation.coldDefault (DoughStyle.fermentation style) in
  {| PizzaCalculator.selectedStyleId := id;
     PizzaCalculator.diameter := PizzaCalculator.diameter s;
     PizzaCalculator.count := PizzaCalculator.count s;
     PizzaCalculator.roomTempHours := room;
     PizzaCalculator.coldFermentHours := cold;
     PizzaCalculator.targetDate := PizzaCalculator.targetDate s;
     PizzaCalculator.customMode := false;
     PizzaCalculator.hydration :=
       PizzaCalculator.calcHydration style room cold;
     PizzaCalculator.salt := Percent.default (DoughStyle.salt style);
     PizzaCalculator.oil := Percent.default (DoughStyle.oil style);
     PizzaCalculator.sugar := Percent.default (DoughStyle.sugar style);
     PizzaCalculator.yeast := Percent.default (DoughStyle.yeast style) |}.

(** ** UTMGenerator ([PizzaCalculator.tsx], second unit) *)

Module UTMGenerator.

Record UTMParams : Type := mkParams {
  url : string;
  source : string;
  medium : string;
  name : string;
  term : string;
  content : string
}.

(** [interface HistoryItem extends UTMParams]: the parameters, and the
    three fields of its own. *)
Record HistoryItem : Type := mkItem {
  params_of : UTMParams;
  id : string;
  timestamp : Z;
  fullUrl : string
}.

Definition DEFAULTS : UTMParams :=
  mkParams EmptyString EmptyString EmptyString EmptyString EmptyString
    EmptyString.

(** The text inputs of the form. *)
Inductive Field : Type :=
| f_url | f_source | f_medium | f_name | f_term | f_content.

(** What the user does, and the timer of the copy button.  [Copy]
    carries the two readings of the clock, [Restore] the item whose
    edit button was pressed, [ClearHistory] the answer to [confirm]. *)
Inductive Event : Type :=
| Type_ (f : Field) (value : string)
| Copy (now_id now_timestamp : Z)
| CopiedTimeout
| Reset
| Restore (item : HistoryItem)
| ClearHistory (confirmed : bool).

Record State : Type := mkState {
  params : UTMParams;
  generatedUrl : string;
  copied : bool;
  history : list HistoryItem
}.

Section Component.

(** [new URL(baseUrl)], a [searchParams.set] for each pair in turn, and
    [toString()]; [None] when the constructor throws. *)
Variable URL_href : string -> list (string * string) -> option string.

(** [if (value) urlObj.searchParams.set(key, value)] *)
Definition utm (key value : string) : list (string * string) :=
  if String.eqb value EmptyString then [] else [(key, value)].

(** The effect that generates the URL, as the value it hands to
    [setGeneratedUrl]. *)
Definition generate (p : UTMParams) : string :=
  if String.eqb (url p) EmptyString then EmptyString
  else
    let baseUrl := url p in
    let baseUrl :=
      if negb (String.prefix "http://" baseUrl)
         && negb (String.prefix "https://" baseUrl)
      then ("https://" ++ baseUrl)%string
      else baseUrl in
    match
      URL_href baseUrl
        (utm "utm_source" (source p) ++ utm "utm_medium" (medium p)
         ++ utm "utm_campaign" (name p) ++ utm "utm_term" (term p)
         ++ utm "utm_content" (content p))
    with
    | Some href => href
    | None => EmptyString
    end.

(** [{...params, field: value}] *)
Definition withField (p : UTMParams) (f : Field) (value : string)
    : UTMParams :=
  match f with
  | f_url => mkParams value (source p) (medium p) (name p) (term p) (content p)
  | f_source => mkParams (url p) value (medium p) (name p) (term p) (content p)
  | f_medium => mkParams (url p) (source p) value (name p) (term p) (content p)
  | f_name => mkParams (url p) (source p) (medium p) value (term p) (content p)
  | f_term => mkParams (url p) (source p) (medium p) (name p) value (content p)
  | f_content => mkParams (url p) (source p) (medium p) (name p) (term p) value
  end.

(** [setParams] followed by the effect on [params]. *)
Definition setParams (p : UTMParams) (s : State) : State :=
  mkState p (generate p) (copied s) (history s).

(** The function [handleCopy] passes to [setHistory]. *)
Definition pushHistory (newItem : HistoryItem) (prev : list HistoryItem)
    : list HistoryItem :=
  match prev with
  | top :: _ =>
      if String.eqb (fullUrl top) (fullUrl newItem) then prev
      else firstn 50 (newItem :: prev)
  | [] => firstn 50 (newItem :: prev)
  end.

Definition handleCopy (now_id now_timestamp : Z) (s : State) : State :=
  if String.eqb (generatedUrl s) EmptyString then s
  else
    let newItem :=
      mkItem (params s) (Date_now_toString now_id) now_timestamp
        (generatedUrl s) in
    mkState (params s) (generatedUrl s) true (pushHistory newItem (history s)).

Definition handleReset (s : State) : State := setParams DEFAULTS s.

Definition handleHistoryRestore (item : HistoryItem) (s : State) : State :=
  setParams
    (mkParams (url (params_of item)) (source (params_of item))
       (medium (params_of item)) (name (params_of item))
       (term (params_of item)) (content (params_of item)))
    s.

Definition clearHistory (confirmed : bool) (s : State) : State :=
  if confirmed then mkState (params s) (generatedUrl s) (copied s) []
  else s.

Definition handle (e : Event) (s : State) : State :=
  match e with
  | Type_ f value => setParams (withField (params s) f value) s
  | Copy now_id now_timestamp => handleCopy now_id now_timestamp s
  | CopiedTimeout => mkState (params s) (generatedUrl s) false (history s)
  | Reset => handleReset s
  | Restore item => handleHistoryRestore item s
  | ClearHistory confirmed => clearHistory confirmed s
  end.

(** The component once mounted, [saved] being the history read from
    [localStorage]. *)
Definition mount (saved : list HistoryItem) : State :=
  mkState DEFAULTS (generate DEFAULTS) false saved.

(** The states the component can be in.  The edit button of an item
    exists for the items of the history only. *)
Inductive reachable (saved : list HistoryItem) : State -> Prop :=
| reachable_mount : reachable saved (mount saved)
| reachable_handle e s :
    reachable saved s ->
    (forall item, e = Restore item -> In item (history s)) ->
    reachable saved (handle e s).

(** The full URL of an item is the URL of its own parameters. *)
Definition consistent (item : HistoryItem) : Prop :=
  fullUrl item = generate (params_of item).

End Component.

End UTMGenerator.

(** ** TapList: the tap editor ([src/unnamed/part_000]) *)

(** [x === y] on Numbers: NaN equals nothing, the two zeros are equal. *)
Definition strict_equal {N : Type} `{Number N} (x y : N) : bool :=
  leb x y && leb y x.

(** A property that an object may lack: absent, present with the value
    [undefined], or present with a value.  A spread copies the present
    ones, whatever their value. *)
Inductive Optional (A : Type) : Type :=
| absent
| undefined
| present (a : A).
Arguments absent {A}.
Arguments undefined {A}.
Arguments present {A} a.

(** [interface Tap] *)
Module Tap.
Record t (N : Type) : Type := mk {
  id : N;
  name : string;
  style : string;
  abv : N;
  ibu : N;
  srm : N;
  description : string;
  brewDate : Optional string;
  kegDate : Optional string;
  batchNo : Optional string;
  image : Optional string;
  active : bool
}.
End Tap.

(** [Partial<Tap>]: every property may be absent. *)
Module PartialTap.
Record t (N : Type) : Type := mk {
  id : option N;
  name : option string;
  style : option string;
  abv : option N;
  ibu : option N;
  srm : option N;
  description : option string;
  brewDate : Optional string;
  kegDate : Optional string;
  batchNo : Optional string;
  image : Optional string;
  active : option bool
}.
End PartialTap.

(** [interface BrewfatherBatch], with its [recipe]. *)
Module BatchRecipe.
Record t (N : Type) : Type := mk {
  name : string;
  style_name : string;
  abv : N;
  ibu : N;
  color : N
}.
End BatchRecipe.

Module BrewfatherBatch.
Record t (N : Type) : Type := mk {
  _id : string;
  batchNo : N;
  name : string;
  status : string;
  brewDate : N;
  bottlingDate : option N;
  measuredAbv : option N;
  estimatedAbv : option N;
  ibu : option N;
  color : option N;
  recipe : BatchRecipe.t N
}.
End BrewfatherBatch.

(** What a call does: it returns, or it throws. *)
Inductive Outcome (A : Type) : Type :=
| Returns (a : A)
| Throws (error : string).
Arguments Returns {A} a.
Arguments Throws {A} error.

Module TapList.

(** The state of the editor: the taps, the batches fetched, the tap
    being edited and the form. *)
Record State (N : Type) : Type := mkState {
  taps : list (Tap.t N);
  batches : list (BrewfatherBatch.t N);
  editingTapId : option N;
  editForm : PartialTap.t N
}.

Section Component.

Context {N : Type} `{Number N}.
Local Open Scope js_scope.

(** The builtins: [n.toString()] of a Number, and the date part
    [toISOString().split('T')[0]] of a valid time value. *)
Variable Number_toString : N -> string.
Variable ISO_date : Z -> string.

(** [{ ...tap }] *)
Definition spread (tap : Tap.t N) : PartialTap.t N :=
  {| PartialTap.id := Some (Tap.id tap);
     PartialTap.name := Some (Tap.name tap);
     PartialTap.style := Some (Tap.style tap);
     PartialTap.abv := Some (Tap.abv tap);
     PartialTap.ibu := Some (Tap.ibu tap);
     PartialTap.srm := Some (Tap.srm tap);
     PartialTap.description := Some (Tap.description tap);
     PartialTap.brewDate := Tap.brewDate tap;
     PartialTap.kegDate := Tap.kegDate tap;
     PartialTap.batchNo := Tap.batchNo tap;
     PartialTap.image := Tap.image tap;
     PartialTap.active := Some (Tap.active tap) |}.

Definition over {A : Type} (form : option A) (old : A) : A :=
  match form with
  | Some v => v
  | None => old
  end.

Definition over_optional {A : Type} (form old : Optional A) : Optional A :=
  match form with
  | absent => old
  | _ => form
  end.

(** [{ ...t, ...editForm }] *)
Definition merge (t : Tap.t N) (form : PartialTap.t N) : Tap.t N :=
  {| Tap.id := over (PartialTap.id form) (Tap.id t);
     Tap.name := over (PartialTap.name form) (Tap.name t);
     Tap.style := over (PartialTap.style form) (Tap.style t);
     Tap.abv := over (PartialTap.abv form) (Tap.abv t);
     Tap.ibu := over (PartialTap.ibu form) (Tap.ibu t);
     Tap.srm := over (PartialTap.srm form) (Tap.srm t);
     Tap.description :=
       over (PartialTap.description form) (Tap.description t);
     Tap.brewDate :=
       over_optional (PartialTap.brewDate form) (Tap.brewDate t);
     Tap.kegDate := over_optional (PartialTap.kegDate form) (Tap.kegDate t);
     Tap.batchNo := over_optional (PartialTap.batchNo form) (Tap.batchNo t);
     Tap.image := over_optional (PartialTap.image form) (Tap.image t);
     Tap.active := over (PartialTap.active form) (Tap.active t) |}.

(** [handleEditClick]; the fetch of the batches it may start is left
    out. *)
Definition handleEditClick (tap : Tap.t N) (s : State N) : State N :=
  mkState (taps s) (batches s) (Some (Tap.id tap)) (spread tap).

(** [handleSaveTap]; of [saveTaps], the [setTaps]. *)
Definition handleSaveTap (s : State N) : State N :=
  match editingTapId s with
  | None => s
  | Some editing =>
      if negb (ToBoolean editing) then s
      else
        let updatedTaps :=
          map (fun t =>
                 if strict_equal (Tap.id t) editing
                 then merge t (editForm s) else t)
            (taps s) in
        mkState updatedTaps (batches s) None (editForm s)
  end.

(** [new Date(ts).toISOString().split('T')[0]]: [toISOString] throws a
    RangeError on an Invalid Date. *)
Definition toDateString (ts : N) : Outcome string :=
  match TimeClip ts with
  | Some t => Returns (ISO_date t)
  | None => Throws "RangeError"
  end.

(** [value ? toDateString(value) : undefined] *)
Definition date_property (value : option N) : Outcome (Optional string) :=
  match value with
  | Some ts =>
      if ToBoolean ts then
        match toDateString ts with
        | Returns date => Returns (present date)
        | Throws error => Throws error
        end
      else Returns undefined
  | None => Returns undefined
  end.

(** [batches.find(b => b._id === batchId)] *)
Definition find_batch (batchId : string) (l : list (BrewfatherBatch.t N))
    : option (BrewfatherBatch.t N) :=
  find (fun b => String.eqb (BrewfatherBatch._id b) batchId) l.

Definition finalAbv (batch : BrewfatherBatch.t N) : N :=
  or_default (BrewfatherBatch.measuredAbv batch)
    (or_default (BrewfatherBatch.estimatedAbv batch)
       (BatchRecipe.abv (BrewfatherBatch.recipe batch))).

Definition finalIbu (batch : BrewfatherBatch.t N) : N :=
  or_default (BrewfatherBatch.ibu batch)
    (BatchRecipe.ibu (BrewfatherBatch.recipe batch)).

Definition finalSrm (batch : BrewfatherBatch.t N) : N :=
  or_default (BrewfatherBatch.color batch)
    (BatchRecipe.color (BrewfatherBatch.recipe batch)).

(** [assignBatch], with the update it hands to [setEditForm] applied to
    the form: the state with the form the updater returns, or what the
    updater throws.  (React runs the updater; what it throws is thrown
    out of the render of the component.) *)
Definition assignBatch (batchId : string) (s : State N)
    : Outcome (State N) :=
  match find_batch batchId (batches s) with
  | None => Returns s
  | Some batch =>
      let prev := editForm s in
      match date_property (Some (BrewfatherBatch.brewDate batch)) with
      | Throws error => Throws error
      | Returns brewDate =>
          match date_property (BrewfatherBatch.bottlingDate batch) with
          | Throws error => Throws error
          | Returns kegDate =>
              Returns
                (mkState (taps s) (batches s) (editingTapId s)
                   {| PartialTap.id := PartialTap.id prev;
                      PartialTap.name := Some (BrewfatherBatch.name batch);
                      PartialTap.style :=
                        Some (BatchRecipe.style_name
                                (BrewfatherBatch.recipe batch));
                      PartialTap.abv := Some (finalAbv batch);
                      PartialTap.ibu := Some (finalIbu batch);
                      PartialTap.srm := Some (finalSrm batch);
                      PartialTap.description := PartialTap.description prev;
                      PartialTap.brewDate := brewDate;
                      PartialTap.kegDate := kegDate;
                      PartialTap.batchNo :=
                        present
                          (Number_toString (BrewfatherBatch.batchNo batch));
                      PartialTap.image := PartialTap.image prev;
                      PartialTap.active := Some true |})
          end
      end
  end.

End Component.

End TapList.

(** A date property whose value is a Number other than 0 and NaN that
    is no time value of a Date. *)
Definition invalid_date {N : Type} `{Number N} (value : option N) : Prop :=
  exists ts, value = Some ts /\ ToBoolean ts = true /\ TimeClip ts = None.

(** ** TapList: the settings and [localStorage] *)

Module AppSettings.

Record Brewfather : Type := mkBrewfather {
  userId : string;
  apiKey : string
}.

Inductive Method : Type := PUT | POST.

Record Storage : Type := mkStorage {
  enabled : bool;
  url : string;
  method : Method;
  authHeader : string;
  authToken : string
}.

Record t : Type := mk {
  brewfather : Brewfather;
  storage : Storage
}.

End AppSettings.

Definition DEFAULT_SETTINGS : AppSettings.t :=
  {| AppSettings.brewfather :=
       AppSettings.mkBrewfather EmptyString EmptyString;
     AppSettings.storage :=
       AppSettings.mkStorage false EmptyString AppSettings.PUT
         "Authorization" EmptyString |}.

(** [localStorage]: the items by key. *)
Module LocalStorage.

Definition t : Type := string -> option string.

Definition getItem (key : string) (items : t) : option string := items key.

Definition setItem (key value : string) (items : t) : t :=
  fun k => if String.eqb k key then Some value else items k.

End LocalStorage.

Module TapListSettings.

(** The page: what [localStorage] holds and, while the component is
    mounted, its settings. *)
Record World : Type := mkWorld {
  items : LocalStorage.t;
  settings : option AppSettings.t
}.

Inductive Event : Type :=
| Mount
| SetSettings (value : AppSettings.t)
| Unmount.

Section Component.

(** [JSON.stringify] of the settings, and [JSON.parse] read at the type
    the code gives its result; it throws a SyntaxError on a text that
    is no JSON. *)
Variable JSON_stringify : AppSettings.t -> string.
Variable JSON_parse_settings : string -> Outcome AppSettings.t.
Variable JSON_parse_brewfather : string -> Outcome AppSettings.Brewfather.

(** A string is truthy unless it is empty; [null] is falsy. *)
Definition truthy (item : option string) : option string :=
  match item with
  | Some text => if String.eqb text EmptyString then None else Some text
  | None => None
  end.

(** The initializer of [useState<AppSettings>]. *)
Definition initialSettings (items : LocalStorage.t) : Outcome AppSettings.t :=
  let saved := LocalStorage.getItem "taplist_settings" items in
  (* Migration check for old format *)
  let oldBf := LocalStorage.getItem "bf_settings" items in
  match truthy oldBf with
  | Some text =>
      match JSON_parse_brewfather text with
      | Returns parsed =>
          Returns
            {| AppSettings.brewfather := parsed;
               AppSettings.storage := AppSettings.storage DEFAULT_SETTINGS |}
      | Throws error => Throws error
      end
  | None =>
      match truthy saved with
      | Some text => JSON_parse_settings text
      | None => Returns DEFAULT_SETTINGS
      end
  end.

(** The effect on [settings]:
    [localStorage.setItem('taplist_settings', JSON.stringify(settings))]. *)
Definition saveSettings (value : AppSettings.t) (items : LocalStorage.t)
    : LocalStorage.t :=
  LocalStorage.setItem "taplist_settings" (JSON_stringify value) items.

Definition mount (w : World) : Outcome World :=
  match initialSettings (items w) with
  | Returns value => Returns (mkWorld (saveSettings value (items w)) (Some value))
  | Throws error => Throws error
  end.

(** [setSettings], from the configuration dialog. *)
Definition setSettings (value : AppSettings.t) (w : World) : World :=
  mkWorld (saveSettings value (items w)) (Some value).

Definition unmount (w : World) : World := mkWorld (items w) None.

Definition handle (e : Event) (w : World) : Outcome World :=
  match e with
  | Mount => mount w
  | SetSettings value => Returns (setSettings value w)
  | Unmount => Returns (unmount w)
  end.

(** The worlds that follow [w0]. *)
Inductive follows (w0 : World) : World -> Prop :=
| follows_refl : follows w0 w0
| follows_handle e w w' :
    follows w0 w -> handle e w = Returns w' -> follows w0 w'.

End Component.

End TapListSettings.

(** ** The router ([src/unnamed/part_003]), through which the pages
    are mounted *)

Module Router.

Import Ascii.

(** [s.includes('?')] and the like, for one character. *)
Fixpoint includes (c : ascii) (s : string) : bool :=
  match s with
  | EmptyString => false
  | String c' rest => Ascii.eqb c' c || includes c rest
  end.

(** [s.split(c)[0]]: the text before the first [c]. *)
Fixpoint before (c : ascii) (s : string) : string :=
  match s with
  | EmptyString => EmptyString
  | String c' rest =>
      if Ascii.eqb c' c then EmptyString else String c' (before c rest)
  end.

(** [s.endsWith(c)] *)
Fixpoint endsWith (c : ascii) (s : string) : bool :=
  match s with
  | EmptyString => false
  | String c' EmptyString => Ascii.eqb c' c
  | String _ rest => endsWith c rest
  end.

(** [s.slice(1)] and [s.slice(0, -1)] *)
Definition slice_1 (s : string) : string :=
  match s with
  | EmptyString => EmptyString
  | String _ rest => rest
  end.

Fixpoint slice_0_minus_1 (s : string) : string :=
  match s with
  | EmptyString => EmptyString
  | String _ EmptyString => EmptyString
  | String c rest => String c (slice_0_minus_1 rest)
  end.

(** [normalizePath] of [HashRouter]. *)
Definition normalizePath (hash : string) : string :=
  let path := slice_1 hash in                       (* Remove '#' *)
  let path :=
    if includes "?"%char path then before "?"%char path else path in
  let path :=
    if (1 <? String.length path)%nat && endsWith "/"%char path
    then slice_0_minus_1 path else path in
  if String.eqb path EmptyString then "/"%string else path.

(** [Routes]: the loop over the routes, each a path and its element;
    [fallback] is the wildcard seen last. *)
Fixpoint scan {A : Type} (currentPath : string)
    (routes : list (string * A)) (fallback : option A) : option A :=
  match routes with
  | [] => fallback
  | (routePath, child) :: rest =>
      if String.eqb routePath currentPath then Some child
      else
        scan currentPath rest
          (if String.eqb routePath "*" then Some child else fallback)
  end.

Definition Routes {A : Type} (currentPath : string)
    (routes : list (string * A)) : option A :=
  scan currentPath routes None.

(** The pages of [App] ([src/unnamed/part_002]). *)
Inductive Page : Type :=
| Home
| Tools
| PizzaCalculator
| FleetLog
| BrewMaster
| BigCommerceColorTool
| UTMGenerator
| Navigate (to : string).

Definition App_routes : list (string * Page) :=
  [ ("/", Home);
    ("/tools", Tools);
    ("/tools/pizza", PizzaCalculator);
    ("/tools/fleet", FleetLog);
    ("/tools/brewing", BrewMaster);
    ("/tools/bc-colors", BigCommerceColorTool);
    ("/tools/utm-generator", UTMGenerator);
    ("*", Navigate "/") ]%string.

(** What [App] renders for a hash of the location. *)
Definition App (hash : string) : option Page :=
  Routes (normalizePath hash) App_routes.

End Router.

(** ** Samples *)

(** A stand-in for the URL builtin: the base, then the pairs. *)
Definition sample_href (base : string) (pairs : list (string * string))
    : option string :=
  Some (fold_left
          (fun href pair =>
             (href ++ "&" ++ fst pair ++ "=" ++ snd pair)%string)
          pairs (base ++ "/?")%string).

(** A URL typed, a source typed, and the link copied. *)
Definition sample_history : UTMGenerator.State :=
  UTMGenerator.handle sample_href
    (UTMGenerator.Copy 1700000000000 1700000000001)
    (UTMGenerator.handle sample_href
       (UTMGenerator.Type_ UTMGenerator.f_source "newsletter")
       (UTMGenerator.handle sample_href
          (UTMGenerator.Type_ UTMGenerator.f_url "dewey.beer")
          (UTMGenerator.mount sample_href []))).

(** The taps [loadTaps] makes up when nothing is stored:
    [Array(DEFAULT_TAP_COUNT).fill(null).map((_, i) => ({ id: i + 1,
    ... }))]. *)
Definition DEFAULT_TAP_COUNT : nat := 4.

Definition default_taps {N : Type} `{Number N} : list (Tap.t N) :=
  map (fun i =>
         Tap.mk (add (lit (inject_Z (Z.of_nat i))) (lit 1)) "Empty Tap"
           "Ready for Beer" (lit 0) (lit 0) (lit 3)
           "Nothing pouring right now." absent absent absent absent false)
    (seq 0 DEFAULT_TAP_COUNT).

(** A batch brewed, by its record, at 1e16 ms: beyond the last Date. *)
Definition sample_batch : BrewfatherBatch.t float :=
  BrewfatherBatch.mk "b1" 12%float "Pale Ale" "Completed" 1e16%float None
    None (Some 5.2%float) None None
    (BatchRecipe.mk "Pale Ale" "American Pale Ale" 5%float 35%float 6%float).

(** Stand-ins for [JSON.stringify] and [JSON.parse]: one text, read
    back as one value. *)
Definition sample_settings : AppSettings.t :=
  {| AppSettings.brewfather := AppSettings.mkBrewfather "user" "key";
     AppSettings.storage :=
       AppSettings.mkStorage true "http://myserver/taps" AppSettings.PUT
         "Authorization" "token" |}.

Definition sample_items : LocalStorage.t :=
  LocalStorage.setItem "bf_settings" "{}" (fun _ => None).

Definition sample_item : UTMGenerator.HistoryItem :=
  UTMGenerator.mkItem
    (UTMGenerator.mkParams "dewey.beer" "newsletter" EmptyString EmptyString
       EmptyString EmptyString)
    "1700000000000" 1700000000001
    "https://dewey.beer/?&utm_source=newsletter".

(** Stand-ins for [JSON.stringify] and [JSON.parse]. *)
Definition sample_stringify (value : AppSettings.t) : string := "{...}".

Definition sample_parse_settings (text : string) : Outcome AppSettings.t :=
  Returns sample_settings.

Definition sample_parse_brewfather (text : string)
    : Outcome AppSettings.Brewfather :=
  Returns (AppSettings.mkBrewfather "old user" "old key").

(** The tap list as [loadTaps] leaves it when nothing is stored: the
    default taps, no batch, no tap being edited, the form [{}]. *)
Definition sample_taps : TapList.State Q :=
  TapList.mkState default_taps [] None
    (PartialTap.mk None None None None None None None absent absent absent
       absent None).

Definition sample_tap : Tap.t Q := nth 1 default_taps (Tap.mk 0 EmptyString
  EmptyString 0 0 0 EmptyString absent absent absent absent false).
(** * Properties *)

(** ** The exact reading: tools *)

Unset Implicit Arguments.
Local Open Scope Q_scope.

(** Unfolds the operations of [Number] and [MathLib] at the rationals. *)
Ltac exact_ops :=
  cbv [lit add sub mul div ltb leb ToBoolean Object_is Math_max Math_min
       Math_round TimeClip of_time ExactNumber Math_exp Math_pow ExactMath]
    in *.

Lemma Exact_ltb_lt (x y : Q) : Exact.ltb x y = true <-> x < y.
Proof.
  unfold Exact.ltb. rewrite negb_true_iff, <- not_true_iff_false, Qle_bool_iff.
  split; [apply Qnot_le_lt | apply Qlt_not_le].
Qed.

Lemma Exact_ltb_ge (x y : Q) : Exact.ltb x y = false <-> y <= x.
Proof.
  unfold Exact.ltb. rewrite negb_false_iff. apply Qle_bool_iff.
Qed.

Lemma Qle_bool_gt (x y : Q) : Qle_bool x y = false <-> y < x.
Proof.
  rewrite <- not_true_iff_false, Qle_bool_iff.
  split; [apply Qnot_le_lt | apply Qlt_not_le].
Qed.

(** Case analysis on a comparison of rationals. *)
Ltac Qcase x y :=
  let H := fresh "Hle" in
  destruct (Qle_bool x y) eqn:H;
  [apply Qle_bool_iff in H | apply Qle_bool_gt in H].

(** Linear arithmetic over the rationals, once the divisions by a
    constant are written as products. *)
Ltac Qinv_consts :=
  unfold Qdiv in *;
  repeat match goal with
         | |- context [Qinv (Qmake ?n ?d)] =>
             let r := eval vm_compute in (Qinv (Qmake n d)) in
             change (Qinv (Qmake n d)) with r in *
         | H : context [Qinv (Qmake ?n ?d)] |- _ =>
             let r := eval vm_compute in (Qinv (Qmake n d)) in
             change (Qinv (Qmake n d)) with r in *
         end.

Ltac Qlra := Qinv_consts; lra.

Lemma Exact_max_spec (x y : Q) :
  (x <= y /\ Exact.max x y = y) \/ (y < x /\ Exact.max x y = x).
Proof. unfold Exact.max. Qcase x y; auto. Qed.

Lemma Exact_min_spec (x y : Q) :
  (x <= y /\ Exact.min x y = x) \/ (y < x /\ Exact.min x y = y).
Proof. unfold Exact.min. Qcase x y; auto. Qed.

(** Case analysis on every [Math.max] and [Math.min] of the goal. *)
Ltac Exact_minmax :=
  repeat match goal with
         | |- context [Exact.max ?a ?b] =>
             let E := fresh "E" in
             destruct (Exact_max_spec a b) as [[? E]|[? E]];
             rewrite E in *; clear E
         | |- context [Exact.min ?a ?b] =>
             let E := fresh "E" in
             destruct (Exact_min_spec a b) as [[? E]|[? E]];
             rewrite E in *; clear E
         end.

(** [Math.round] yields the integer nearest to its argument. *)
Lemma Exact_round_nearest (x : Q) :
  Exact.round x = inject_Z (Qfloor (x + (1 # 2)))
  /\ x - (1 # 2) < Exact.round x <= x + (1 # 2).
Proof.
  unfold Exact.round. split; [reflexivity|].
  pose proof (Qfloor_le (x + (1 # 2))) as Hlo.
  pose proof (Qlt_floor (x + (1 # 2))) as Hhi.
  rewrite inject_Z_plus in Hhi. change (inject_Z 1) with 1 in Hhi.
  split; lra.
Qed.

(** [xs.reduce((acc, x) => acc + f(x), a)] adds the sum of the [f(x)]
    to [a]. *)
Lemma fold_left_Qsum {A : Type} (f : A -> Q) (l : list A) (a : Q) :
  fold_left (fun acc x => acc + f x) l a == a + Qsum (map f l).
Proof.
  revert a. induction l as [|x l IH]; intros a; simpl.
  - ring.
  - rewrite IH. ring.
Qed.

(** ** The machine reading: tools *)

(** Unfolds the operations of [Number] and [MathLib] at binary64. *)
Ltac ieee_ops :=
  cbv [lit add sub mul div ltb leb ToBoolean Object_is Math_max Math_min
       Math_round TimeClip of_time IEEENumber Math_exp Math_pow IEEEMath]
    in *.

(** Every decimal literal of the source, read by [IEEE.lit], is the
    binary64 number the decimal denotes. *)
Lemma literals_binary64 :
  IEEE.lit 131.25 = 131.25%float
  /\ IEEE.lit 1.65 = 1.65%float
  /\ IEEE.lit 0.000125 = 0.000125%float
  /\ IEEE.lit (-0.04) = (-0.04)%float
  /\ IEEE.lit 4.15 = 4.15%float
  /\ IEEE.lit 0.5 = 0.5%float
  /\ IEEE.lit 0.2 = 0.2%float
  /\ IEEE.lit 0.05 = 0.05%float
  /\ IEEE.lit 74.9 = 74.9%float
  /\ IEEE.lit 1.4922 = 1.4922%float
  /\ IEEE.lit 0.6859 = 0.6859%float
  /\ IEEE.lit 0.25 = 0.25%float
  /\ IEEE.lit 1.25 = 1.25%float
  /\ IEEE.lit 3785.41 = 3785.41%float
  /\ IEEE.lit (-16.6999) = (-16.6999)%float
  /\ IEEE.lit 0.0101059 = 0.0101059%float
  /\ IEEE.lit 0.00116512 = 0.00116512%float
  /\ IEEE.lit 0.173354 = 0.173354%float
  /\ IEEE.lit 4.24267 = 4.24267%float
  /\ IEEE.lit 0.0684226 = 0.0684226%float
  /\ IEEE.lit 28.3495 = 28.3495%float
  /\ IEEE.lit 3.141592653589793 = 3.141592653589793%float
  /\ IEEE.lit 0.07 = 0.07%float
  /\ IEEE.lit 0.085 = 0.085%float
  /\ IEEE.lit 0.10 = 0.10%float
  /\ IEEE.lit 0.075 = 0.075%float
  /\ IEEE.lit 0.13 = 0.13%float
  /\ IEEE.lit 2.5 = 2.5%float
  /\ IEEE.lit 1.5 = 1.5%float
  /\ IEEE.lit 0.4 = 0.4%float
  /\ IEEE.lit 0.6 = 0.6%float
  /\ IEEE.lit 5.5 = 5.5%float
  /\ IEEE.lit 0.125 = 0.125%float
  /\ IEEE.lit 1.8 = 1.8%float
  /\ IEEE.lit 11.5 = 11.5%float
  /\ IEEE.lit 0.75 = 0.75%float
  /\ IEEE.lit 2.4 = 2.4%float
  /\ IEEE.lit 2.2 = 2.2%float.
Proof. repeat split; vm_compute; reflexivity. Qed.

(** ** The machine reading: the order of binary64 *)

Lemma SFcompare_antisym (x y : spec_float) :
  SFcompare y x = option_map CompOpp (SFcompare x y).
Proof.
  destruct x as [sx|sx| |sx mx ex], y as [sy|sy| |sy my ey]; simpl;
    try reflexivity;
    try (destruct sx; reflexivity); try (destruct sy; reflexivity);
    try (destruct sx, sy; reflexivity).
  rewrite (Z.compare_antisym ex ey).
  change (Pos.compare_cont Eq my mx) with (Pos.compare my mx).
  change (Pos.compare_cont Eq mx my) with (Pos.compare mx my).
  rewrite (Pos.compare_antisym mx my).
  destruct sx, sy; simpl; try reflexivity;
    destruct (ex ?= ey)%Z; simpl; try reflexivity;
    destruct (mx ?= my)%positive; reflexivity.
Qed.

Lemma SFcompare_lt_trans (x y z : spec_float) :
  SFcompare x y = Some Lt ->
  SFcompare y z = Some Lt \/ SFcompare y z = Some Eq ->
  SFcompare x z = Some Lt.
Proof.
  destruct x as [sx|sx| |sx mx ex], y as [sy|sy| |sy my ey],
    z as [sz|sz| |sz mz ez];
    simpl; intros H1 [H2|H2]; try discriminate;
    repeat match goal with s : bool |- _ => destruct s end;
    try discriminate; try reflexivity;
    change (Pos.compare_cont Eq) with Pos.compare in *;
    repeat match goal with
      | H : context [(?a ?= ?b)%Z] |- _ =>
          destruct (Z.compare_spec a b); try discriminate
      end;
    repeat match goal with
      | H : context [(?a ?= ?b)%positive] |- _ =>
          destruct (Pos.compare_spec a b); try discriminate
      end;
    subst;
    repeat match goal with
      | |- context [(?a ?= ?b)%Z] => destruct (Z.compare_spec a b); try lia
      end;
    repeat match goal with
      | |- context [(?a ?= ?b)%positive] =>
          destruct (Pos.compare_spec a b); try lia
      end;
    try reflexivity; try discriminate.
Qed.

(** [x <= y] excludes [y < x], and [x < y] excludes [y <= x]. *)
Lemma float_leb_not_gt (x y : float) :
  PrimFloat.leb x y = true -> PrimFloat.ltb y x = false.
Proof.
  rewrite FloatAxioms.leb_spec, FloatAxioms.ltb_spec. unfold SFleb, SFltb.
  rewrite (SFcompare_antisym (Prim2SF x) (Prim2SF y)).
  destruct (SFcompare (Prim2SF x) (Prim2SF y)) as [[]|]; simpl; congruence.
Qed.

Lemma float_ltb_not_ge (x y : float) :
  PrimFloat.ltb x y = true -> PrimFloat.leb y x = false.
Proof.
  rewrite FloatAxioms.leb_spec, FloatAxioms.ltb_spec. unfold SFleb, SFltb.
  rewrite (SFcompare_antisym (Prim2SF x) (Prim2SF y)).
  destruct (SFcompare (Prim2SF x) (Prim2SF y)) as [[]|]; simpl; congruence.
Qed.

Lemma float_ltb_leb_trans (x y z : float) :
  PrimFloat.ltb x y = true -> PrimFloat.leb y z = true ->
  PrimFloat.leb x z = true.
Proof.
  rewrite !FloatAxioms.leb_spec, FloatAxioms.ltb_spec. unfold SFleb, SFltb.
  intros Hxy Hyz.
  rewrite (SFcompare_lt_trans (Prim2SF x) (Prim2SF y) (Prim2SF z));
    [reflexivity| |].
  - destruct (SFcompare (Prim2SF x) (Prim2SF y)) as [[]|];
      try discriminate; reflexivity.
  - destruct (SFcompare (Prim2SF y) (Prim2SF z)) as [[]|];
      try discriminate; auto.
Qed.

(** Equal Numbers compare alike, and [<=] is transitive. *)
Lemma SFcompare_eq_l (x y z : spec_float) :
  SFcompare x y = Some Eq -> SFcompare x z = SFcompare y z.
Proof.
  destruct x as [sx|sx| |sx mx ex], y as [sy|sy| |sy my ey];
    simpl; try discriminate;
    try (destruct sx, sy; try discriminate; reflexivity);
    try (destruct sx; discriminate); try (destruct sy; discriminate).
  change (Pos.compare_cont Eq) with Pos.compare.
  destruct sx, sy; try discriminate;
    destruct (Z.compare_spec ex ey); try discriminate;
    destruct (Pos.compare_spec mx my); try discriminate;
    intros _; subst; reflexivity.
Qed.

Lemma float_leb_trans (x y z : float) :
  PrimFloat.leb x y = true -> PrimFloat.leb y z = true ->
  PrimFloat.leb x z = true.
Proof.
  rewrite !FloatAxioms.leb_spec. unfold SFleb. intros Hxy Hyz.
  destruct (SFcompare (Prim2SF x) (Prim2SF y)) as [[]|] eqn:E1;
    try discriminate.
  - rewrite (SFcompare_eq_l _ _ (Prim2SF z) E1). exact Hyz.
  - rewrite (SFcompare_lt_trans _ _ (Prim2SF z) E1); [reflexivity|].
    destruct (SFcompare (Prim2SF y) (Prim2SF z)) as [[]|];
      try discriminate; auto.
Qed.

Lemma float_leb_ltb_trans (x y z : float) :
  PrimFloat.leb x y = true -> PrimFloat.ltb y z = true ->
  PrimFloat.ltb x z = true.
Proof.
  rewrite FloatAxioms.leb_spec, !FloatAxioms.ltb_spec.
  unfold SFleb, SFltb. intros Hxy Hyz.
  destruct (SFcompare (Prim2SF x) (Prim2SF y)) as [[]|] eqn:E1;
    try discriminate.
  - rewrite (SFcompare_eq_l _ _ (Prim2SF z) E1). exact Hyz.
  - rewrite (SFcompare_lt_trans _ _ (Prim2SF z) E1); [reflexivity|].
    destruct (SFcompare (Prim2SF y) (Prim2SF z)) as [[]|];
      try discriminate; auto.
Qed.

(** Two Numbers compare unless one of them is NaN. *)
Lemma SFcompare_defined (x y z : spec_float) :
  SFcompare x y = Some Lt ->
  SFcompare z z = Some Eq ->
  exists c, SFcompare y z = Some c.
Proof.
  destruct x as [sx|sx| |sx mx ex], y as [sy|sy| |sy my ey];
    simpl; try discriminate; intros _;
    destruct z as [sz|sz| |sz mz ez]; simpl; try discriminate; intros _;
    eexists; reflexivity.
Qed.

Lemma SFcompare_refl_not_nan (z : float) :
  PrimFloat.is_nan z = false -> SFcompare (Prim2SF z) (Prim2SF z) = Some Eq.
Proof.
  unfold PrimFloat.is_nan. rewrite FloatAxioms.eqb_spec. unfold SFeqb.
  destruct (SFcompare (Prim2SF z) (Prim2SF z)) as [[]|]; simpl;
    try discriminate; reflexivity.
Qed.

(** A Number that is above another is not NaN: it is above or at most
    any [z] that is not NaN either. *)
Lemma float_gt_of_not_le (x y z : float) :
  PrimFloat.ltb x y = true ->
  PrimFloat.is_nan z = false ->
  PrimFloat.leb y z = false -> PrimFloat.ltb z y = true.
Proof.
  intros Hxy Hz. apply SFcompare_refl_not_nan in Hz. revert Hxy.
  rewrite FloatAxioms.leb_spec, !FloatAxioms.ltb_spec.
  unfold SFleb, SFltb. intros Hxy.
  assert (Hlt : SFcompare (Prim2SF x) (Prim2SF y) = Some Lt).
  { destruct (SFcompare (Prim2SF x) (Prim2SF y)) as [[]|];
      try discriminate; reflexivity. }
  destruct (SFcompare_defined _ _ _ Hlt Hz) as [c Hc].
  rewrite (SFcompare_antisym (Prim2SF y) (Prim2SF z)), Hc.
  destruct c; simpl; congruence.
Qed.

(** ** The machine reading: Numbers that are not finite *)

Lemma is_finite_SF (x : float) :
  PrimFloat.is_finite x = negb (SFnonfinite (Prim2SF x)).
Proof.
  unfold PrimFloat.is_finite, PrimFloat.is_nan, PrimFloat.is_infinity.
  rewrite !FloatAxioms.eqb_spec, FloatAxioms.abs_spec.
  change (Prim2SF infinity) with (S754_infinity false).
  unfold SFeqb.
  destruct (Prim2SF x) as [s|s| |s m e]; simpl; try reflexivity.
  - destruct s; reflexivity.
  - rewrite Z.compare_refl.
    change (Pos.compare_cont Eq m m) with (Pos.compare m m).
    rewrite Pos.compare_refl. destruct s; reflexivity.
Qed.

(** Dividing by zero never yields a finite Number. *)
Lemma div_zero_not_finite (x : float) :
  PrimFloat.is_finite (x / 0)%float = false.
Proof.
  rewrite is_finite_SF, FloatAxioms.div_spec.
  change (Prim2SF 0%float) with (S754_zero false).
  destruct (Prim2SF x) as [s|s| |s m e]; reflexivity.
Qed.

(** Adding to a Number that is not finite does not make it finite. *)
Lemma add_not_finite_l (a b : float) :
  PrimFloat.is_finite a = false -> PrimFloat.is_finite (a + b)%float = false.
Proof.
  rewrite !is_finite_SF, FloatAxioms.add_spec.
  destruct (Prim2SF a) as [sa|sa| |sa ma ea]; simpl; try discriminate;
    intros _; destruct (Prim2SF b) as [sb|sb| |sb mb eb]; simpl;
    try reflexivity; destruct sa, sb; reflexivity.
Qed.

Lemma add_not_finite_r (a b : float) :
  PrimFloat.is_finite b = false -> PrimFloat.is_finite (a + b)%float = false.
Proof.
  rewrite !is_finite_SF, FloatAxioms.add_spec.
  destruct (Prim2SF b) as [sb|sb| |sb mb eb]; simpl; try discriminate;
    intros _; destruct (Prim2SF a) as [sa|sa| |sa ma ea]; simpl;
    try reflexivity; destruct sa, sb; reflexivity.
Qed.

(** A Number that is not finite is NaN or an infinity. *)
Lemma not_finite_cases (x : float) :
  PrimFloat.is_finite x = false ->
  x = nan \/ x = infinity \/ x = neg_infinity.
Proof.
  rewrite is_finite_SF. intros H.
  rewrite <- (FloatAxioms.SF2Prim_Prim2SF x).
  destruct (Prim2SF x) as [s|s| |s m e]; simpl in H; try discriminate.
  - destruct s; auto.
  - auto.
Qed.

(** ** Gravity Engine *)

Lemma calculateGravity_Exact (grains : list (Fermentable.t Q)) (e v : Q) :
  let g := calculateGravity grains e v in
  (0 < v ->
   points g ==
   Qsum (map (fun f => Fermentable.weightLb f * Fermentable.ppg f) grains)
   * (e / 100) / v)
  /\ (v <= 0 -> points g == 0)
  /\ og g == 1 + points g / 1000.
Proof.
  cbv zeta. unfold calculateGravity. exact_ops. cbn [points og].
  split; [|split].
  - intros Hv. rewrite (proj2 (Exact_ltb_lt 0 v) Hv).
    rewrite fold_left_Qsum. field. lra.
  - intros Hv. rewrite (proj2 (Exact_ltb_ge 0 v) Hv). reflexivity.
  - reflexivity.
Qed.

(** On binary64 the guard is the same: no volume, no points and a
    gravity of exactly 1. *)
Lemma calculateGravity_no_volume
    (grains : list (Fermentable.t float)) (e v : float) :
  PrimFloat.leb v 0 = true ->
  points (calculateGravity grains e v) = 0%float
  /\ og (calculateGravity grains e v) = 1%float.
Proof.
  intros Hv. unfold calculateGravity. ieee_ops. cbn [points og].
  change (IEEE.lit 0) with 0%float.
  rewrite (float_leb_not_gt v 0 Hv). split; reflexivity.
Qed.

(** C2.  [calculateGravity] is total.  Read over the rationals, the
    points per gallon are the sum of weight x ppg over the fermentables,
    times efficiency/100, divided by the volume when the volume is
    positive, and 0 when it is not; the original gravity is
    1 + points/1000 in both cases.  On binary64 a volume [v <= 0] gives
    0 points and a gravity of 1 as well. *)
Theorem calculateGravity_spec :
  (forall (grains : list (Fermentable.t Q)) (e v : Q),
      let g := calculateGravity grains e v in
      (0 < v ->
       points g ==
       Qsum (map (fun f => Fermentable.weightLb f * Fermentable.ppg f) grains)
       * (e / 100) / v)
      /\ (v <= 0 -> points g == 0)
      /\ og g == 1 + points g / 1000)
  /\ (forall (grains : list (Fermentable.t float)) (e v : float),
        PrimFloat.leb v 0 = true ->
        points (calculateGravity grains e v) = 0%float
        /\ og (calculateGravity grains e v) = 1%float).
Proof.
  split.
  - intros grains e v. apply calculateGravity_Exact.
  - intros grains e v. apply calculateGravity_no_volume.
Qed.

(** The default grain bill at 72% efficiency: 5.5 gal gives 387 x 0.72 /
    5.5 points, and a batch size of 0 gives none, on the rationals and on
    binary64. *)
Lemma calculateGravity_spec_witness :
  let grains := RecipeContext.grainBill (DEFAULT_RECIPE (N := Q)) in
  let grains64 := RecipeContext.grainBill (DEFAULT_RECIPE (N := float)) in
  points (calculateGravity grains 72 5.5) == 387 * (72 / 100) / 5.5
  /\ points (calculateGravity grains 72 0) == 0
  /\ og (calculateGravity grains 72 0) == 1
  /\ points (calculateGravity grains64 72%float 0%float) = 0%float.
Proof.
  cbv zeta.
  destruct calculateGravity_spec as [HQ HF].
  pose proof (HQ (RecipeContext.grainBill (DEFAULT_RECIPE (N := Q))) 72 5.5)
    as [H1 _].
  pose proof (HQ (RecipeContext.grainBill (DEFAULT_RECIPE (N := Q))) 72 0)
    as [_ [H2 H3]].
  split; [|split; [|split]].
  - rewrite H1 by reflexivity. reflexivity.
  - apply H2. discriminate.
  - rewrite H3, H2 by discriminate. reflexivity.
  - apply HF. reflexivity.
Defined.

(** ** Final gravity and ABV *)

(** C10.  For a recipe with no measured final gravity, whatever the
    reading of the Numbers: the final gravity is 1 + (og - 1) x 0.25,
    with [og] the original gravity of [calculateGravity] for the
    recipe's grain bill, efficiency and batch size, and the ABV is
    [calculateABV] of that [og] and that estimate, (og - fg) x 131.25. *)
Theorem estimated_final_gravity (N : Type) (HN : Number N)
    (recipe : RecipeContext.t N) :
  RecipeContext.measuredFG recipe = None ->
  let og' :=
    og (calculateGravity (RecipeContext.grainBill recipe)
          (RecipeContext.efficiency recipe)
          (RecipeContext.batchSizeGal recipe)) in
  let estimate := add (lit 1) (mul (sub og' (lit 1)) (lit 0.25)) in
  fg recipe = estimate
  /\ abv recipe = calculateABV og' estimate
  /\ abv recipe = mul (sub og' estimate) (lit 131.25).
Proof.
  intros Hfg. cbv zeta.
  assert (E : fg recipe
              = add (lit 1)
                  (mul (sub (og (gravity recipe)) (lit 1)) (lit 0.25))).
  { unfold fg, or_default. rewrite Hfg. reflexivity. }
  unfold abv. rewrite E. unfold gravity, calculateABV.
  split; [|split]; reflexivity.
Qed.

(** The default recipe has no measured final gravity; in binary64 its
    estimate is 1.0126654545454545 and its ABV 4.987...%. *)
Lemma estimated_final_gravity_witness :
  RecipeContext.measuredFG (DEFAULT_RECIPE (N := float)) = None
  /\ fg (DEFAULT_RECIPE (N := float)) = 1.0126654545454545%float
  /\ abv (DEFAULT_RECIPE (N := float)) = 4.9870227272727234%float.
Proof.
  split; [reflexivity|].
  destruct (estimated_final_gravity float IEEENumber DEFAULT_RECIPE eq_refl)
    as [Hfg [_ Habv]].
  rewrite Hfg, Habv. split; vm_compute; reflexivity.
Defined.

(** ** Bitterness Engine *)

(** A loop that adds [f x] to its accumulator adds up the sum of [f]. *)
Lemma fold_left_adds {A : Type} (F : Q -> A -> Q) (f : A -> Q) :
  (forall acc x, F acc x == acc + f x) ->
  forall (l : list A) (a : Q), fold_left F l a == a + Qsum (map f l).
Proof.
  intros HF l. induction l as [|x l IH]; intros a; simpl.
  - ring.
  - rewrite IH, HF. ring.
Qed.

Lemma addHopIBU_contribution (M : MathApprox Q) (og v acc : Q)
    (hop : HopAddition.t Q) :
  @addHopIBU Q ExactNumber (ExactMath M) og v acc hop
  == acc + contribution M effective_temperature og v hop.
Proof.
  unfold addHopIBU, contribution, utilization, temperature_utilization,
    effective_temperature, or_default.
  exact_ops. unfold Exact.ToBoolean.
  destruct (HopAddition.type hop).
  - reflexivity.
  - destruct (HopAddition.whirlpoolTempF hop) as [t|];
      [destruct (Qeq_bool t 0)|]; reflexivity.
  - ring.
Qed.

(** Unless a temperature of 0 is recorded, the temperature the code
    takes is the recorded one, 200 F when there is none. *)
Lemma contribution_recorded (M : MathApprox Q) (og v : Q)
    (hop : HopAddition.t Q) :
  no_zero_temperature hop ->
  contribution M effective_temperature og v hop
  == contribution M recorded_temperature og v hop.
Proof.
  unfold no_zero_temperature, contribution, effective_temperature,
    recorded_temperature.
  destruct (HopAddition.whirlpoolTempF hop) as [t|]; [|reflexivity].
  intros Ht. destruct (Qeq_bool t 0) eqn:E; [|reflexivity].
  apply Qeq_bool_iff in E. contradiction.
Qed.

Lemma Qsum_contribution_recorded (M : MathApprox Q) (og v : Q)
    (hops : list (HopAddition.t Q)) :
  Forall no_zero_temperature hops ->
  Qsum (map (contribution M effective_temperature og v) hops)
  == Qsum (map (contribution M recorded_temperature og v) hops).
Proof.
  induction 1 as [|hop hops Hhop _ IH]; simpl; [reflexivity|].
  rewrite IH, (contribution_recorded M og v hop Hhop). reflexivity.
Qed.

Lemma Forall_filter_keeps {A : Type} (P : A -> Prop) (f : A -> bool)
    (l : list A) :
  Forall P l -> Forall P (filter f l).
Proof.
  induction 1 as [|x l Hx _ IH]; simpl; [constructor|].
  destruct (f x); [constructor|]; assumption.
Qed.

(** No handler of [BrewMaster] records a whirlpool temperature: in every
    recipe the component holds, the temperature of a hop is the 170 F
    of [DEFAULT_RECIPE] or none. *)
Lemma BrewMaster_holds_default_temperature (recipe : RecipeContext.t Q) :
  BrewMaster_holds recipe ->
  Forall default_temperature (RecipeContext.hopSchedule recipe).
Proof.
  induction 1 as [|id fv recipe Hfield _ IH|now recipe _ IH|id recipe _ IH
                  |recipe recipe' _ IH Esame].
  - cbn [DEFAULT_RECIPE RecipeContext.hopSchedule].
    repeat (constructor;
            [first [left; reflexivity | right; reflexivity]|]).
    constructor.
  - unfold updateHop. cbn [setHopSchedule RecipeContext.hopSchedule].
    induction IH as [|hop hops Hhop _ IHhops]; simpl; constructor;
      [|exact IHhops].
    destruct (String.eqb (HopAddition.id hop) id); [|exact Hhop].
    destruct fv; try discriminate; exact Hhop.
  - unfold addHop. cbn [setHopSchedule RecipeContext.hopSchedule].
    apply Forall_app. split; [exact IH|].
    constructor; [right; reflexivity | constructor].
  - unfold removeHop. cbn [setHopSchedule RecipeContext.hopSchedule].
    apply Forall_filter_keeps, IH.
  - rewrite Esame. exact IH.
Qed.

Lemma default_temperature_not_zero (hop : HopAddition.t Q) :
  default_temperature hop -> no_zero_temperature hop.
Proof.
  unfold default_temperature, no_zero_temperature.
  intros [E|E]; rewrite E; [discriminate | exact I].
Qed.

(** C3.  [calculateIBU], read over the rationals, for a positive
    volume: the total is the sum over the additions of 0 for a dry hop,
    and otherwise alpha x ounces x utilization x 74.9 / volume, the
    utilization being 1.65 x 0.000125^(og-1) x (1 - e^(-0.04 t))/4.15
    with [t] the recorded minutes of a boil addition and 20 for a
    whirlpool addition, whose utilization is scaled by 0.5 above 180 F,
    0.2 above 160 F and 0.05 otherwise, at the recorded temperature and
    at 200 F when none is recorded.  This holds of every schedule in
    which no temperature of 0 F is recorded (the code reads the
    temperature as [hop.whirlpoolTempF || 200]), for every gravity; and
    [BrewMaster] records none: nothing writes [whirlpoolTempF], so that
    in every recipe the component holds the temperature of a hop is the
    170 F of [DEFAULT_RECIPE] or none, and the bitterness it shows for a
    positive batch size is this sum. *)
Theorem calculateIBU_spec (M : MathApprox Q) :
  (forall (hops : list (HopAddition.t Q)) (og v : Q),
      0 < v ->
      Forall no_zero_temperature hops ->
      @calculateIBU Q ExactNumber (ExactMath M) hops og v
      == Qsum (map (contribution M recorded_temperature og v) hops))
  /\ (forall recipe : RecipeContext.t Q,
         BrewMaster_holds recipe ->
         Forall default_temperature (RecipeContext.hopSchedule recipe)
         /\ Forall no_zero_temperature (RecipeContext.hopSchedule recipe))
  /\ (forall recipe : RecipeContext.t Q,
         BrewMaster_holds recipe ->
         0 < RecipeContext.batchSizeGal recipe ->
         @ibu Q ExactNumber (ExactMath M) recipe
         == Qsum (map (contribution M recorded_temperature
                         (og (gravity recipe))
                         (RecipeContext.batchSizeGal recipe))
                    (RecipeContext.hopSchedule recipe))).
Proof.
  assert (Hsum : forall hops og v,
             Forall no_zero_temperature hops ->
             @calculateIBU Q ExactNumber (ExactMath M) hops og v
             == Qsum (map (contribution M recorded_temperature og v) hops)).
  { intros hops og v Hhops.
    rewrite <- (Qsum_contribution_recorded M og v hops Hhops).
    unfold calculateIBU.
    rewrite (fold_left_adds _ (contribution M effective_temperature og v)).
    - exact_ops. ring.
    - intros acc hop. apply addHopIBU_contribution. }
  assert (Hholds : forall recipe : RecipeContext.t Q,
             BrewMaster_holds recipe ->
             Forall no_zero_temperature (RecipeContext.hopSchedule recipe)).
  { intros recipe Hrecipe.
    apply (Forall_impl _ default_temperature_not_zero).
    apply BrewMaster_holds_default_temperature, Hrecipe. }
  split; [|split].
  - intros hops og v _ Hhops. apply Hsum, Hhops.
  - intros recipe Hrecipe. split.
    + apply BrewMaster_holds_default_temperature, Hrecipe.
    + apply Hholds, Hrecipe.
  - intros recipe Hrecipe _. unfold ibu. apply Hsum, Hholds, Hrecipe.
Qed.

(** The schedule of [DEFAULT_RECIPE] with a hop added, the new hop
    turned into a whirlpool addition of 2 oz, and the first hop
    removed, in a batch of 5.5 gallons. *)
Lemma calculateIBU_spec_witness :
  let recipe :=
    removeHop "1"
      (updateHop "1700000000000" (HopField.weightOz 2)
         (updateHop "1700000000000" (HopField.type whirlpool)
            (addHop 1700000000000 (@DEFAULT_RECIPE Q _)))) in
  0 < RecipeContext.batchSizeGal recipe
  /\ Forall no_zero_temperature (RecipeContext.hopSchedule recipe)
  /\ @ibu Q ExactNumber ExactSample recipe
     == Qsum (map (contribution (SampleMath trim30) recorded_temperature
                     (og (gravity recipe))
                     (RecipeContext.batchSizeGal recipe))
                (RecipeContext.hopSchedule recipe)).
Proof.
  cbv zeta.
  assert (Hrecipe :
            BrewMaster_holds
              (removeHop "1"
                 (updateHop "1700000000000" (HopField.weightOz 2)
                    (updateHop "1700000000000" (HopField.type whirlpool)
                       (addHop 1700000000000 (@DEFAULT_RECIPE Q _)))))).
  { apply holds_removeHop.
    apply holds_updateHop; [reflexivity|].
    apply holds_updateHop; [reflexivity|].
    apply holds_addHop, holds_default. }
  destruct (calculateIBU_spec (SampleMath trim30)) as (_ & Hholds & Hibu).
  split; [reflexivity|]. split.
  - apply (Hholds _ Hrecipe).
  - apply (Hibu _ Hrecipe). reflexivity.
Defined.

(** Outside these schedules, a whirlpool addition with a recorded
    temperature of 0 F would be taken at 200 F and scaled by 0.5, ten
    times the 0.05 of a temperature that is not above 160 F; in binary64
    the addition is worth exactly what it is worth at a recorded
    200 F. *)
Lemma calculateIBU_recorded_zero_temperature :
  let actual :=
    @calculateIBU Q ExactNumber ExactSample [mosaic_at 0] 1.05 5.5 in
  let claimed :=
    Qsum (map (contribution (SampleMath trim30) recorded_temperature 1.05 5.5)
            [mosaic_at 0]) in
  actual == 10 * claimed
  /\ ~ actual == claimed
  /\ @calculateIBU float IEEENumber IEEESample
       [mosaic_at 0%float] 1.05%float 5.5%float
     = @calculateIBU float IEEENumber IEEESample
         [mosaic_at 200%float] 1.05%float 5.5%float.
Proof.
  cbv zeta. split; [|split].
  - vm_compute. reflexivity.
  - vm_compute. discriminate.
  - vm_compute. reflexivity.
Qed.

(** ** Color swatches *)

(** [srmToColor] tries the thresholds in ascending order and the first
    match wins; a value that matches no [<=] branch is black when it is
    above 30, and pale straw otherwise (NaN, the only such Number). *)
Lemma srmToColor_first_match {N : Type} `{Number N} (srm : N) :
  srmToColor srm
  = if (first_match srm <? 10)%nat then swatch (first_match srm)
    else if ltb (lit 30) srm then "#030403"%string else "#F8F753"%string.
Proof.
  unfold srmToColor, first_match, THRESHOLDS, first_index.
  repeat match goal with
         | |- context [leb srm ?t] => destruct (leb srm t); [reflexivity|]
         end.
  reflexivity.
Qed.

Lemma first_index_le_length {A : Type} (p : A -> bool) (l : list A) :
  (first_index p l <= List.length l)%nat.
Proof. induction l as [|x l IH]; simpl; [|destruct (p x)]; lia. Qed.

(** Whoever passes wherever [q] passes is served no later. *)
Lemma first_index_mono {A : Type} (p q : A -> bool) (l : list A) :
  (forall x, q x = true -> p x = true) ->
  (first_index p l <= first_index q l)%nat.
Proof.
  intros Hpq. induction l as [|x l IH]; simpl; [lia|].
  destruct (q x) eqn:Hq.
  - rewrite (Hpq x Hq). lia.
  - destruct (p x); lia.
Qed.

Lemma band_nth (i : nat) :
  (i <= 10)%nat -> band (swatch i) = i.
Proof.
  intros Hi.
  do 11 (destruct i as [|i]; [reflexivity|]). lia.
Qed.

Section BandMonotone.

Context {N : Type} `{Number N}.
Variables v1 v2 : N.

(** What the order of the Numbers has to provide, given [v1 < v2]. *)
Hypothesis le_trans : forall t, leb v2 (lit t) = true -> leb v1 (lit t) = true.
Hypothesis gt_30 : leb v2 (lit 30) = false -> ltb (lit 30) v2 = true.

Lemma first_match_last (v : N) :
  (first_match v <? 10)%nat = false -> leb v (lit 30) = false.
Proof.
  unfold first_match, THRESHOLDS, first_index.
  repeat match goal with
         | |- context [leb v ?t] =>
             destruct (leb v t) eqn:?; [discriminate|]
         end.
  reflexivity.
Qed.

Lemma band_srmToColor_mono :
  (band (srmToColor v1) <= band (srmToColor v2))%nat.
Proof.
  rewrite !srmToColor_first_match.
  pose proof (first_index_mono (fun t => leb v1 (lit t))
                (fun t => leb v2 (lit t)) THRESHOLDS le_trans) as Hmono.
  fold (first_match v1) in Hmono. fold (first_match v2) in Hmono.
  pose proof (first_index_le_length (fun t => leb v2 (lit t)) THRESHOLDS)
    as Hlen.
  fold (first_match v2) in Hlen. cbn [List.length THRESHOLDS] in Hlen.
  destruct (first_match v2 <? 10)%nat eqn:H2.
  - apply Nat.ltb_lt in H2.
    assert (H1 : (first_match v1 <? 10)%nat = true) by (apply Nat.ltb_lt; lia).
    rewrite H1, !band_nth by lia. exact Hmono.
  - rewrite (gt_30 (first_match_last v2 H2)).
    change (band "#030403") with 10%nat.
    destruct (first_match v1 <? 10)%nat eqn:H1.
    + apply Nat.ltb_lt in H1. rewrite band_nth by lia. lia.
    + destruct (ltb (lit 30) v1); cbv; lia.
Qed.

End BandMonotone.

(** On binary64 and on the rationals, each boundary value gets the swatch
    of its own branch. *)
Lemma srmToColor_boundaries (i : nat) :
  (i < 10)%nat ->
  @srmToColor float IEEENumber (lit (nth i THRESHOLDS 0))
  = swatch i
  /\ @srmToColor Q ExactNumber (lit (nth i THRESHOLDS 0))
     = swatch i.
Proof.
  intros Hi.
  do 10 (destruct i as [|i]; [split; vm_compute; reflexivity|]). lia.
Qed.

(** C9.  [srmToColor] tries the thresholds 2, 3, 4, 6, 9, 12, 15, 20,
    24, 30 in ascending order and the first match wins, above 30 being
    black; each boundary value gets the swatch of its own [<=] branch;
    and the band of the swatch is monotone in the color value, on
    binary64 as on the rationals. *)
Theorem srmToColor_bands :
  (forall (N : Type) (HN : Number N) (srm : N),
      srmToColor srm
      = if (first_match srm <? 10)%nat
        then swatch (first_match srm)
        else if ltb (lit 30) srm then "#030403"%string else "#F8F753"%string)
  /\ (forall i, (i < 10)%nat ->
        @srmToColor float IEEENumber (lit (nth i THRESHOLDS 0))
        = swatch i
        /\ @srmToColor Q ExactNumber (lit (nth i THRESHOLDS 0))
           = swatch i)
  /\ (forall v1 v2 : float,
        PrimFloat.ltb v1 v2 = true ->
        (band (srmToColor v1) <= band (srmToColor v2))%nat)
  /\ (forall v1 v2 : Q,
        v1 < v2 -> (band (srmToColor v1) <= band (srmToColor v2))%nat).
Proof.
  split; [|split; [|split]].
  - intros N HN srm. apply srmToColor_first_match.
  - apply srmToColor_boundaries.
  - intros v1 v2 Hlt. apply band_srmToColor_mono.
    + intros t. apply float_ltb_leb_trans, Hlt.
    + apply (float_gt_of_not_le v1 v2 _ Hlt). reflexivity.
  - intros v1 v2 Hlt. apply band_srmToColor_mono; exact_ops.
    + intros t Ht. apply Qle_bool_iff. apply Qle_bool_iff in Ht. lra.
    + intros H30. apply Exact_ltb_lt. apply Qle_bool_gt in H30. exact H30.
Qed.

(** ** Water Chemistry Engine *)

Lemma calculateWaterChemistry_no_water
    (source : WaterProfile.t Q) (salts : SaltAdditions.t Q) (v : Q) :
  v <= 0 -> calculateWaterChemistry source salts v = source.
Proof.
  intros Hv. unfold calculateWaterChemistry. exact_ops.
  apply Qle_bool_iff in Hv. rewrite Hv. reflexivity.
Qed.

Lemma calculateWaterChemistry_ion
    (source : WaterProfile.t Q) (salts : SaltAdditions.t Q) (v : Q) (i : Ion) :
  0 < v ->
  ion (calculateWaterChemistry source salts v) i
  == ion source i + ion_contribution salts v i.
Proof.
  intros Hv. unfold calculateWaterChemistry. exact_ops.
  rewrite (proj2 (Qle_bool_gt v 0) Hv).
  destruct i; cbn; field; lra.
Qed.

(** On binary64 the guard is the same. *)
Lemma calculateWaterChemistry_no_water_IEEE
    (source : WaterProfile.t float) (salts : SaltAdditions.t float)
    (v : float) :
  PrimFloat.leb v 0 = true ->
  calculateWaterChemistry source salts v = source.
Proof.
  intros Hv. unfold calculateWaterChemistry. ieee_ops.
  change (IEEE.lit 0) with 0%float. rewrite Hv. reflexivity.
Qed.

(** C4.  [calculateWaterChemistry], read over the rationals: without
    water ([v <= 0]) the source profile comes back unchanged; otherwise
    each ion is the source's plus the sum over the salts of constant x
    grams / v, with the constants of [ppm_per_gram]; hence doubling every
    salt mass at a fixed volume doubles what each ion gains over the
    source.  On binary64 too, [v <= 0] gives the source profile back. *)
Theorem calculateWaterChemistry_spec :
  (forall (source : WaterProfile.t Q) (salts : SaltAdditions.t Q) (v : Q),
      (v <= 0 -> calculateWaterChemistry source salts v = source)
      /\ (0 < v ->
          forall i,
            ion (calculateWaterChemistry source salts v) i
            == ion source i + ion_contribution salts v i)
      /\ (0 < v ->
          forall i,
            ion (calculateWaterChemistry source (scale_salts 2 salts) v) i
            - ion source i
            == 2 * (ion (calculateWaterChemistry source salts v) i
                    - ion source i)))
  /\ (forall (source : WaterProfile.t float) (salts : SaltAdditions.t float)
             (v : float),
        PrimFloat.leb v 0 = true ->
        calculateWaterChemistry source salts v = source).
Proof.
  split.
  - intros source salts v. split; [|split].
    + apply calculateWaterChemistry_no_water.
    + intros Hv i. apply calculateWaterChemistry_ion, Hv.
    + intros Hv i. rewrite !calculateWaterChemistry_ion by exact Hv.
      destruct i; cbn; field; lra.
  - apply calculateWaterChemistry_no_water_IEEE.
Qed.

(** One gram of gypsum and two of table salt in five gallons of the
    default source water; and the same salts with no water. *)
Lemma calculateWaterChemistry_spec_witness :
  let source := RecipeContext.sourceWater (DEFAULT_RECIPE (N := Q)) in
  let salts := SaltAdditions.mk 1 0 0 2 0 0 in
  calculateWaterChemistry source salts 0 = source
  /\ ion (calculateWaterChemistry source salts 5) Ca == 5 + 60 / 5
  /\ ion (calculateWaterChemistry source (scale_salts 2 salts) 5) Cl - 10
     == 2 * (320 / 5).
Proof.
  cbv zeta.
  destruct calculateWaterChemistry_spec as [HQ _].
  pose proof (HQ (RecipeContext.sourceWater (DEFAULT_RECIPE (N := Q)))
                (SaltAdditions.mk 1 0 0 2 0 0) 0) as [H0 _].
  pose proof (HQ (RecipeContext.sourceWater (DEFAULT_RECIPE (N := Q)))
                (SaltAdditions.mk 1 0 0 2 0 0) 5) as [_ [H1 H2]].
  split; [|split].
  - apply H0. discriminate.
  - rewrite (H1 eq_refl Ca). reflexivity.
  - change 10
      with (ion (RecipeContext.sourceWater (DEFAULT_RECIPE (N := Q))) Cl).
    rewrite (H2 eq_refl Cl), (H1 eq_refl Cl). reflexivity.
Defined.

(** ** Keg Balance Engine *)

Lemma Exact_pow_2 (M : MathApprox Q) (x : Q) : Exact.pow M x 2 == x * x.
Proof. unfold Exact.pow. cbn. reflexivity. Qed.

(** [servingPSI] is the polynomial of the specification, floored at 0. *)
Lemma servingPSI_polynomial (M : MathApprox Q) (recipe : RecipeContext.t Q) :
  @servingPSI Q ExactNumber (ExactMath M) recipe
  == Exact.max 0
       (pressure_polynomial
          (KegConfig.tempF (RecipeContext.kegConfig recipe))
          (KegConfig.co2Vol (RecipeContext.kegConfig recipe))).
Proof.
  unfold servingPSI, pressure_polynomial. exact_ops.
  set (T := KegConfig.tempF (RecipeContext.kegConfig recipe)).
  set (V := KegConfig.co2Vol (RecipeContext.kegConfig recipe)).
  assert (E : forall a b, a == b -> Exact.max 0 a == Exact.max 0 b).
  { intros a b Hab. unfold Exact.max. Qcase 0 a; Qcase 0 b; lra. }
  apply E. rewrite !Exact_pow_2. ring.
Qed.

(** The polynomial rises with [V] below its vertex. *)
Lemma pressure_polynomial_increasing (T V1 V2 : Q) :
  V1 < V2 ->
  2 * 0.0684226 * V2 <= 0.173354 * T + 4.24267 ->
  pressure_polynomial T V1 < pressure_polynomial T V2.
Proof.
  intros HV Hvertex. unfold pressure_polynomial.
  assert (H : 0 < (V2 - V1)
                  * (0.173354 * T + 4.24267 - 0.0684226 * (V1 + V2))).
  { apply Qmult_lt_0_compat; lra. }
  lra.
Qed.

(** The exact reading: at a fixed temperature the pressure does not
    fall, and rises strictly once it is positive, as the carbonation
    volume rises from V1 to V2 at or below the vertex. *)
Lemma servingPSI_monotone_Exact (M : MathApprox Q)
    (recipe : RecipeContext.t Q) (V1 V2 : Q) :
  V1 < V2 ->
  2 * 0.0684226 * V2
  <= 0.173354 * KegConfig.tempF (RecipeContext.kegConfig recipe) + 4.24267 ->
  @servingPSI Q ExactNumber (ExactMath M) (setCo2Vol V1 recipe)
  <= @servingPSI Q ExactNumber (ExactMath M) (setCo2Vol V2 recipe)
  /\ (0 < @servingPSI Q ExactNumber (ExactMath M) (setCo2Vol V2 recipe) ->
      @servingPSI Q ExactNumber (ExactMath M) (setCo2Vol V1 recipe)
      < @servingPSI Q ExactNumber (ExactMath M) (setCo2Vol V2 recipe)).
Proof.
  intros HV Hvertex.
  rewrite !servingPSI_polynomial. cbn [setCo2Vol RecipeContext.kegConfig
    KegConfig.tempF KegConfig.co2Vol].
  pose proof (pressure_polynomial_increasing _ _ _ HV Hvertex) as Hinc.
  destruct (Exact_max_spec 0 (pressure_polynomial
              (KegConfig.tempF (RecipeContext.kegConfig recipe)) V1))
    as [[H1 E1]|[H1 E1]];
  destruct (Exact_max_spec 0 (pressure_polynomial
              (KegConfig.tempF (RecipeContext.kegConfig recipe)) V2))
    as [[H2 E2]|[H2 E2]];
  rewrite E1, E2; split; intros; lra.
Qed.

(** The binary64 reading, on the tenths of a volume. *)
Lemma rises_by_tenths_step (T : float) (n k : nat) (pressure : float) :
  rises_by_tenths T pressure k n = true ->
  pressure = keg_pressure T (tenths k) ->
  forall j : nat, (j < n)%nat ->
    PrimFloat.leb (keg_pressure T (tenths (k + j)))
      (keg_pressure T (tenths (S (k + j)))) = true
    /\ (PrimFloat.ltb 0 (keg_pressure T (tenths (S (k + j)))) = true ->
        PrimFloat.ltb (keg_pressure T (tenths (k + j)))
          (keg_pressure T (tenths (S (k + j)))) = true).
Proof.
  revert k pressure. induction n as [|n IH]; intros k pressure H Hp j Hj;
    [lia|].
  cbn [rises_by_tenths] in H. cbv zeta in H.
  apply andb_prop in H as [H Hrest]. apply andb_prop in H as [Hle Hlt].
  destruct j as [|j].
  - rewrite Nat.add_0_r, <- Hp. split; [exact Hle|].
    intros Hpos. rewrite Hpos in Hlt. exact Hlt.
  - replace (k + S j)%nat with (S k + j)%nat by lia.
    apply (IH (S k) _ Hrest eq_refl). lia.
Qed.

(** At every whole degree from 0 to 100 F. *)
Lemma whole_degrees_rise : forallb rises_to_vertex (seq 0 101) = true.
Proof. vm_compute. reflexivity. Qed.

Lemma keg_pressure_rises (T k1 k2 : nat) :
  (T <= 100)%nat ->
  (k1 < k2 <= vertex_tenths T)%nat ->
  PrimFloat.leb (keg_pressure (degrees T) (tenths k1))
    (keg_pressure (degrees T) (tenths k2)) = true
  /\ (PrimFloat.ltb 0 (keg_pressure (degrees T) (tenths k2)) = true ->
      PrimFloat.ltb (keg_pressure (degrees T) (tenths k1))
        (keg_pressure (degrees T) (tenths k2)) = true).
Proof.
  intros HT [Hlt Hle].
  assert (Hrises : rises_to_vertex T = true).
  { apply (proj1 (forallb_forall _ _) whole_degrees_rise), in_seq. lia. }
  pose proof (rises_by_tenths_step _ _ 0 _ Hrises eq_refl) as Hstep.
  cbn [Nat.add] in Hstep.
  induction k2 as [|k2 IH]; [lia|].
  destruct (Hstep k2 ltac:(lia)) as [Hs1 Hs2].
  destruct (Nat.eq_dec k1 k2) as [->|Hne]; [split; assumption|].
  destruct IH as [IH1 _]; [lia | lia |].
  split.
  - exact (float_leb_trans _ _ _ IH1 Hs1).
  - intros Hpos. exact (float_leb_ltb_trans _ _ _ IH1 (Hs2 Hpos)).
Qed.

(** A tenth of a volume that is not beyond the vertex is at most the
    last such tenth. *)
Lemma vertex_tenths_last (T k : nat) :
  2 * 0.0684226 * (inject_Z (Z.of_nat k) / 10)
  <= 0.173354 * inject_Z (Z.of_nat T) + 4.24267 ->
  (k <= vertex_tenths T)%nat.
Proof.
  intros H. unfold vertex_tenths.
  set (t := inject_Z (Z.of_nat T)) in *.
  set (x := inject_Z (Z.of_nat k)) in *.
  assert (Hx : x <= (0.173354 * t + 4.24267) / (2 * 0.0684226) * 10).
  { assert (E : (0.173354 * t + 4.24267) / (2 * 0.0684226) * 10
                == (0.173354 * t + 4.24267) * (100000000 # 1368452))
      by (field).
    assert (E' : x / 10 == x * (1 # 10)) by field.
    rewrite E. rewrite E' in H. lra. }
  apply Qfloor_resp_le in Hx. subst x. rewrite Qfloor_Z in Hx. lia.
Qed.

(** C8, amended.  At a fixed serving temperature T the serving
    pressure, read over the rationals, does not fall, and rises
    strictly once it is positive, as the carbonation volume rises from
    V1 to V2, as long as V2 stays at or below the vertex of the
    polynomial: 2 x 0.0684226 x V2 <= 0.173354 x T + 4.24267.  The
    binary64 value the code computes keeps this order only up to its
    rounding: at 38 F, of the neighbouring Numbers
    V1 = 3.0000000000000147 < V2 = 3.0000000000000151, both below the
    vertex, V2 gets the lower pressure, and both pressures are
    positive.  On what the steppers of the two inputs give, whole
    degrees (here from 0 to 100 F) and tenths of a volume, the computed
    pressure keeps the order all the way to the vertex. *)
Theorem servingPSI_monotone :
  (forall (M : MathApprox Q) (recipe : RecipeContext.t Q) (V1 V2 : Q),
      V1 < V2 ->
      2 * 0.0684226 * V2
      <= 0.173354 * KegConfig.tempF (RecipeContext.kegConfig recipe)
         + 4.24267 ->
      @servingPSI Q ExactNumber (ExactMath M) (setCo2Vol V1 recipe)
      <= @servingPSI Q ExactNumber (ExactMath M) (setCo2Vol V2 recipe)
      /\ (0 < @servingPSI Q ExactNumber (ExactMath M) (setCo2Vol V2 recipe) ->
          @servingPSI Q ExactNumber (ExactMath M) (setCo2Vol V1 recipe)
          < @servingPSI Q ExactNumber (ExactMath M) (setCo2Vol V2 recipe)))
  /\ (PrimFloat.ltb 3.0000000000000147 3.0000000000000151 = true
      /\ 2 * 0.0684226 * 3.0000000000000151 <= 0.173354 * 38 + 4.24267
      /\ PrimFloat.ltb 0 (keg_pressure 38 3.0000000000000151) = true
      /\ PrimFloat.ltb (keg_pressure 38 3.0000000000000151)
           (keg_pressure 38 3.0000000000000147) = true)
  /\ (forall T k1 k2 : nat,
         (T <= 100)%nat ->
         (k1 < k2)%nat ->
         2 * 0.0684226 * (inject_Z (Z.of_nat k2) / 10)
         <= 0.173354 * inject_Z (Z.of_nat T) + 4.24267 ->
         PrimFloat.leb (keg_pressure (degrees T) (tenths k1))
           (keg_pressure (degrees T) (tenths k2)) = true
         /\ (PrimFloat.ltb 0 (keg_pressure (degrees T) (tenths k2)) = true ->
             PrimFloat.ltb (keg_pressure (degrees T) (tenths k1))
               (keg_pressure (degrees T) (tenths k2)) = true)).
Proof.
  split; [exact servingPSI_monotone_Exact|]. split.
  - split; [vm_compute; reflexivity|]. split; [discriminate|].
    split; vm_compute; reflexivity.
  - intros T k1 k2 HT Hlt Hvertex. apply keg_pressure_rises; [exact HT|].
    split; [exact Hlt | apply vertex_tenths_last, Hvertex].
Qed.

(** The default keg, 38 F, from 2.4 to 2.7 volumes: on the rationals,
    and on binary64. *)
Lemma servingPSI_monotone_witness :
  2.4 < 2.7
  /\ 2 * 0.0684226 * 2.7 <= 0.173354 * 38 + 4.24267
  /\ @servingPSI Q ExactNumber ExactSample (setCo2Vol 2.4 DEFAULT_RECIPE)
     <= @servingPSI Q ExactNumber ExactSample (setCo2Vol 2.7 DEFAULT_RECIPE)
  /\ PrimFloat.ltb (keg_pressure (degrees 38) (tenths 24))
       (keg_pressure (degrees 38) (tenths 27)) = true.
Proof.
  destruct servingPSI_monotone as (Hexact & _ & Htenths).
  split; [reflexivity|]. split; [discriminate|]. split.
  - apply (Hexact (SampleMath trim30) DEFAULT_RECIPE 2.4 2.7).
    + reflexivity.
    + discriminate.
  - apply (Htenths 38%nat 24%nat 27%nat).
    + lia.
    + lia.
    + vm_compute. discriminate.
    + vm_compute. reflexivity.
Defined.

(** C8 as stated fails beyond the vertex: at 38 F the pressure for 100
    volumes is positive (383.4 PSI) and the pressure for 200 volumes is
    0, on the rationals and, with the sample [Math.pow], on binary64. *)
Lemma servingPSI_falls_beyond_vertex :
  100 < 200
  /\ 0 < @servingPSI Q ExactNumber ExactSample (setCo2Vol 100 DEFAULT_RECIPE)
  /\ @servingPSI Q ExactNumber ExactSample (setCo2Vol 200 DEFAULT_RECIPE) == 0
  /\ ~ @servingPSI Q ExactNumber ExactSample (setCo2Vol 100 DEFAULT_RECIPE)
       <= @servingPSI Q ExactNumber ExactSample (setCo2Vol 200 DEFAULT_RECIPE)
  /\ @servingPSI float IEEENumber IEEESample
       (setCo2Vol 200%float DEFAULT_RECIPE) = 0%float
  /\ PrimFloat.ltb 383%float
       (@servingPSI float IEEENumber IEEESample
          (setCo2Vol 100%float DEFAULT_RECIPE)) = true.
Proof.
  split; [reflexivity|]. split; [reflexivity|]. split; [reflexivity|].
  split; [|split; vm_compute; reflexivity].
  vm_compute. intros H. apply H. reflexivity.
Qed.

(** ** Failure semantics: a batch volume of 0 *)

Section ZeroVolume.

Variable M : MathApprox float.

(** Without a guard, [calculateSRM] at volume 0 is NaN or Infinity for
    every grain bill. *)
Lemma calculateSRM_zero_volume (grains : list (Fermentable.t float)) :
  PrimFloat.is_finite
    (@calculateSRM float IEEENumber (IEEEMath M) grains 0%float) = false.
Proof.
  unfold calculateSRM. ieee_ops.
  set (total := fold_left _ grains _).
  destruct (not_finite_cases _ (div_zero_not_finite total)) as [E|[E|E]];
    rewrite E; reflexivity.
Qed.

(** An addition that is not a dry hop makes the running total NaN or an
    infinity at volume 0. *)
Lemma addHopIBU_zero_volume (og acc : float) (hop : HopAddition.t float) :
  HopAddition.type hop <> dry ->
  PrimFloat.is_finite
    (@addHopIBU float IEEENumber (IEEEMath M) og 0%float acc hop) = false.
Proof.
  intros Hdry. unfold addHopIBU. ieee_ops.
  destruct (HopAddition.type hop); try contradiction;
    apply add_not_finite_r, div_zero_not_finite.
Qed.

Lemma addHopIBU_keeps_not_finite (og v acc : float)
    (hop : HopAddition.t float) :
  PrimFloat.is_finite acc = false ->
  PrimFloat.is_finite
    (@addHopIBU float IEEENumber (IEEEMath M) og v acc hop) = false.
Proof.
  intros Hacc. unfold addHopIBU. ieee_ops.
  destruct (HopAddition.type hop); try exact Hacc;
    apply add_not_finite_l, Hacc.
Qed.

Lemma fold_addHopIBU_not_finite (og v acc : float)
    (hops : list (HopAddition.t float)) :
  PrimFloat.is_finite acc = false ->
  PrimFloat.is_finite
    (fold_left (@addHopIBU float IEEENumber (IEEEMath M) og v) hops acc)
  = false.
Proof.
  revert acc. induction hops as [|hop hops IH]; intros acc Hacc; simpl.
  - exact Hacc.
  - apply IH, addHopIBU_keeps_not_finite, Hacc.
Qed.

(** Without a guard, [calculateIBU] at volume 0 is NaN or an infinity as
    soon as the schedule has a boil or whirlpool addition. *)
Lemma calculateIBU_zero_volume (og : float)
    (hops : list (HopAddition.t float)) :
  (exists hop, In hop hops /\ HopAddition.type hop <> dry) ->
  PrimFloat.is_finite
    (@calculateIBU float IEEENumber (IEEEMath M) hops og 0%float) = false.
Proof.
  intros [hop [Hin Hdry]]. unfold calculateIBU.
  generalize (lit (N := float) 0). intros acc. revert acc.
  induction hops as [|h hops IH]; intros acc; [contradiction|].
  simpl. destruct Hin as [->|Hin].
  - apply fold_addHopIBU_not_finite, addHopIBU_zero_volume, Hdry.
  - apply IH, Hin.
Qed.

End ZeroVolume.

(** C1, on the code as it is.  With the batch size set to 0, on
    binary64 and whatever the [Math] library: [calculateGravity] is
    guarded and yields 0 points and a gravity of 1; [calculateSRM] and
    [calculateIBU] divide by the volume unguarded, and the color is NaN
    or Infinity for every grain bill, the bitterness NaN or an infinity
    for every schedule with a boil or whirlpool addition: neither is the
    zero sentinel. *)
Theorem zero_batch_volume (M : MathApprox float)
    (recipe : RecipeContext.t float) :
  (exists hop,
      In hop (RecipeContext.hopSchedule recipe)
      /\ HopAddition.type hop <> dry) ->
  let recipe0 := setBatchSizeGal 0%float recipe in
  points (gravity recipe0) = 0%float
  /\ og (gravity recipe0) = 1%float
  /\ PrimFloat.is_finite (@srm float IEEENumber (IEEEMath M) recipe0) = false
  /\ PrimFloat.is_finite (@ibu float IEEENumber (IEEEMath M) recipe0) = false.
Proof.
  intros Hhop. cbv zeta. unfold gravity, srm, ibu.
  cbn [setBatchSizeGal RecipeContext.batchSizeGal RecipeContext.grainBill
       RecipeContext.efficiency RecipeContext.hopSchedule].
  destruct (calculateGravity_no_volume (RecipeContext.grainBill recipe)
              (RecipeContext.efficiency recipe) 0%float eq_refl) as [Hp Hog].
  split; [exact Hp|]. split; [exact Hog|]. split.
  - apply calculateSRM_zero_volume.
  - apply calculateIBU_zero_volume, Hhop.
Qed.

(** The default recipe with the batch size set to 0, with the sample
    [Math] library: the color and the bitterness are both Infinity. *)
Lemma zero_batch_volume_witness :
  let recipe0 := setBatchSizeGal 0%float DEFAULT_RECIPE in
  (exists hop,
      In hop (RecipeContext.hopSchedule (DEFAULT_RECIPE (N := float)))
      /\ HopAddition.type hop <> dry)
  /\ PrimFloat.is_finite (@srm float IEEENumber IEEESample recipe0) = false
  /\ @srm float IEEENumber IEEESample recipe0 = infinity
  /\ @ibu float IEEENumber IEEESample recipe0 = infinity.
Proof.
  cbv zeta.
  assert (Hhop : exists hop,
             In hop (RecipeContext.hopSchedule (DEFAULT_RECIPE (N := float)))
             /\ HopAddition.type hop <> dry).
  { eexists. split; [left; reflexivity|]. discriminate. }
  split; [exact Hhop|]. split.
  - apply (zero_batch_volume (SampleMath (fun x => x)) DEFAULT_RECIPE Hhop).
  - split; vm_compute; reflexivity.
Defined.
(** ** PizzaCalculator *)

Import PizzaCalculator.

(** *** Dough Formulation Engine *)

Lemma Exact_round_rounded (x : Q) : rounded_to 1 x (Exact.round x).
Proof.
  destruct (Exact_round_nearest x) as [Hk [Hlo Hhi]].
  split; [|split].
  - exists (Qfloor (x + (1 # 2))). rewrite Hk. ring.
  - Qlra.
  - Qlra.
Qed.

Lemma Exact_round_tenth (x : Q) :
  rounded_to 0.1 x (Exact.round (x * 10) / 10).
Proof.
  destruct (Exact_round_nearest (x * 10)) as [Hk [Hlo Hhi]].
  split; [|split].
  - exists (Qfloor (x * 10 + (1 # 2))). rewrite Hk. field.
  - Qlra.
  - Qlra.
Qed.

(** C5.  The baker's math of the component, read over the rationals,
    for every state (diameter, count, style and percentages): the total
    dough mass is Math.PI x (d/2)^2 x tf x 28.3495 x n grams; the flour
    mass is the total divided by (100 + hydration + salt + oil + sugar +
    yeast)/100; and each displayed mass is the flour mass times the
    ingredient's percentage/100 rounded to the nearest gram, except the
    yeast, which is rounded to one decimal place. *)
Theorem dough_formulation (M : MathApprox Q) (s : State Q) :
  let d := diameter s in
  let tf := DoughStyle.tf (STYLES (selectedStyleId s)) in
  let total := @totalDoughWeightG Q ExactNumber (ExactMath M) s in
  let flour := @flourG Q ExactNumber (ExactMath M) s in
  let shown := @ingredients Q ExactNumber (ExactMath M) s in
  total == Math_PI * (d / 2 * (d / 2)) * tf * 28.3495 * count s
  /\ flour
     == total
        / ((100 + hydration s + salt s + oil s + sugar s + yeast s) / 100)
  /\ rounded_to 1 flour (flour_g shown)
  /\ rounded_to 1 (flour * (hydration s / 100)) (water_g shown)
  /\ rounded_to 1 (flour * (salt s / 100)) (salt_g shown)
  /\ rounded_to 1 (flour * (oil s / 100)) (oil_g shown)
  /\ rounded_to 1 (flour * (sugar s / 100)) (sugar_g shown)
  /\ rounded_to 0.1 (flour * (yeast s / 100)) (yeast_g shown).
Proof.
  cbv zeta.
  unfold ingredients, flourG, totalPercent, totalDoughWeightG,
    singleDoughWeightG, singleDoughWeightOz, area, radius, style.
  cbn [flour_g water_g salt_g oil_g sugar_g yeast_g]. exact_ops.
  split; [|split].
  - rewrite Exact_pow_2. reflexivity.
  - reflexivity.
  - repeat split;
      first [apply Exact_round_tenth | apply Exact_round_rounded].
Qed.

(** The component as mounted (16 in, 2 pizzas, NY Street at 63.3%):
    571 g flour, 361 g water, 14 g salt, 9 g oil, 11 g sugar, 2.9 g
    yeast. *)
Lemma dough_formulation_default :
  let shown := @ingredients Q ExactNumber ExactSample (mount None) in
  flour_g shown == 571 /\ water_g shown == 361 /\ salt_g shown == 14
  /\ oil_g shown == 9 /\ sugar_g shown == 11 /\ yeast_g shown == 2.9.
Proof. cbv zeta. repeat split. Qed.

(** *** The auto-hydration rule *)

Lemma StyleId_eqb_eq (a b : StyleId) : StyleId_eqb a b = true -> a = b.
Proof. destruct a, b; simpl; congruence. Qed.

Lemma StyleId_eqb_refl (a : StyleId) : StyleId_eqb a a = true.
Proof. destruct a; reflexivity. Qed.

Section HydrationEffect.

Context {N : Type} `{Number N}.
Variable nextFriday : Date.

(** The Numbers are compared up to [eqv]: equality on binary64, [==] on
    the rationals. *)
Variable eqv : N -> N -> Prop.
Hypothesis eqv_refl : forall x, eqv x x.
Hypothesis eqv_trans : forall x y z, eqv x y -> eqv y z -> eqv x z.
Hypothesis Object_is_eqv : forall x y, Object_is x y = true -> eqv x y.
Hypothesis Object_is_refl : forall x, Object_is x x = true.
Hypothesis calcHydration_eqv :
  forall id r r' c c',
    eqv r r' -> eqv c c' ->
    eqv (calcHydration (STYLES id) r c) (calcHydration (STYLES id) r' c').

Lemma run_effects_custom (s0 s : State N) :
  customMode s = true -> run_effects nextFriday (Some s0) s = s.
Proof.
  intros Hc. unfold run_effects, updateDefaults, autoAdjustHydration.
  rewrite Hc. cbn.
  destruct (same_deps_updateDefaults s0 s),
    (same_deps_autoAdjustHydration s0 s); reflexivity.
Qed.

Lemma run_effects_keeps (prev : option (State N)) (s : State N) :
  selectedStyleId (run_effects nextFriday prev s) = selectedStyleId s
  /\ customMode (run_effects nextFriday prev s) = customMode s
  /\ diameter (run_effects nextFriday prev s) = diameter s
  /\ count (run_effects nextFriday prev s) = count s.
Proof.
  unfold run_effects, updateDefaults, autoAdjustHydration.
  destruct (customMode s) eqn:Hc; cbn;
    destruct prev as [s0|];
    try destruct (same_deps_updateDefaults s0 s);
    try destruct (same_deps_autoAdjustHydration s0 s);
    cbn; rewrite ?Hc; auto.
Qed.

(** The second commit can only run the hydration effect again. *)
Lemma run_effects_again (prev : option (State N)) (s : State N) :
  run_effects nextFriday (Some s) (run_effects nextFriday prev s)
  = if same_deps_autoAdjustHydration s (run_effects nextFriday prev s)
    then run_effects nextFriday prev s
    else autoAdjustHydration (run_effects nextFriday prev s)
           (run_effects nextFriday prev s).
Proof.
  destruct (run_effects_keeps prev s) as [Hid [Hcm _]].
  set (p1 := run_effects nextFriday prev s) in *.
  unfold run_effects. cbn.
  assert (Hsame2 : same_deps_updateDefaults s p1 = true).
  { unfold same_deps_updateDefaults. rewrite Hid, Hcm, StyleId_eqb_refl.
    destruct (customMode s); reflexivity. }
  rewrite Hsame2. cbn.
  destruct (same_deps_autoAdjustHydration s p1); reflexivity.
Qed.

(** What the first commit leaves in [hydration], in auto mode. *)
Lemma run_effects_hydration (prev : option (State N)) (s : State N) :
  customMode s = false ->
  match prev with
  | None => True
  | Some s0 =>
      same_deps_autoAdjustHydration s0 s = true -> hydration_follows_rule eqv s
  end ->
  eqv (hydration (run_effects nextFriday prev s))
    (calcHydration (STYLES (selectedStyleId s))
       (roomTempHours s) (coldFermentHours s)).
Proof.
  intros Hauto Hprev.
  unfold run_effects, updateDefaults, autoAdjustHydration.
  rewrite Hauto. cbn.
  destruct prev as [s0|]; cbn.
  - destruct (same_deps_autoAdjustHydration s0 s) eqn:Hs3; cbn.
    + assert (Hs2 : same_deps_updateDefaults s0 s = true).
      { unfold same_deps_autoAdjustHydration in Hs3.
        unfold same_deps_updateDefaults.
        apply andb_prop in Hs3 as [Hs3 Hc].
        apply andb_prop in Hs3 as [_ Hi]. rewrite Hi, Hc. reflexivity. }
      rewrite Hs2. cbn. apply Hprev; [reflexivity | exact Hauto].
    + destruct (same_deps_updateDefaults s0 s); cbn; apply eqv_refl.
  - apply eqv_refl.
Qed.

(** After the effects of the first commit, a second commit leaves the
    state as the rule wants it. *)
Lemma run_effects_twice (prev : option (State N)) (s : State N) :
  match prev with
  | None => True
  | Some s0 =>
      same_deps_autoAdjustHydration s0 s = true -> hydration_follows_rule eqv s
  end ->
  hydration_follows_rule eqv
    (run_effects nextFriday (Some s) (run_effects nextFriday prev s)).
Proof.
  intros Hprev.
  destruct (run_effects_keeps prev s) as [Hid [Hcm _]].
  rewrite run_effects_again.
  pose proof (run_effects_hydration prev s) as Hp1.
  set (p1 := run_effects nextFriday prev s) in *.
  destruct (same_deps_autoAdjustHydration s p1) eqn:Hsame3.
  - (* the durations are as they were: the first commit decided *)
    intros Hauto. rewrite Hcm in Hauto.
    unfold same_deps_autoAdjustHydration in Hsame3.
    apply andb_prop in Hsame3 as [Hsame3 _].
    apply andb_prop in Hsame3 as [Hsame3 _].
    apply andb_prop in Hsame3 as [Hroom Hcold].
    apply Object_is_eqv in Hroom, Hcold.
    rewrite Hid.
    eapply eqv_trans; [exact (Hp1 Hauto Hprev)|].
    apply calcHydration_eqv; assumption.
  - (* a duration changed: the effect runs again *)
    unfold hydration_follows_rule, autoAdjustHydration.
    destruct (customMode p1) eqn:Hc1; cbn; intros Hauto; [congruence|].
    apply eqv_refl.
Qed.

Lemma render_loop_2 (prev : option (State N)) (s : State N) :
  render_loop nextFriday 2 prev s
  = run_effects nextFriday (Some s) (run_effects nextFriday prev s).
Proof. reflexivity. Qed.

Lemma mount_follows_rule : hydration_follows_rule eqv (mount nextFriday).
Proof.
  unfold mount. rewrite render_loop_2. apply run_effects_twice. exact I.
Qed.

Lemma handle_keeps_hydration (e : Event N) (s : State N) :
  customMode s = false -> hydration (handle e s) = hydration s.
Proof. intros Hc. destruct e; cbn; rewrite ?Hc; reflexivity. Qed.

Lemma step_follows_rule (e : Event N) (s : State N) :
  hydration_follows_rule eqv s ->
  hydration_follows_rule eqv (step nextFriday e s).
Proof.
  intros Hs. unfold step. rewrite render_loop_2.
  apply run_effects_twice. intros Hsame Hauto.
  unfold same_deps_autoAdjustHydration in Hsame.
  apply andb_prop in Hsame as [Hsame Hcm].
  apply andb_prop in Hsame as [Hsame Hid].
  apply andb_prop in Hsame as [Hroom Hcold].
  apply Object_is_eqv in Hroom, Hcold.
  apply StyleId_eqb_eq in Hid. apply Bool.eqb_prop in Hcm.
  rewrite Hauto in Hcm.
  rewrite (handle_keeps_hydration e s Hcm), <- Hid.
  eapply eqv_trans; [exact (Hs Hcm)|].
  apply calcHydration_eqv; assumption.
Qed.

(** Every state the component can be in once its effects have settled
    follows the rule. *)
Lemma settled_follows_rule (s : State N) :
  settled nextFriday s -> hydration_follows_rule eqv s.
Proof.
  induction 1 as [|e s _ IH].
  - apply mount_follows_rule.
  - apply step_follows_rule, IH.
Qed.

(** In custom mode the effects are skipped: no event but the hydration
    slider itself and the mode button touches the hydration. *)
Lemma step_custom_keeps_hydration (e : Event N) (s : State N) :
  customMode s = true ->
  e <> ToggleCustomMode ->
  (forall v, e <> ChangeHydration v) ->
  customMode (step nextFriday e s) = true
  /\ hydration (step nextFriday e s) = hydration s.
Proof.
  intros Hc Htoggle Hslider. unfold step. rewrite render_loop_2.
  assert (Hc1 : customMode (handle e s) = true).
  { destruct e; cbn; rewrite ?Hc; try reflexivity; try assumption.
    contradiction Htoggle; reflexivity. }
  rewrite (run_effects_custom s (handle e s) Hc1).
  rewrite (run_effects_custom (handle e s) (handle e s) Hc1).
  split; [exact Hc1|].
  destruct e; cbn; rewrite ?Hc; try reflexivity.
  contradiction (Hslider v); reflexivity.
Qed.

(** Two commits are enough: a third one finds no dependency changed. *)
Lemma render_loop_settles (n : nat) (prev : option (State N)) (s : State N) :
  render_loop nextFriday (2 + n) prev s = render_loop nextFriday 2 prev s.
Proof.
  revert prev s. induction n as [|n IH]; intros prev s; [reflexivity|].
  change (render_loop nextFriday (2 + S n) prev s)
    with (render_loop nextFriday (2 + n) (Some s)
            (run_effects nextFriday prev s)).
  rewrite IH, !render_loop_2, (run_effects_again (Some s)).
  set (p2 := run_effects nextFriday (Some s) (run_effects nextFriday prev s)).
  assert (Hs3 : same_deps_autoAdjustHydration
                  (run_effects nextFriday prev s) p2 = true).
  { subst p2. rewrite run_effects_again.
    set (p1 := run_effects nextFriday prev s).
    destruct (same_deps_autoAdjustHydration s p1);
      unfold same_deps_autoAdjustHydration, autoAdjustHydration;
      destruct (customMode p1) eqn:Hc1; cbn;
      rewrite ?Hc1, !Object_is_refl, StyleId_eqb_refl; reflexivity. }
  rewrite Hs3. reflexivity.
Qed.

Lemma two_commits_settle : at_rest_after_two_commits nextFriday.
Proof.
  intros commits. split; [|intros e s Hs]; rewrite render_loop_settles.
  - apply settled_mount.
  - apply settled_step, Hs.
Qed.

End HydrationEffect.

(** A state at rest is a state the component renders. *)
Lemma settled_reachable {N : Type} `{Number N} (nextFriday : Date)
    (s : State N) :
  settled nextFriday s -> reachable nextFriday s.
Proof.
  intros [|e s0 Hs0].
  - exact (reachable_mount nextFriday 2).
  - exact (reachable_event e 2 Hs0).
Qed.

(** The rule over the rationals. *)

#[export] Instance Exact_max_Proper :
  Proper (Qeq ==> Qeq ==> Qeq) Exact.max.
Proof.
  intros a a' Ha b b' Hb. unfold Exact.max. Qcase a b; Qcase a' b'; lra.
Qed.

#[export] Instance Exact_min_Proper :
  Proper (Qeq ==> Qeq ==> Qeq) Exact.min.
Proof.
  intros a a' Ha b b' Hb. unfold Exact.min. Qcase a b; Qcase a' b'; lra.
Qed.

#[export] Instance Exact_round_Proper : Proper (Qeq ==> Qeq) Exact.round.
Proof.
  intros a a' Ha. unfold Exact.round. rewrite Ha. reflexivity.
Qed.

Lemma Exact_max_Qmax (x y : Q) : Exact.max x y == Qmax x y.
Proof.
  unfold Exact.max.
  destruct (Q.max_spec x y) as [[H E]|[H E]]; rewrite E; Qcase x y; lra.
Qed.

Lemma Exact_min_Qmin (x y : Q) : Exact.min x y == Qmin x y.
Proof.
  unfold Exact.min.
  destruct (Q.min_spec x y) as [[H E]|[H E]]; rewrite E; Qcase x y; lra.
Qed.

Lemma calcHydration_Qeq (id : StyleId) (r r' c c' : Q) :
  r == r' -> c == c' ->
  calcHydration (STYLES id) r c == calcHydration (STYLES id) r' c'.
Proof.
  intros Hr Hc. unfold calcHydration. exact_ops. rewrite Hr, Hc. reflexivity.
Qed.

Lemma rounded_to_Qeq (unit x r r' : Q) :
  r == r' -> rounded_to unit x r -> rounded_to unit x r'.
Proof.
  intros Hr [[k Hk] [Hlo Hhi]]. split; [exists k|split]; lra.
Qed.

Lemma STYLES_range (id : StyleId) :
  Hydration.min (DoughStyle.hydration (STYLES (N := Q) id))
  <= Hydration.max (DoughStyle.hydration (STYLES (N := Q) id)).
Proof. destruct id; discriminate. Qed.

(** The value the effect computes is the target of the rule, rounded to
    one decimal. *)
Lemma calcHydration_rule (id : StyleId) (room cold : Q) :
  rounded_to 0.1 (hydration_target (STYLES id) room cold)
    (calcHydration (STYLES id) room cold).
Proof.
  pose proof (STYLES_range id) as Hrange.
  unfold calcHydration, hydration_target, clamp, excess in *. exact_ops.
  set (f := DoughStyle.fermentation (STYLES id)).
  set (h := DoughStyle.hydration (STYLES id)) in *.
  set (raw := Hydration.default h
              + Exact.max 0 (cold - Fermentation.coldMin f) / 12 * 0.5
              + Exact.max 0 (room - Fermentation.roomMin f) * 0.25).
  assert (Hclamp :
            Exact.min (Hydration.max h) (Exact.max (Hydration.min h) raw)
            == Qmax (Hydration.min h)
                 (Qmin (Hydration.max h)
                    (Hydration.default h
                     + 0.5 * (Qmax 0 (cold - Fermentation.coldMin f) / 12)
                     + 0.25 * Qmax 0 (room - Fermentation.roomMin f)))).
  { subst raw. rewrite <- !Exact_max_Qmax, <- !Exact_min_Qmin.
    set (a := Exact.max 0 (cold - Fermentation.coldMin f)).
    set (b := Exact.max 0 (room - Fermentation.roomMin f)).
    assert (E : Hydration.default h + 0.5 * (a / 12) + 0.25 * b
                == Hydration.default h + a / 12 * 0.5 + b * 0.25) by field.
    rewrite E.
    set (x := Hydration.default h + a / 12 * 0.5 + b * 0.25).
    Exact_minmax; lra. }
  set (y := Exact.min (Hydration.max h) (Exact.max (Hydration.min h) raw))
    in *.
  destruct (Exact_round_nearest (y * 10)) as [Hk [Hlo Hhi]].
  unfold rounded_to. split; [|split].
  - exists (Qfloor (y * 10 + (1 # 2))). rewrite Hk. field.
  - Qlra.
  - Qlra.
Qed.

(** The settled states of the component, over the rationals. *)
Lemma settled_hydration_Exact (nextFriday : Date) (s : State Q) :
  settled nextFriday s ->
  customMode s = false ->
  hydration s
  == calcHydration (STYLES (selectedStyleId s))
       (roomTempHours s) (coldFermentHours s).
Proof.
  intros Hs.
  apply (@settled_follows_rule Q ExactNumber nextFriday Qeq Qeq_refl
           Qeq_trans Qeq_bool_eq calcHydration_Qeq s Hs).
Qed.

(** The settled states of the component, on binary64. *)
Lemma settled_hydration_IEEE (nextFriday : Date) (s : State float) :
  settled nextFriday s ->
  customMode s = false ->
  hydration s
  = calcHydration (STYLES (selectedStyleId s))
      (roomTempHours s) (coldFermentHours s).
Proof.
  intros Hs.
  apply (@settled_follows_rule float IEEENumber nextFriday eq
           (@eq_refl float) (@eq_trans float)
           (fun x y => proj1 (FloatAxioms.Leibniz.eqb_spec x y))).
  - intros id r r' c c' -> ->. reflexivity.
  - exact Hs.
Qed.

(** C6, amended.  Whenever custom mode is off and the component is at
    rest, its hydration is the style's default plus 0.5 points per
    12 hours of cold ferment over the style's cold minimum plus 0.25
    points per hour at room temperature over the style's room minimum
    (either excess floored at 0), clamped into the style's range and
    rounded to one decimal place, on the rationals, and on binary64 it
    is what the effect computes from the current style and durations:
    the rule is recomputed on every change.  The component is at rest
    from the second commit after the mount or after an event on; the
    render that handles an event in auto mode still shows the hydration
    from before the event, and the first render of all shows the
    initial 62 where the rule gives 63.3.  In custom mode the effects
    are skipped and no event but the hydration slider and the mode
    button changes the hydration.  With the NY Street style (default 62,
    cold minimum 24, room minimum 2), 48 h cold and 3 h at room
    temperature the rule aims at 63.25 and the result is 63.3. *)
Theorem auto_hydration_rule :
  (forall (nextFriday : Date) (s : State Q),
      settled nextFriday s -> customMode s = false ->
      rounded_to 0.1
        (hydration_target (STYLES (selectedStyleId s))
           (roomTempHours s) (coldFermentHours s))
        (hydration s))
  /\ (forall (nextFriday : Date) (s : State float),
        settled nextFriday s -> customMode s = false ->
        hydration s
        = calcHydration (STYLES (selectedStyleId s))
            (roomTempHours s) (coldFermentHours s))
  /\ (forall nextFriday : Date,
        at_rest_after_two_commits (N := Q) nextFriday
        /\ at_rest_after_two_commits (N := float) nextFriday)
  /\ (forall (N : Type) (HN : Number N) (e : Event N) (s : State N),
        customMode s = false -> hydration (handle e s) = hydration s)
  /\ (reachable None (initial (N := Q))
      /\ customMode (initial (N := Q)) = false
      /\ hydration (initial (N := Q)) == 62
      /\ calcHydration (STYLES (selectedStyleId (initial (N := Q))))
           (roomTempHours initial) (coldFermentHours initial) == 63.3)
  /\ (forall (N : Type) (HN : Number N) (nextFriday : Date)
             (e : Event N) (s : State N),
        customMode s = true ->
        e <> ToggleCustomMode ->
        (forall v, e <> ChangeHydration v) ->
        customMode (step nextFriday e s) = true
        /\ hydration (step nextFriday e s) = hydration s)
  /\ hydration_target (STYLES ny_street) 3 48 == 63.25
  /\ calcHydration (N := Q) (STYLES ny_street) 3 48 == 63.3
  /\ calcHydration (N := float) (STYLES ny_street) 3%float 48%float
     = 63.3%float.
Proof.
  split; [|split; [|split; [|split; [|split; [|split; [|split; [|split]]]]]]].
  - intros nextFriday s Hs Hauto.
    apply (rounded_to_Qeq 0.1 _
             (calcHydration (STYLES (selectedStyleId s))
                (roomTempHours s) (coldFermentHours s))).
    + symmetry. apply (settled_hydration_Exact nextFriday); assumption.
    + apply calcHydration_rule.
  - apply settled_hydration_IEEE.
  - intros nextFriday. split; apply two_commits_settle.
    + intros x. apply Qeq_bool_iff. reflexivity.
    + intros x. apply FloatAxioms.Leibniz.eqb_spec. reflexivity.
  - intros N HN e s. apply handle_keeps_hydration.
  - split; [exact (reachable_mount None 0)|].
    split; [reflexivity|]. split; vm_compute; reflexivity.
  - intros N HN nextFriday e s. apply step_custom_keeps_hydration.
  - vm_compute. reflexivity.
  - vm_compute. reflexivity.
  - vm_compute. reflexivity.
Qed.

(** The component as it is mounted (NY Street, 3 h and 48 h, auto mode;
    here with no date preset): its hydration is 63.3, on the rationals
    and on binary64. *)
Lemma auto_hydration_rule_witness :
  settled None (mount (N := Q) None)
  /\ customMode (mount (N := Q) None) = false
  /\ rounded_to 0.1 63.25 (hydration (mount (N := Q) None))
  /\ hydration (mount (N := float) None) = 63.3%float.
Proof.
  destruct auto_hydration_rule as [HQ [HF _]].
  split; [constructor|]. split; [reflexivity|]. split.
  - pose proof (HQ None (mount None) (settled_mount (N := Q) None) eq_refl)
      as H.
    destruct H as [Hk [Hlo Hhi]]. split; [exact Hk|].
    change (hydration_target (STYLES (selectedStyleId (mount (N := Q) None)))
              (roomTempHours (mount (N := Q) None))
              (coldFermentHours (mount (N := Q) None)))
      with (hydration_target (STYLES ny_street) 3 48) in *.
    assert (E : hydration_target (STYLES ny_street) 3 48 == 63.25)
      by (vm_compute; reflexivity).
    split; Qlra.
  - rewrite (HF None (mount None) (settled_mount (N := float) None) eq_refl).
    vm_compute. reflexivity.
Defined.

(** C6 as stated gives 63.25 for its example; the rule rounds to one
    decimal place, and the code yields 63.3, on the rationals and bit
    for bit on binary64.  And custom mode being off is not enough for
    the rule: the first render shows the initial hydration 62, and the
    render that handles the selection of the Detroit style on the
    mounted component shows 63.3, where the rule gives 71.8. *)
Lemma auto_hydration_example_is_63_3 :
  calcHydration (N := Q) (STYLES ny_street) 3 48 == 63.3
  /\ ~ calcHydration (N := Q) (STYLES ny_street) 3 48 == 63.25
  /\ hydration (mount (N := Q) None) == 63.3
  /\ calcHydration (N := float) (STYLES ny_street) 3%float 48%float
     = 63.3%float
  /\ calcHydration (N := float) (STYLES ny_street) 3%float 48%float
     <> 63.25%float
  /\ hydration (mount (N := float) None) = 63.3%float
  /\ (let first := initial (N := float) in
      reachable None first
      /\ customMode first = false
      /\ hydration first = 62%float
      /\ calcHydration (STYLES (selectedStyleId first))
           (roomTempHours first) (coldFermentHours first) = 63.3%float)
  /\ (let next := handle (SelectStyle detroit) (mount (N := float) None) in
      reachable None next
      /\ customMode next = false
      /\ hydration next = 63.3%float
      /\ calcHydration (STYLES (selectedStyleId next))
           (roomTempHours next) (coldFermentHours next) = 71.8%float).
Proof.
  split; [vm_compute; reflexivity|].
  split; [vm_compute; discriminate|].
  split; [vm_compute; reflexivity|].
  split; [vm_compute; reflexivity|].
  split.
  { intros E. apply (f_equal (fun x => PrimFloat.eqb x 63.25%float)) in E.
    vm_compute in E. discriminate. }
  split; [vm_compute; reflexivity|].
  split; cbv zeta.
  - split; [exact (reachable_mount None 0)|].
    repeat split; vm_compute; reflexivity.
  - split.
    + exact (reachable_event (SelectStyle detroit) 0
               (settled_mount (N := float) None)).
    + repeat split; vm_compute; reflexivity.
Qed.

(** *** Fermentation Schedule Engine *)

(** [new Date(x)] of an integral [x] within the range holds [x]. *)
Lemma Exact_TimeClip_Z (x : Q) (z : Z) :
  x == inject_Z z -> in_Date_range z -> Exact.TimeClip x = Some z.
Proof.
  intros Hx [Hlo Hhi]. unfold Exact.TimeClip, Exact.truncate.
  assert (Habs : Qle_bool (Qabs x) 8640000000000000 = true).
  { apply Qle_bool_iff. rewrite Hx. apply Qabs_Qle_condition.
    split.
    - change (- (8640000000000000))
        with (inject_Z (-8640000000000000)).
      rewrite <- Zle_Qle. exact Hlo.
    - change 8640000000000000 with (inject_Z 8640000000000000).
      rewrite <- Zle_Qle. exact Hhi. }
  rewrite Habs.
  assert (Hf : Qfloor x = z) by (rewrite Hx; apply Qfloor_Z).
  assert (Hc : Qceiling x = z) by (rewrite Hx; apply Qceiling_Z).
  destruct (Qle_bool 0 x); rewrite ?Hf, ?Hc; reflexivity.
Qed.

Lemma time_minus_whole (t : Z) (h : Q) (ms : Z) :
  whole_ms h ms ->
  in_Date_range (t - ms) ->
  Date_of_number (N := Q) (time_minus (Some t) (h * 60 * 60 * 1000))
  = Some (t - ms)%Z.
Proof.
  intros Hms Hrange. unfold time_minus, getTime, Date_of_number.
  cbn [option_map]. exact_ops.
  apply Exact_TimeClip_Z; [|exact Hrange].
  unfold whole_ms in Hms. rewrite Hms.
  unfold Zminus. rewrite inject_Z_plus, inject_Z_opp. ring.
Qed.

(** The timeline for lead times that are whole numbers of milliseconds
    ([mb], [mc], [mr] for the style's balling time, the cold and the
    room-temperature hours), as long as the three milestones stay
    within the range of a Date. *)
Lemma timeline_whole_ms (s : State Q) (T mb mc mr : Z) :
  targetDate s = Some T ->
  whole_ms
    (Fermentation.ballingTime
       (DoughStyle.fermentation (STYLES (selectedStyleId s)))) mb ->
  whole_ms (coldFermentHours s) mc ->
  whole_ms (roomTempHours s) mr ->
  in_Date_range (T - mb) ->
  in_Date_range (T - mb - mc) ->
  in_Date_range (T - mb - mc - mr) ->
  ballDate s = Some (T - mb)%Z
  /\ coldStartDate s = Some (T - mb - mc)%Z
  /\ startMixDate s = Some (T - mb - mc - mr)%Z
  /\ ((0 < mb)%Z -> (0 < mc)%Z -> (0 < mr)%Z ->
      (T - mb - mc - mr < T - mb - mc < T - mb)%Z /\ (T - mb < T)%Z).
Proof.
  intros HT Hb Hc Hr Rb Rc Rr.
  assert (Eb : ballDate s = Some (T - mb)%Z).
  { unfold ballDate, bakeDate, style. rewrite HT.
    apply time_minus_whole; assumption. }
  assert (Ec : coldStartDate s = Some (T - mb - mc)%Z).
  { unfold coldStartDate. rewrite Eb. apply time_minus_whole; assumption. }
  assert (Er : startMixDate s = Some (T - mb - mc - mr)%Z).
  { unfold startMixDate. rewrite Ec. apply time_minus_whole; assumption. }
  repeat split; try assumption; lia.
Qed.

(** *** What the component is given *)

Lemma slider_whole (lo hi v : Q) (a b : Z) :
  slider_gives lo hi v -> inject_Z a <= lo -> hi <= inject_Z b ->
  exists k : Z, v == inject_Z k /\ (a <= k <= b)%Z.
Proof.
  intros (k & Hv & Hlo & Hhi) Ha Hb. exists k. split; [exact Hv|].
  split; rewrite Zle_Qle, <- Hv.
  - exact (Qle_trans _ _ _ Ha Hlo).
  - exact (Qle_trans _ _ _ Hhi Hb).
Qed.

Lemma style_room_range (id : StyleId) :
  inject_Z 0 <= Fermentation.roomMin (DoughStyle.fermentation (STYLES (N := Q) id))
  /\ Fermentation.roomMax (DoughStyle.fermentation (STYLES (N := Q) id)) <= inject_Z 24.
Proof. destruct id; split; discriminate. Qed.

Lemma style_cold_range (id : StyleId) :
  inject_Z 0 <= Fermentation.coldMin (DoughStyle.fermentation (STYLES (N := Q) id))
  /\ Fermentation.coldMax (DoughStyle.fermentation (STYLES (N := Q) id)) <= inject_Z 72.
Proof. destruct id; split; discriminate. Qed.

Lemma style_defaults (id : StyleId) :
  (exists r : Z,
      Fermentation.roomDefault (DoughStyle.fermentation (STYLES (N := Q) id))
      == inject_Z r /\ (0 <= r <= 24)%Z)
  /\ (exists c : Z,
         Fermentation.coldDefault (DoughStyle.fermentation (STYLES (N := Q) id))
         == inject_Z c /\ (0 <= c <= 72)%Z).
Proof.
  destruct id; split; eexists; (split; [reflexivity | lia]).
Qed.

Lemma style_ballingTime (id : StyleId) :
  exists b : Z,
    Fermentation.ballingTime (DoughStyle.fermentation (STYLES (N := Q) id))
    == inject_Z b /\ (0 <= b <= 6)%Z.
Proof. destruct id; eexists; (split; [reflexivity | lia]). Qed.

Lemma handle_inputs (e : Event Q) (s : State Q) :
  timeline_inputs s -> input_gives s e -> timeline_inputs (handle e s).
Proof.
  intros (Hr & Hc & Hd) He.
  destruct e; cbn [handle]; try (split; [exact Hr | split; [exact Hc | exact Hd]]);
    try (destruct (customMode s);
         (split; [exact Hr | split; [exact Hc | exact Hd]])).
  - split; [exact Hr | split; [exact Hc | exact He]].
  - split; [|split; [exact Hc | exact Hd]].
    destruct (style_room_range (selectedStyleId s)) as [Hlo Hhi].
    exact (slider_whole _ _ _ _ _ He Hlo Hhi).
  - split; [exact Hr | split; [|exact Hd]].
    destruct (style_cold_range (selectedStyleId s)) as [Hlo Hhi].
    exact (slider_whole _ _ _ _ _ He Hlo Hhi).
Qed.

Lemma run_effects_inputs (nextFriday : Date) (prev : option (State Q))
    (s : State Q) :
  datetime_local nextFriday ->
  timeline_inputs s -> timeline_inputs (run_effects nextFriday prev s).
Proof.
  intros Hnf (Hr & Hc & Hd).
  destruct (style_defaults (selectedStyleId s)) as [Dr Dc].
  unfold run_effects, initializeDate, updateDefaults, autoAdjustHydration.
  destruct (customMode s); cbn [negb];
    destruct prev as [s0|];
    try destruct (same_deps_updateDefaults s0 s);
    try destruct (same_deps_autoAdjustHydration s0 s);
    cbn; (split; [|split]); assumption.
Qed.

Lemma render_loop_inputs (nextFriday : Date) (commits : nat)
    (prev : option (State Q)) (s : State Q) :
  datetime_local nextFriday ->
  timeline_inputs s -> timeline_inputs (render_loop nextFriday commits prev s).
Proof.
  intros Hnf. revert prev s.
  induction commits as [|commits IH]; intros prev s Hs; [exact Hs|].
  apply IH, run_effects_inputs; assumption.
Qed.

Lemma initial_inputs : timeline_inputs initial.
Proof.
  split; [exists 3%Z|split; [exists 48%Z|exact I]]; (split; [reflexivity|lia]).
Qed.

Lemma settled_from_inputs_timeline (nextFriday : Date) (s : State Q) :
  datetime_local nextFriday ->
  settled_from_inputs nextFriday s -> timeline_inputs s.
Proof.
  intros Hnf. induction 1 as [|e s _ IH He].
  - apply render_loop_inputs; [exact Hnf | exact initial_inputs].
  - apply render_loop_inputs; [exact Hnf|]. apply handle_inputs; assumption.
Qed.

Lemma rendered_from_inputs_timeline (nextFriday : Date) (s : State Q) :
  datetime_local nextFriday ->
  rendered_from_inputs nextFriday s -> timeline_inputs s.
Proof.
  intros Hnf [commits|e s0 commits Hs0 He].
  - apply render_loop_inputs; [exact Hnf | exact initial_inputs].
  - apply render_loop_inputs; [exact Hnf|]. apply handle_inputs; [|exact He].
    apply (settled_from_inputs_timeline nextFriday); assumption.
Qed.

Lemma whole_hours_ms (h : Q) (k : Z) :
  h == inject_Z k -> whole_ms h (k * 3600000).
Proof.
  intros Hk. unfold whole_ms. rewrite Hk, inject_Z_mult.
  change (inject_Z 3600000) with 3600000. ring.
Qed.

(** The timeline for whole hours [b], [c], [r] and a date of the
    input. *)
Lemma timeline_whole_hours (s : State Q) (T b c r : Z) :
  targetDate s = Some T ->
  datetime_local (Some T) ->
  Fermentation.ballingTime
    (DoughStyle.fermentation (STYLES (selectedStyleId s))) == inject_Z b ->
  coldFermentHours s == inject_Z c ->
  roomTempHours s == inject_Z r ->
  (0 <= b <= 6)%Z -> (0 <= c <= 72)%Z -> (0 <= r <= 24)%Z ->
  ballDate s = Some (T - b * 3600000)%Z
  /\ coldStartDate s = Some (T - b * 3600000 - c * 3600000)%Z
  /\ startMixDate s
     = Some (T - b * 3600000 - c * 3600000 - r * 3600000)%Z
  /\ ((0 < b)%Z -> (0 < c)%Z -> (0 < r)%Z ->
      (T - b * 3600000 - c * 3600000 - r * 3600000
       < T - b * 3600000 - c * 3600000 < T - b * 3600000)%Z
      /\ (T - b * 3600000 < T)%Z).
Proof.
  intros HT HD Eb Ec Er Hb Hc Hr. cbn in HD.
  destruct (timeline_whole_ms s T (b * 3600000) (c * 3600000) (r * 3600000)
              HT (whole_hours_ms _ _ Eb) (whole_hours_ms _ _ Ec)
              (whole_hours_ms _ _ Er))
    as (E1 & E2 & E3 & _); try (unfold in_Date_range; lia).
  repeat split; try assumption; lia.
Qed.

(** C7.  The timeline of the component, read over the rationals.  For a
    valid bake date T and lead times that are whole numbers of
    milliseconds, as long as the three milestones stay within the range
    of a Date, the ball time is T minus the style's balling time, the
    cold-ferment start the ball time minus the cold hours, the mix time
    the cold-ferment start minus the hours at room temperature; and
    mix < cold start < ball < T when the three lead times are positive.
    These conditions are met by all the component is given: the
    duration sliders give whole hours between the bounds of the style
    (at most 24 and 72), the styles have whole hours (balling at most
    6), and a date comes from the [datetime-local] input or from the
    effect that sets the next Friday; so in every render of the
    component with a valid bake date the three milestones are T - b h,
    T - (b + c) h and T - (b + c + r) h for its whole hours b, c, r,
    in this order when they are positive.  With b = 4, c = 48 and
    r = 3: T - 4 h, T - 52 h and T - 55 h. *)
Theorem timeline_spec :
  (forall (s : State Q) (T mb mc mr : Z),
      targetDate s = Some T ->
      whole_ms
        (Fermentation.ballingTime
           (DoughStyle.fermentation (STYLES (selectedStyleId s)))) mb ->
      whole_ms (coldFermentHours s) mc ->
      whole_ms (roomTempHours s) mr ->
      in_Date_range (T - mb) ->
      in_Date_range (T - mb - mc) ->
      in_Date_range (T - mb - mc - mr) ->
      ballDate s = Some (T - mb)%Z
      /\ coldStartDate s = Some (T - mb - mc)%Z
      /\ startMixDate s = Some (T - mb - mc - mr)%Z
      /\ ((0 < mb)%Z -> (0 < mc)%Z -> (0 < mr)%Z ->
          (T - mb - mc - mr < T - mb - mc < T - mb)%Z /\ (T - mb < T)%Z))
  /\ (forall (nextFriday : Date) (s : State Q) (T : Z),
         datetime_local nextFriday ->
         rendered_from_inputs nextFriday s ->
         targetDate s = Some T ->
         exists b c r : Z,
           (Fermentation.ballingTime
              (DoughStyle.fermentation (STYLES (selectedStyleId s)))
            == inject_Z b
            /\ coldFermentHours s == inject_Z c
            /\ roomTempHours s == inject_Z r)
           /\ ((0 <= b <= 6)%Z /\ (0 <= c <= 72)%Z /\ (0 <= r <= 24)%Z)
           /\ ballDate s = Some (T - b * 3600000)%Z
           /\ coldStartDate s = Some (T - b * 3600000 - c * 3600000)%Z
           /\ startMixDate s
              = Some (T - b * 3600000 - c * 3600000 - r * 3600000)%Z
           /\ ((0 < b)%Z -> (0 < c)%Z -> (0 < r)%Z ->
               (T - b * 3600000 - c * 3600000 - r * 3600000
                < T - b * 3600000 - c * 3600000 < T - b * 3600000)%Z
               /\ (T - b * 3600000 < T)%Z))
  /\ (forall (s : State Q) (T : Z),
         targetDate s = Some T ->
         datetime_local (Some T) ->
         Fermentation.ballingTime
           (DoughStyle.fermentation (STYLES (selectedStyleId s))) == 4 ->
         coldFermentHours s == 48 ->
         roomTempHours s == 3 ->
         ballDate s = Some (T - 4 * 3600000)%Z
         /\ coldStartDate s = Some (T - 52 * 3600000)%Z
         /\ startMixDate s = Some (T - 55 * 3600000)%Z
         /\ (T - 55 * 3600000 < T - 52 * 3600000 < T - 4 * 3600000)%Z
         /\ (T - 4 * 3600000 < T)%Z).
Proof.
  split; [exact timeline_whole_ms|]. split.
  - intros nextFriday s T Hnf Hs HT.
    destruct (rendered_from_inputs_timeline nextFriday s Hnf Hs)
      as ((r & Er & Hr) & (c & Ec & Hc) & HD).
    destruct (style_ballingTime (selectedStyleId s)) as (b & Eb & Hb).
    rewrite HT in HD.
    exists b, c, r. split; [repeat split; assumption|].
    split; [repeat split; lia|].
    apply (timeline_whole_hours s T b c r); assumption.
  - intros s T HT HD Eb Ec Er.
    destruct (timeline_whole_hours s T 4 48 3 HT HD Eb Ec Er)
      as (E1 & E2 & E3 & Horder); try lia.
    rewrite E1, E2, E3. repeat split; try (f_equal; lia); lia.
Qed.

(** The component as mounted (NY Street: balling 4 h; 48 h cold, 3 h at
    room temperature), baking at time 1 000 000 000 000 (September
    2001): ball at T - 4 h, cold start at T - 52 h, mix at T - 55 h, on
    the rationals and on binary64. *)
Lemma timeline_spec_witness :
  let s := mount (N := Q) (Some 1000000000000%Z) in
  rendered_from_inputs (Some 1000000000000%Z) s
  /\ targetDate s = Some 1000000000000%Z
  /\ ballDate s = Some (1000000000000 - 4 * 3600000)%Z
  /\ coldStartDate s = Some (1000000000000 - 52 * 3600000)%Z
  /\ startMixDate s = Some (1000000000000 - 55 * 3600000)%Z
  /\ ballDate (mount (N := float) (Some 1000000000000%Z))
     = Some (1000000000000 - 4 * 3600000)%Z
  /\ coldStartDate (mount (N := float) (Some 1000000000000%Z))
     = Some (1000000000000 - 52 * 3600000)%Z
  /\ startMixDate (mount (N := float) (Some 1000000000000%Z))
     = Some (1000000000000 - 55 * 3600000)%Z.
Proof.
  cbv zeta.
  split; [exact (rendered_mount (Some 1000000000000%Z) 2)|].
  split; [vm_compute; reflexivity|].
  destruct (proj2 (proj2 timeline_spec)
              (mount (N := Q) (Some 1000000000000%Z)) 1000000000000%Z)
    as (E1 & E2 & E3 & _).
  - vm_compute. reflexivity.
  - split; discriminate.
  - vm_compute. reflexivity.
  - vm_compute. reflexivity.
  - vm_compute. reflexivity.
  - split; [exact E1|]. split; [exact E2|]. split; [exact E3|].
    repeat split; vm_compute; reflexivity.
Defined.

(** Outside what the component is given.  A bake date at the lower end
    of the Date range is valid, but its ball time is no Date at all.  A
    cold ferment of a ten-millionth of an hour (0.36 ms) is positive, but
    [new Date] drops the fraction of a millisecond toward zero: for a
    bake date in 2001 the cold-ferment start is a whole millisecond
    before the ball time, and for a bake date in 1938 (a negative time
    value) it is the ball time itself.  On the rationals and on
    binary64. *)
Lemma timeline_outside_domain :
  let early (N : Type) (HN : Number N) : State N :=
    mount (Some (-8640000000000000)%Z) in
  let brief (N : Type) (HN : Number N) (T : Z) : State N :=
    setColdFermentHours (lit 0.0000001) (mount (Some T)) in
  in_Date_range (-8640000000000000)
  /\ ballDate (early Q _) = None
  /\ ballDate (early float _) = None
  /\ 0 < coldFermentHours (brief Q _ 0%Z)
  /\ coldFermentHours (brief Q _ 0%Z) * 60 * 60 * 1000 == 0.36
  /\ ballDate (brief Q _ 1000000000000%Z) = Some 999985600000%Z
  /\ coldStartDate (brief Q _ 1000000000000%Z) = Some 999985599999%Z
  /\ coldStartDate (brief Q _ (-1000000000000)%Z)
     = ballDate (brief Q _ (-1000000000000)%Z)
  /\ PrimFloat.ltb 0 (coldFermentHours (brief float _ 0%Z)) = true
  /\ coldStartDate (brief float _ 1000000000000%Z) = Some 999985599999%Z
  /\ coldStartDate (brief float _ (-1000000000000)%Z)
     = ballDate (brief float _ (-1000000000000)%Z).
Proof.
  cbv zeta. split; [split; discriminate|].
  repeat split; vm_compute; reflexivity.
Qed.


(** * Further properties *)

(** ** BrewMaster: water volumes *)

(** The mash volume cancels in [mashVol + spargeVol]: the total water is
    the batch size plus what boils off, what stays in the trub, what the
    grain absorbs and the dead space of the mash tun, whatever the mash
    thickness. *)
Theorem total_water_balance
    (recipe : RecipeContext.t Q) (equipment : EquipmentProfile.t Q)
    (boilTime : Q) :
  totalWater recipe equipment boilTime
  == RecipeContext.batchSizeGal recipe
     + EquipmentProfile.boilOffRateGalPerHr equipment * (boilTime / 60)
     + EquipmentProfile.trubLossGal equipment
     + Qsum (map (@Fermentable.weightLb Q) (RecipeContext.grainBill recipe))
       * EquipmentProfile.grainAbsorptionGalPerLb equipment
     + EquipmentProfile.mashTunDeadspaceGal equipment.
Proof.
  unfold totalWater, spargeVol, mashVol, preBoilVol, absorption, boilOff,
    totalGrainWeight.
  exact_ops. rewrite fold_left_Qsum. field.
Qed.

(** ** BrewMaster: yeast pitch *)

(** The cells needed do not depend on the batch size: the volume of the
    wort cancels against the volume in the gravity points, so that for
    every positive batch size the need is the pitch rate times 3785.41
    times the points extracted from the grain bill, over 4000.  Without
    a positive batch size it is 0. *)
Theorem cells_needed_ignore_batch_size
    (recipe : RecipeContext.t Q) (v : Q) :
  (0 < v ->
   totalCellsNeededBillions (setBatchSizeGal v recipe)
   == YeastProfile.targetPitchRate (RecipeContext.yeast recipe) * 3785.41
      * (Qsum (map (fun f => Fermentable.weightLb f * Fermentable.ppg f)
                 (RecipeContext.grainBill recipe))
         * (RecipeContext.efficiency recipe / 100))
      / 4000)
  /\ (v <= 0 -> totalCellsNeededBillions (setBatchSizeGal v recipe) == 0).
Proof.
  unfold totalCellsNeededBillions, plato, gravity. cbn [setBatchSizeGal
    RecipeContext.batchSizeGal RecipeContext.grainBill
    RecipeContext.efficiency RecipeContext.yeast].
  destruct (calculateGravity_Exact (RecipeContext.grainBill recipe)
              (RecipeContext.efficiency recipe) v) as (Hpos & Hneg & Hog).
  cbv zeta in Hpos, Hneg, Hog. exact_ops. split; intros Hv.
  - rewrite Hog, (Hpos Hv). field. lra.
  - rewrite Hog, (Hneg Hv). field.
Qed.

Lemma cells_needed_ignore_batch_size_witness :
  totalCellsNeededBillions (setBatchSizeGal 5.5 (@DEFAULT_RECIPE Q _))
  == totalCellsNeededBillions (setBatchSizeGal 11 (@DEFAULT_RECIPE Q _)).
Proof.
  rewrite (proj1 (cells_needed_ignore_batch_size DEFAULT_RECIPE 5.5));
    [|reflexivity].
  rewrite (proj1 (cells_needed_ignore_batch_size DEFAULT_RECIPE 11));
    [|reflexivity].
  reflexivity.
Defined.

(** ** BrewMaster: keg balancing *)

(** The line balances the keg: with a positive line resistance, the
    resistance of the line plus half a PSI per foot of rise is the
    serving pressure, as long as the pressure covers the rise; below
    that the length is 0.  The length is never negative. *)
Theorem line_length_balances
    (M : MathApprox Q) (recipe : RecipeContext.t Q) :
  let keg := RecipeContext.kegConfig recipe in
  let psi := @servingPSI Q ExactNumber (ExactMath M) recipe in
  let len := @lineLengthFt Q ExactNumber (ExactMath M) recipe in
  0 < KegConfig.lineResistance keg ->
  0 <= len
  /\ (KegConfig.heightRiseFt keg * 0.5 <= psi ->
      len * KegConfig.lineResistance keg + KegConfig.heightRiseFt keg * 0.5
      == psi)
  /\ (psi <= KegConfig.heightRiseFt keg * 0.5 -> len == 0).
Proof.
  cbv zeta. unfold lineLengthFt, resistanceNeeded.
  set (psi := @servingPSI Q ExactNumber (ExactMath M) recipe).
  set (h := KegConfig.heightRiseFt (RecipeContext.kegConfig recipe)).
  set (r := KegConfig.lineResistance (RecipeContext.kegConfig recipe)).
  exact_ops. intros Hr.
  assert (Hdiv : forall x, 0 <= x -> 0 <= x / r).
  { intros x Hx. apply Qle_shift_div_l; [exact Hr | lra]. }
  assert (Hneg : forall x, x <= 0 -> x / r <= 0).
  { intros x Hx. apply Qle_shift_div_r; [exact Hr | lra]. }
  destruct (Exact_max_spec 0 ((psi - h * 0.5) / r)) as [[Hle E]|[Hlt E]];
    rewrite E; clear E.
  - split; [exact Hle|]. split.
    + intros _. field. lra.
    + intros Hp. specialize (Hneg (psi - h * 0.5)). lra.
  - split; [lra|]. split.
    + intros Hp. specialize (Hdiv (psi - h * 0.5)). lra.
    + reflexivity.
Qed.

Lemma line_length_balances_witness :
  let len := @lineLengthFt Q ExactNumber ExactSample DEFAULT_RECIPE in
  let psi := @servingPSI Q ExactNumber ExactSample DEFAULT_RECIPE in
  0 <= len /\ len * 2.2 + 1 * 0.5 == psi.
Proof.
  cbv zeta.
  destruct (line_length_balances (SampleMath trim30) DEFAULT_RECIPE)
    as (H0 & Hbal & _); [reflexivity|].
  split; [exact H0|]. apply Hbal. vm_compute. discriminate.
Defined.

(** Two Numbers with the same value are the same Number. *)
Lemma Prim2SF_eq (x y : float) : Prim2SF x = Prim2SF y -> x = y.
Proof.
  intros E. rewrite <- (FloatAxioms.SF2Prim_Prim2SF x), E.
  apply FloatAxioms.SF2Prim_Prim2SF.
Qed.

(** [x / 0]: NaN for a zero and for NaN, else the infinity of the sign
    of [x]. *)
Lemma div_zero_SF (x : float) :
  Prim2SF (x / 0)%float =
  match Prim2SF x with
  | S754_zero _ | S754_nan => S754_nan
  | S754_infinity s | S754_finite s _ _ => S754_infinity s
  end.
Proof.
  rewrite FloatAxioms.div_spec. change (Prim2SF 0) with (S754_zero false).
  destruct (Prim2SF x) as [s|s| |s m e]; try reflexivity;
    destruct s; reflexivity.
Qed.

(** An emptied [NumberInput] hands 0 to its [onChange]. *)
Lemma NumberInput_empty : @NumberInput_onChange float _ nan = 0%float.
Proof. reflexivity. Qed.

(** With the line resistance field emptied, which stores 0, the line
    length is no length: Infinity when the pressure exceeds the rise, 0
    when the rise exceeds the pressure, and NaN when they are equal (or
    the resistance needed is NaN). *)
Theorem line_length_without_resistance
    (M : MathApprox float) (recipe : RecipeContext.t float) :
  let recipe0 := setLineResistance (NumberInput_onChange nan) recipe in
  let need := @resistanceNeeded float IEEENumber (IEEEMath M) recipe in
  let len := @lineLengthFt float IEEENumber (IEEEMath M) recipe0 in
  (PrimFloat.ltb 0 need = true -> len = infinity)
  /\ (PrimFloat.ltb need 0 = true -> len = 0%float)
  /\ (PrimFloat.ltb 0 need = false -> PrimFloat.ltb need 0 = false ->
      PrimFloat.is_nan len = true).
Proof.
  cbv zeta. unfold lineLengthFt.
  change (@resistanceNeeded float IEEENumber (IEEEMath M)
            (setLineResistance (NumberInput_onChange nan) recipe))
    with (@resistanceNeeded float IEEENumber (IEEEMath M) recipe).
  generalize (@resistanceNeeded float IEEENumber (IEEEMath M) recipe).
  intros need.
  cbn [setLineResistance RecipeContext.kegConfig KegConfig.lineResistance].
  rewrite NumberInput_empty. ieee_ops. change (IEEE.lit 0) with 0%float.
  rewrite !FloatAxioms.ltb_spec.
  change (Prim2SF 0) with (S754_zero false).
  pose proof (div_zero_SF need) as E.
  assert (Hinf : (need / 0 = infinity ->
                  IEEE.max 0 (need / 0) = infinity)%float)
    by (intros ->; reflexivity).
  assert (Hninf : (need / 0 = neg_infinity ->
                   IEEE.max 0 (need / 0) = 0)%float)
    by (intros ->; reflexivity).
  assert (Hnan : (need / 0 = nan ->
                  PrimFloat.is_nan (IEEE.max 0 (need / 0)) = true)%float)
    by (intros ->; reflexivity).
  destruct (Prim2SF need) as [s|s| |s m e];
    (split; [|split]); intros H1; try intros H2;
    try discriminate;
    try (apply Hnan, Prim2SF_eq; exact E);
    destruct s; try discriminate;
    try (apply Hinf, Prim2SF_eq; exact E);
    try (apply Hninf, Prim2SF_eq; exact E).
Qed.

Lemma line_length_without_resistance_witness :
  @lineLengthFt float IEEENumber IEEESample
    (setLineResistance (NumberInput_onChange nan) DEFAULT_RECIPE)
  = infinity.
Proof.
  apply (proj1 (line_length_without_resistance
                  (SampleMath (fun x => x)) DEFAULT_RECIPE)).
  vm_compute. reflexivity.
Defined.

(** ** BrewMaster: the BU:GU ratio *)

Lemma div_by_zero_or_nan (x d : float) :
  SFzero_or_nan (Prim2SF d) = true ->
  PrimFloat.is_finite (x / d)%float = false.
Proof.
  rewrite is_finite_SF, FloatAxioms.div_spec.
  destruct (Prim2SF d) as [sd|sd| |sd md ed]; try discriminate; intros _;
    destruct (Prim2SF x) as [s|s| |s m e]; reflexivity.
Qed.

Lemma mul_zero_l (y : float) : SFzero_or_nan (Prim2SF (0 * y)%float) = true.
Proof.
  rewrite FloatAxioms.mul_spec. change (Prim2SF 0) with (S754_zero false).
  destruct (Prim2SF y) as [s|s| |s m e]; reflexivity.
Qed.

Lemma div_zero_or_nan_l (x v : float) :
  SFzero_or_nan (Prim2SF x) = true -> PrimFloat.ltb 0 v = true ->
  SFzero_or_nan (Prim2SF (x / v)%float) = true.
Proof.
  rewrite FloatAxioms.div_spec, FloatAxioms.ltb_spec.
  change (Prim2SF 0) with (S754_zero false).
  destruct (Prim2SF x) as [s|s| |s m e]; try discriminate; intros _;
    destruct (Prim2SF v) as [sv|sv| |sv mv ev]; try discriminate;
    reflexivity.
Qed.

(** Without points the gravity is 1 (or NaN), and the gravity units
    [(og - 1) * 1000] are 0 (or NaN). *)
Lemma gravity_units_of_zero (p : float) :
  SFzero_or_nan (Prim2SF p) = true ->
  SFzero_or_nan (Prim2SF ((1 + p / 1000 - 1) * 1000)%float) = true.
Proof.
  intros Hp.
  rewrite FloatAxioms.mul_spec, FloatAxioms.sub_spec, FloatAxioms.add_spec,
    FloatAxioms.div_spec.
  destruct (Prim2SF p) as [s|s| |s m e]; try discriminate;
    try destruct s; vm_compute; reflexivity.
Qed.

(** With every fermentable removed, the BU:GU ratio divides by zero
    gravity units: whatever the hops, the batch size and the efficiency,
    it is Infinity, -Infinity or NaN. *)
Theorem bu_gu_without_grain
    (M : MathApprox float) (recipe : RecipeContext.t float) :
  PrimFloat.is_finite
    (@buGuRatio float IEEENumber (IEEEMath M) (setGrainBill [] recipe))
  = false.
Proof.
  unfold buGuRatio.
  generalize (@ibu float IEEENumber (IEEEMath M) (setGrainBill [] recipe)).
  intros x. unfold gravity, calculateGravity.
  cbn [setGrainBill RecipeContext.grainBill RecipeContext.efficiency
       RecipeContext.batchSizeGal fold_left og].
  ieee_ops.
  change (IEEE.lit 0) with 0%float. change (IEEE.lit 1) with 1%float.
  change (IEEE.lit 1000) with 1000%float.
  change (IEEE.lit 100) with 100%float.
  apply div_by_zero_or_nan, gravity_units_of_zero.
  destruct (PrimFloat.ltb 0 (RecipeContext.batchSizeGal recipe)) eqn:Hv.
  - apply div_zero_or_nan_l; [apply mul_zero_l | exact Hv].
  - reflexivity.
Qed.

(** ** BrewMaster: the visual timeline *)

Lemma Qsum_map_scale {A : Type} (f : A -> Q) (k : Q) (l : list A) :
  Qsum (map (fun x => f x * k) l) == Qsum (map f l) * k.
Proof.
  induction l as [|x l IH]; simpl.
  - ring.
  - rewrite IH. ring.
Qed.

Lemma totalDays_zero (recipe : RecipeContext.t float) :
  Forall (fun step => FermentationStep.days step = 0%float)
    (RecipeContext.fermentationSchedule recipe) ->
  totalDays recipe = 0%float.
Proof.
  unfold totalDays. ieee_ops. change (IEEE.lit 0) with 0%float.
  induction 1 as [|step l Hstep _ IH]; simpl.
  - reflexivity.
  - rewrite Hstep. exact IH.
Qed.

(** The bars of the steps fill the timeline: over the rationals their
    widths add up to 100 percent whenever the days do not add up to 0.
    When every step lasts 0 days, each width is 0/0 * 100: on binary64,
    NaN. *)
Theorem timeline_fills_the_bar :
  (forall recipe : RecipeContext.t Q,
      ~ totalDays recipe == 0 -> Qsum (timelineWidths recipe) == 100)
  /\ (forall recipe : RecipeContext.t float,
         Forall (fun step => FermentationStep.days step = 0%float)
           (RecipeContext.fermentationSchedule recipe) ->
         Forall (fun width => PrimFloat.is_nan width = true)
           (timelineWidths recipe)).
Proof.
  split.
  - intros recipe Htotal. unfold timelineWidths, stepWidth.
    assert (Et : totalDays recipe
                 == Qsum (map (@FermentationStep.days Q)
                            (RecipeContext.fermentationSchedule recipe))).
    { unfold totalDays. exact_ops. rewrite fold_left_Qsum. ring. }
    exact_ops.
    rewrite (Qsum_map_scale
               (fun step => FermentationStep.days step / totalDays recipe)).
    unfold Qdiv at 1.
    rewrite (Qsum_map_scale (@FermentationStep.days Q)).
    rewrite <- Et. field. exact Htotal.
  - intros recipe Hzero. unfold timelineWidths, stepWidth.
    rewrite (totalDays_zero recipe Hzero).
    induction Hzero as [|step l Hstep _ IH]; simpl; constructor.
    + rewrite Hstep. reflexivity.
    + exact IH.
Qed.

Lemma timeline_fills_the_bar_witness :
  Qsum (timelineWidths (@DEFAULT_RECIPE Q _)) == 100.
Proof.
  apply (proj1 timeline_fills_the_bar). vm_compute. discriminate.
Defined.

(** ** BrewMaster: the grain and hop handlers *)

Lemma filter_all {A : Type} (p : A -> bool) (l : list A) :
  (forall x, In x l -> p x = true) -> filter p l = l.
Proof.
  induction l as [|x l IH]; intros Hall; simpl.
  - reflexivity.
  - rewrite (Hall x (or_introl eq_refl)), IH; [reflexivity|].
    intros y Hy. apply Hall. right. exact Hy.
Qed.

Lemma map_unless {A : Type} (p : A -> bool) (f : A -> A) (l : list A) :
  (forall x, In x l -> p x = false) ->
  map (fun x => if p x then f x else x) l = l.
Proof.
  induction l as [|x l IH]; intros Hall; simpl.
  - reflexivity.
  - rewrite (Hall x (or_introl eq_refl)), IH; [reflexivity|].
    intros y Hy. apply Hall. right. exact Hy.
Qed.

Lemma setGrainBill_same {N : Type} (recipe : RecipeContext.t N) :
  setGrainBill (RecipeContext.grainBill recipe) recipe = recipe.
Proof. destruct recipe. reflexivity. Qed.

Lemma setHopSchedule_same {N : Type} (recipe : RecipeContext.t N) :
  setHopSchedule (RecipeContext.hopSchedule recipe) recipe = recipe.
Proof. destruct recipe. reflexivity. Qed.

(** Removing what was just added restores the recipe, provided the id
    made from the clock is not that of an older entry: [removeGrain]
    undoes [addGrain], and [removeHop] undoes [addHop]. *)
Theorem remove_undoes_add
    (N : Type) (HN : Number N) (now : Z) (recipe : RecipeContext.t N) :
  (unused_grain_id (Date_now_toString now) recipe ->
   removeGrain (Date_now_toString now) (addGrain now recipe) = recipe)
  /\ (unused_hop_id (Date_now_toString now) recipe ->
      removeHop (Date_now_toString now) (addHop now recipe) = recipe).
Proof.
  split; intros Hfresh.
  - unfold removeGrain, addGrain.
    cbn [setGrainBill RecipeContext.grainBill].
    rewrite filter_app, filter_all.
    + cbn [filter Fermentable.id]. rewrite String.eqb_refl. cbn [negb].
      rewrite app_nil_r. destruct recipe; reflexivity.
    + intros g Hg. apply negb_true_iff, String.eqb_neq, Hfresh, Hg.
  - unfold removeHop, addHop.
    cbn [setHopSchedule RecipeContext.hopSchedule].
    rewrite filter_app, filter_all.
    + cbn [filter HopAddition.id]. rewrite String.eqb_refl. cbn [negb].
      rewrite app_nil_r. destruct recipe; reflexivity.
    + intros g Hg. apply negb_true_iff, String.eqb_neq, Hfresh, Hg.
Qed.

Lemma remove_undoes_add_witness :
  removeGrain "1700000000000" (addGrain 1700000000000 (@DEFAULT_RECIPE Q _))
  = DEFAULT_RECIPE
  /\ removeHop "1700000000000" (addHop 1700000000000 (@DEFAULT_RECIPE Q _))
     = DEFAULT_RECIPE.
Proof.
  split.
  - apply (proj1 (remove_undoes_add Q _ 1700000000000 DEFAULT_RECIPE)).
    intros g [<-|[<-|[]]]; discriminate.
  - apply (proj2 (remove_undoes_add Q _ 1700000000000 DEFAULT_RECIPE)).
    intros h [<-|[<-|[]]]; discriminate.
Defined.

(** An id that no entry carries changes nothing: [updateGrain] and
    [removeGrain], [updateHop] and [removeHop] return the recipe as it
    was. *)
Theorem unknown_id_changes_nothing
    (N : Type) (HN : Number N) (id : string) (recipe : RecipeContext.t N) :
  (unused_grain_id id recipe ->
   (forall fv, updateGrain id fv recipe = recipe)
   /\ removeGrain id recipe = recipe)
  /\ (unused_hop_id id recipe ->
      (forall fv, updateHop id fv recipe = recipe)
      /\ removeHop id recipe = recipe).
Proof.
  split; intros Hfresh; split; try intros fv.
  - unfold updateGrain. rewrite map_unless; [apply setGrainBill_same|].
    intros g Hg. apply String.eqb_neq, Hfresh, Hg.
  - unfold removeGrain. rewrite filter_all; [apply setGrainBill_same|].
    intros g Hg. apply negb_true_iff, String.eqb_neq, Hfresh, Hg.
  - unfold updateHop. rewrite map_unless; [apply setHopSchedule_same|].
    intros g Hg. apply String.eqb_neq, Hfresh, Hg.
  - unfold removeHop. rewrite filter_all; [apply setHopSchedule_same|].
    intros g Hg. apply negb_true_iff, String.eqb_neq, Hfresh, Hg.
Qed.

Lemma unknown_id_changes_nothing_witness :
  updateGrain "3" (FermentableField.weightLb 4) (@DEFAULT_RECIPE Q _)
  = DEFAULT_RECIPE
  /\ removeHop "3" (@DEFAULT_RECIPE Q _) = DEFAULT_RECIPE.
Proof.
  destruct (unknown_id_changes_nothing Q _ "3" DEFAULT_RECIPE)
    as [Hgrain Hhop].
  split.
  - apply Hgrain. intros g [<-|[<-|[]]]; discriminate.
  - apply Hhop. intros h [<-|[<-|[]]]; discriminate.
Defined.

(** A fermentable just added weighs 0: the gravity, the total grist and
    the water volumes are what they were. *)
Theorem new_grain_changes_nothing
    (now : Z) (recipe : RecipeContext.t Q) (equipment : EquipmentProfile.t Q)
    (boilTime : Q) :
  points (gravity (addGrain now recipe)) == points (gravity recipe)
  /\ og (gravity (addGrain now recipe)) == og (gravity recipe)
  /\ totalGrainWeight (addGrain now recipe) == totalGrainWeight recipe
  /\ totalWater (addGrain now recipe) equipment boilTime
     == totalWater recipe equipment boilTime.
Proof.
  assert (Ew : totalGrainWeight (addGrain now recipe)
               == totalGrainWeight recipe).
  { unfold totalGrainWeight, addGrain.
    cbn [setGrainBill RecipeContext.grainBill]. rewrite fold_left_app.
    cbn [fold_left Fermentable.weightLb]. exact_ops. ring. }
  assert (Ep : points (gravity (addGrain now recipe))
               == points (gravity recipe)).
  { unfold gravity, calculateGravity, addGrain.
    cbn [setGrainBill RecipeContext.grainBill RecipeContext.efficiency
         RecipeContext.batchSizeGal points].
    rewrite fold_left_app.
    cbn [fold_left Fermentable.weightLb Fermentable.ppg]. exact_ops.
    destruct (Exact.ltb 0 (RecipeContext.batchSizeGal recipe));
      [|reflexivity].
    unfold Qdiv. ring. }
  split; [exact Ep|]. split; [|split; [exact Ew|]].
  - unfold gravity, calculateGravity in *. cbn [og points] in *.
    exact_ops. rewrite Ep. reflexivity.
  - unfold totalWater, spargeVol, mashVol, preBoilVol, absorption.
    change (RecipeContext.batchSizeGal (addGrain now recipe))
      with (RecipeContext.batchSizeGal recipe).
    exact_ops. rewrite Ew. reflexivity.
Qed.

(** ** BrewMaster: edits of the fermentation steps *)

Lemma assign_at_length {N : Type} (r : FermentationEditor.Ref)
    (a : FermentationEditor.Assignment N)
    (objs : list (FermentationStep.t N)) :
  List.length (FermentationEditor.assign_at r a objs) = List.length objs.
Proof.
  revert r. induction objs as [|o objs IH]; intros [|r]; simpl;
    try reflexivity.
  rewrite IH. reflexivity.
Qed.

Lemma assign_at_same {N : Type} (r : FermentationEditor.Ref)
    (a : FermentationEditor.Assignment N)
    (objs : list (FermentationStep.t N)) :
  nth_error (FermentationEditor.assign_at r a objs) r
  = option_map (FermentationEditor.assign a) (nth_error objs r).
Proof.
  revert r. induction objs as [|o objs IH]; intros [|r]; simpl;
    try reflexivity.
  apply IH.
Qed.

(** The two objects of [DEFAULT_RECIPE] are never freed. *)
Lemma reachable_objects {N : Type} `{Number N}
    (w : FermentationEditor.World) :
  FermentationEditor.reachable w ->
  (2 <= List.length (FermentationEditor.objects w))%nat.
Proof.
  induction 1 as [|e w w' _ IH Hw'].
  - simpl. lia.
  - destruct e; simpl in Hw'.
    + injection Hw' as <-. exact IH.
    + injection Hw' as <-. exact IH.
    + unfold FermentationEditor.editStep in Hw'.
      destruct (FermentationEditor.fermentationSchedule w) as [sched|]; [|discriminate].
      cbv zeta in Hw'.
      destruct (nth_error sched idx) as [r|]; [|discriminate].
      injection Hw' as <-. simpl. rewrite assign_at_length. exact IH.
    + unfold FermentationEditor.removeStep in Hw'.
      destruct (FermentationEditor.fermentationSchedule w) as [sched|]; [|discriminate].
      injection Hw' as <-. exact IH.
    + unfold FermentationEditor.addStep in Hw'.
      destruct (FermentationEditor.fermentationSchedule w) as [sched|]; [|discriminate].
      injection Hw' as <-. simpl. rewrite length_app. lia.
Qed.

(** An edit of one of the two default fermentation steps outlives the
    component: it assigns to the step object of [DEFAULT_RECIPE], from
    which every [BrewMaster] starts.  In every state the program can
    reach, a component just mounted renders two steps, the objects of
    [DEFAULT_RECIPE] as they are now; editing step [idx] of these,
    leaving the page and coming back shows the step as edited, not the
    default. *)
Theorem fermentation_edit_outlives_component
    (N : Type) (HN : Number N) (w : FermentationEditor.World)
    (idx : nat) (a : FermentationEditor.Assignment N) :
  FermentationEditor.reachable w -> (idx < 2)%nat ->
  exists o0 o1 w',
    FermentationEditor.rendered (FermentationEditor.mount w)
    = [Some o0; Some o1]
    /\ FermentationEditor.editStep idx a (FermentationEditor.mount w)
       = Some w'
    /\ nth_error
         (FermentationEditor.rendered
            (FermentationEditor.mount (FermentationEditor.unmount w')))
         idx
       = option_map (fun o => Some (FermentationEditor.assign a o))
           (nth_error [o0; o1] idx).
Proof.
  intros Hw Hidx.
  pose proof (reachable_objects w Hw) as Hlen.
  destruct (FermentationEditor.objects w) as [|o0 [|o1 objs]] eqn:Eo;
    simpl in Hlen; try lia.
  exists o0, o1.
  destruct idx as [|[|idx]]; [| |lia].
  - eexists. split; [|split].
    + unfold FermentationEditor.rendered. simpl. rewrite Eo. reflexivity.
    + unfold FermentationEditor.editStep. simpl. reflexivity.
    + simpl. rewrite Eo. reflexivity.
  - eexists. split; [|split].
    + unfold FermentationEditor.rendered. simpl. rewrite Eo. reflexivity.
    + unfold FermentationEditor.editStep. simpl. reflexivity.
    + simpl. rewrite Eo. reflexivity.
Qed.

Lemma fermentation_edit_outlives_component_witness :
  exists w',
    FermentationEditor.editStep 0 (FermentationEditor.days 14)
      (FermentationEditor.mount (@FermentationEditor.loaded Q _))
    = Some w'
    /\ FermentationEditor.rendered
         (FermentationEditor.mount (FermentationEditor.unmount w'))
       = [Some (FermentationStep.mk "1" "Primary" 67 14);
          Some (FermentationStep.mk "2" "Cold Crash" 38 2)].
Proof.
  destruct (fermentation_edit_outlives_component Q _
              FermentationEditor.loaded 0 (FermentationEditor.days 14)
              FermentationEditor.reachable_loaded (Nat.lt_0_succ 1))
    as (o0 & o1 & w' & _ & Hedit & _).
  exists w'. split; [exact Hedit|].
  simpl in Hedit. injection Hedit as <-. reflexivity.
Defined.

(** ** PizzaCalculator: the formula in auto mode *)

Section FormulaEffect.

Context {N : Type} `{Number N}.
Variable nextFriday : Date.

(** What the first commit leaves in the four percentages. *)
Lemma run_effects_percentages (prev : option (State N)) (s : State N) :
  customMode s = false ->
  match prev with
  | None => True
  | Some s0 =>
      same_deps_updateDefaults s0 s = true -> percentages_follow_style s
  end ->
  percentages_follow_style (run_effects nextFriday prev s).
Proof.
  intros Hauto Hprev.
  destruct (run_effects_keeps nextFriday prev s) as [Hid [Hcm _]].
  unfold percentages_follow_style. rewrite Hid, Hcm. intros _. cbv zeta.
  unfold run_effects, updateDefaults, autoAdjustHydration.
  rewrite Hauto. cbn.
  destruct prev as [s0|]; cbn.
  - destruct (same_deps_updateDefaults s0 s) eqn:Hs2; cbn.
    + destruct (same_deps_autoAdjustHydration s0 s); cbn;
        apply (Hprev eq_refl Hauto).
    + destruct (same_deps_autoAdjustHydration s0 s); cbn; auto.
  - auto.
Qed.

Lemma run_effects_twice_percentages (prev : option (State N)) (s : State N) :
  match prev with
  | None => True
  | Some s0 =>
      same_deps_updateDefaults s0 s = true -> percentages_follow_style s
  end ->
  percentages_follow_style
    (run_effects nextFriday (Some s) (run_effects nextFriday prev s)).
Proof.
  intros Hprev.
  destruct (run_effects_keeps nextFriday prev s) as [Hid [Hcm _]].
  pose proof (run_effects_percentages prev s) as Hp1.
  rewrite run_effects_again.
  set (p1 := run_effects nextFriday prev s) in *.
  assert (Hp : customMode s = false -> percentages_follow_style p1)
    by (intros Hauto; apply Hp1; assumption).
  destruct (same_deps_autoAdjustHydration s p1).
  - intros Hauto. apply Hp; congruence.
  - unfold percentages_follow_style, autoAdjustHydration.
    destruct (customMode p1) eqn:Hc1; cbn; intros Hauto; [congruence|].
    apply Hp; congruence.
Qed.

Lemma handle_keeps_percentages (e : Event N) (s : State N) :
  customMode s = false ->
  salt (handle e s) = salt s /\ oil (handle e s) = oil s
  /\ sugar (handle e s) = sugar s /\ yeast (handle e s) = yeast s.
Proof. intros Hc. destruct e; cbn; rewrite ?Hc; auto. Qed.

Lemma step_percentages (e : Event N) (s : State N) :
  percentages_follow_style s ->
  percentages_follow_style (step nextFriday e s).
Proof.
  intros Hs. unfold step. rewrite render_loop_2.
  apply run_effects_twice_percentages. intros Hsame Hauto.
  unfold same_deps_updateDefaults in Hsame.
  apply andb_prop in Hsame as [Hid Hcm].
  apply StyleId_eqb_eq in Hid. apply Bool.eqb_prop in Hcm.
  rewrite Hauto in Hcm.
  destruct (handle_keeps_percentages e s Hcm) as (E1 & E2 & E3 & E4).
  cbv zeta. rewrite E1, E2, E3, E4, <- Hid. exact (Hs Hcm).
Qed.

(** A commit keeps the percentages where they follow the style. *)
Lemma commit_keeps_percentages (prev : option (State N)) (s : State N) :
  percentages_follow_style s ->
  percentages_follow_style (run_effects nextFriday prev s).
Proof.
  intros Hs. destruct (customMode s) eqn:Hc.
  - destruct (run_effects_keeps nextFriday prev s) as [_ [Hcm _]].
    intros Hauto. congruence.
  - apply run_effects_percentages; [exact Hc|].
    destruct prev; [intros _; exact Hs | exact I].
Qed.

Lemma render_loop_percentages (commits : nat) (prev : option (State N))
    (s : State N) :
  percentages_follow_style s ->
  percentages_follow_style (render_loop nextFriday commits prev s).
Proof.
  revert prev s. induction commits as [|commits IH]; intros prev s Hs.
  - exact Hs.
  - apply IH, commit_keeps_percentages, Hs.
Qed.

(** The first commit after an event sets the percentages right. *)
Lemma first_commit_percentages (e : Event N) (s : State N) :
  percentages_follow_style s ->
  percentages_follow_style (run_effects nextFriday (Some s) (handle e s)).
Proof.
  intros Hs. destruct (customMode (handle e s)) eqn:Hc.
  - destruct (run_effects_keeps nextFriday (Some s) (handle e s))
      as [_ [Hcm _]].
    intros Hauto. congruence.
  - apply run_effects_percentages; [exact Hc|].
    intros Hsame Hauto.
    unfold same_deps_updateDefaults in Hsame.
    apply andb_prop in Hsame as [Hid Hcm].
    apply StyleId_eqb_eq in Hid. apply Bool.eqb_prop in Hcm.
    rewrite Hauto in Hcm.
    destruct (handle_keeps_percentages e s Hcm) as (E1 & E2 & E3 & E4).
    cbv zeta. rewrite E1, E2, E3, E4, <- Hid. exact (Hs Hcm).
Qed.

Lemma settled_percentages (s : State N) :
  settled nextFriday s -> percentages_follow_style s.
Proof.
  induction 1 as [|e s _ IH].
  - unfold mount. rewrite render_loop_2.
    apply run_effects_twice_percentages. exact I.
  - apply step_percentages, IH.
Qed.

End FormulaEffect.

(** In auto mode the salt, oil, sugar and yeast percentages are the
    defaults of the selected style in every render but the one that
    handles an event: when the component is at rest, in every render
    that follows the mount, and from the first commit after an event
    on.  Whatever was set in custom mode is discarded when the mode is
    switched back, and the sliders are disabled in auto mode.  The
    render that handles the selection of a style still shows the
    percentages from before: selecting Detroit on the mounted component
    renders oil 1.5 once, against the 1.0 of Detroit. *)
Theorem auto_mode_percentages :
  (forall (N : Type) (HN : Number N) (nextFriday : Date),
      (forall s : State N,
          settled nextFriday s -> percentages_follow_style s)
      /\ (forall commits : nat,
             percentages_follow_style
               (render_loop nextFriday commits None (initial (N := N))))
      /\ (forall (e : Event N) (s : State N) (commits : nat),
             settled nextFriday s ->
             percentages_follow_style
               (render_loop nextFriday (1 + commits) (Some s) (handle e s))))
  /\ (let next := handle (SelectStyle detroit) (mount (N := Q) None) in
      reachable None next
      /\ customMode next = false
      /\ selectedStyleId next = detroit
      /\ oil next == 1.5
      /\ Percent.default (DoughStyle.oil (STYLES (N := Q) detroit)) == 1.0).
Proof.
  split.
  - intros N HN nextFriday. split; [|split].
    + apply settled_percentages.
    + intros commits. apply render_loop_percentages.
      intros _. cbv zeta. repeat split.
    + intros e s commits Hs.
      change (render_loop nextFriday (1 + commits) (Some s) (handle e s))
        with (render_loop nextFriday commits (Some (handle e s))
                (run_effects nextFriday (Some s) (handle e s))).
      apply render_loop_percentages, first_commit_percentages.
      apply (settled_percentages nextFriday), Hs.
  - cbv zeta. split.
    + exact (reachable_event (SelectStyle detroit) 0
               (settled_mount (N := Q) None)).
    + repeat split; vm_compute; reflexivity.
Qed.

Lemma auto_mode_percentages_witness :
  let s :=
    step None ToggleCustomMode
      (step None (ChangeSalt 4) (step None ToggleCustomMode
                                   (mount (N := Q) None))) in
  salt s = 2.5 /\ oil s = 1.5 /\ sugar s = 2.0 /\ yeast s = 0.5.
Proof.
  cbv zeta.
  pose proof (proj1 (proj1 auto_mode_percentages Q _ None) _
                (settled_step ToggleCustomMode
                   (settled_step (ChangeSalt 4)
                      (settled_step ToggleCustomMode
                         (settled_mount None))))) as H.
  vm_compute in H. vm_compute. exact (H eq_refl).
Defined.

(** ** PizzaCalculator: the effects come to rest *)

(** The two effects that set state never keep the component rendering:
    after any update, and on mount, the state the second commit leaves
    is the one every later commit leaves, because by then no dependency
    of an effect differs from the render before.  On binary64, where
    React compares the dependencies with [Object.is] (so that NaN hours
    equal themselves), and on the rationals. *)
Theorem effects_settle_in_two_commits (nextFriday : Date) (n : nat) :
  (forall (prev : option (State float)) (s : State float),
      render_loop nextFriday (2 + n) prev s
      = render_loop nextFriday 2 prev s)
  /\ (forall (prev : option (State Q)) (s : State Q),
         render_loop nextFriday (2 + n) prev s
         = render_loop nextFriday 2 prev s).
Proof.
  split; intros prev s; apply render_loop_settles; intros x.
  - apply FloatAxioms.Leibniz.eqb_spec. reflexivity.
  - apply Qeq_bool_iff. reflexivity.
Qed.

Lemma StyleId_eqb_neq (a b : StyleId) : a <> b -> StyleId_eqb a b = false.
Proof. destruct a, b; simpl; congruence. Qed.

(** Selecting another style in auto mode sets the whole formula up
    from the style: its default percentages, its default fermentation
    hours in place of the chosen ones, and the hydration the rule gives
    at these hours; only the size, the count and the date are kept.  In
    custom mode nothing but the style changes. *)
Theorem select_style_in_auto_mode
    (nextFriday : Date) (id : StyleId) (s : State float) :
  id <> selectedStyleId s ->
  (customMode s = false ->
   step nextFriday (SelectStyle id) s = style_setup id s)
  /\ (customMode s = true ->
      step nextFriday (SelectStyle id) s = setSelectedStyleId id s).
Proof.
  intros Hid. split; intros Hc.
  - unfold step. rewrite render_loop_2, run_effects_again.
    cbn [handle].
    assert (Hs2 : same_deps_updateDefaults s (setSelectedStyleId id s)
                  = false).
    { unfold same_deps_updateDefaults. cbn.
      rewrite StyleId_eqb_neq; [reflexivity | congruence]. }
    assert (Hs3 : same_deps_autoAdjustHydration s (setSelectedStyleId id s)
                  = false).
    { unfold same_deps_autoAdjustHydration. cbn.
      rewrite StyleId_eqb_neq; [|congruence].
      rewrite andb_false_r. reflexivity. }
    assert (E1 : run_effects nextFriday (Some s) (setSelectedStyleId id s)
                 = setHydration
                     (calcHydration (STYLES id) (roomTempHours s)
                        (coldFermentHours s))
                     (style_setup id s)).
    { unfold run_effects. rewrite Hs2, Hs3. cbn [negb].
      unfold updateDefaults, autoAdjustHydration.
      change (customMode (setSelectedStyleId id s)) with (customMode s).
      rewrite Hc. cbn [negb].
      destruct s; cbn in Hc; subst. reflexivity. }
    rewrite E1. clear Hs2 Hs3 E1.
    destruct (same_deps_autoAdjustHydration (setSelectedStyleId id s) _)
      eqn:Hsame.
    + unfold same_deps_autoAdjustHydration in Hsame. cbn in Hsame.
      apply andb_prop in Hsame as [Hsame _].
      apply andb_prop in Hsame as [Hsame _].
      apply andb_prop in Hsame as [Hroom Hcold].
      ieee_ops.
      apply FloatAxioms.Leibniz.eqb_spec in Hroom, Hcold.
      rewrite Hroom, Hcold. reflexivity.
    + unfold autoAdjustHydration. cbn. reflexivity.
  - unfold step. rewrite render_loop_2. cbn [handle].
    assert (Hc1 : customMode (setSelectedStyleId id s) = true) by exact Hc.
    rewrite (run_effects_custom nextFriday s _ Hc1).
    apply (run_effects_custom nextFriday _ _ Hc1).
Qed.

Lemma select_style_in_auto_mode_witness :
  step None (SelectStyle detroit) (mount (N := float) None)
  = style_setup detroit (mount None)
  /\ hydration (step None (SelectStyle detroit) (mount (N := float) None))
     = 71%float.
Proof.
  assert (E : step None (SelectStyle detroit) (mount (N := float) None)
              = style_setup detroit (mount None)).
  { apply (select_style_in_auto_mode None detroit (mount None));
      [discriminate | reflexivity]. }
  split; [exact E|]. rewrite E. vm_compute. reflexivity.
Defined.

(** ** PizzaCalculator: the recipe card *)

(** The masses on the card add up to the total dough weight, up to the
    rounding of each: five masses rounded to the gram and the yeast to
    a tenth, at most 2.55 g in all. *)
Theorem ingredients_add_up (M : MathApprox Q) (s : State Q) :
  let total := @totalDoughWeightG Q ExactNumber (ExactMath M) s in
  let shown := @ingredients Q ExactNumber (ExactMath M) s in
  0 < totalPercent s ->
  Qabs (flour_g shown + water_g shown + salt_g shown + oil_g shown
        + sugar_g shown + yeast_g shown - total) <= 2.55.
Proof.
  cbv zeta. intros Hp.
  unfold ingredients, flourG.
  cbn [flour_g water_g salt_g oil_g sugar_g yeast_g].
  set (T := @totalDoughWeightG Q ExactNumber (ExactMath M) s).
  unfold totalPercent in *. exact_ops.
  set (P := 100 + hydration s + salt s + oil s + sugar s + yeast s) in *.
  set (F := T / (P / 100)).
  assert (EF : F * (P / 100) == T).
  { subst F. field. lra. }
  destruct (Exact_round_nearest F) as [_ [L1 U1]].
  destruct (Exact_round_nearest (F * (hydration s / 100))) as [_ [L2 U2]].
  destruct (Exact_round_nearest (F * (salt s / 100))) as [_ [L3 U3]].
  destruct (Exact_round_nearest (F * (oil s / 100))) as [_ [L4 U4]].
  destruct (Exact_round_nearest (F * (sugar s / 100))) as [_ [L5 U5]].
  destruct (Exact_round_nearest (F * (yeast s / 100) * 10)) as [_ [L6 U6]].
  subst P. apply Qabs_Qle_condition. split; Qlra.
Qed.

Lemma ingredients_add_up_witness :
  let total := @totalDoughWeightG Q ExactNumber ExactSample (mount None) in
  let shown := @ingredients Q ExactNumber ExactSample (mount None) in
  Qabs (flour_g shown + water_g shown + salt_g shown + oil_g shown
        + sugar_g shown + yeast_g shown - total) <= 2.55.
Proof.
  cbv zeta. apply (ingredients_add_up (SampleMath trim30) (mount None)).
  reflexivity.
Defined.

(** ** PizzaCalculator: the range of the auto hydration *)

Lemma Exact_round_mono (x y : Q) : x <= y -> Exact.round x <= Exact.round y.
Proof.
  intros Hxy. unfold Exact.round. rewrite <- Zle_Qle.
  apply Qfloor_resp_le. lra.
Qed.

Lemma calcHydration_bounds (id : StyleId) (room cold : Q) :
  Hydration.min (DoughStyle.hydration (STYLES id))
  <= calcHydration (STYLES id) room cold
  <= Hydration.max (DoughStyle.hydration (STYLES id)).
Proof.
  pose proof (STYLES_range id) as Hrange.
  unfold calcHydration. exact_ops.
  set (h := DoughStyle.hydration (STYLES id)) in *.
  set (raw := _ + _ * 0.25).
  set (y := Exact.min (Hydration.max h) (Exact.max (Hydration.min h) raw)).
  assert (Hy : Hydration.min h <= y <= Hydration.max h).
  { subst y. Exact_minmax; lra. }
  pose proof (Exact_round_mono (Hydration.min h * 10) (y * 10)) as Hlo.
  pose proof (Exact_round_mono (y * 10) (Hydration.max h * 10)) as Hhi.
  assert (Emin : Exact.round (Hydration.min h * 10) == Hydration.min h * 10)
    by (subst h; destruct id; vm_compute; reflexivity).
  assert (Emax : Exact.round (Hydration.max h * 10) == Hydration.max h * 10)
    by (subst h; destruct id; vm_compute; reflexivity).
  split; Qlra.
Qed.

Lemma settled_hydration_in_range (nextFriday : Date) (s : State Q) :
  settled nextFriday s -> hydration_in_style_range s.
Proof.
  intros Hs Hauto. cbv zeta.
  rewrite (settled_hydration_Exact nextFriday s Hs Hauto).
  apply calcHydration_bounds.
Qed.

(** The hydration effect depends on the style and the mode, as the
    defaults effect does, and on more. *)
Lemma same_deps_weaken (a b : State Q) :
  same_deps_autoAdjustHydration a b = true ->
  same_deps_updateDefaults a b = true.
Proof.
  unfold same_deps_autoAdjustHydration, same_deps_updateDefaults.
  intros H. apply andb_prop in H as [H Hc].
  apply andb_prop in H as [_ Hi]. rewrite Hi, Hc. reflexivity.
Qed.

(** A commit leaves the hydration in the range, when it was there in
    case the effect does not run. *)
Lemma commit_hydration_in_range (nextFriday : Date)
    (prev : option (State Q)) (s : State Q) :
  match prev with
  | None => True
  | Some s0 =>
      same_deps_autoAdjustHydration s0 s = true -> hydration_in_style_range s
  end ->
  hydration_in_style_range (run_effects nextFriday prev s).
Proof.
  intros Hprev.
  destruct (run_effects_keeps nextFriday prev s) as [Hid [Hcm _]].
  unfold hydration_in_style_range. rewrite Hid, Hcm. intros Hauto.
  cbv zeta.
  pose proof (calcHydration_bounds (selectedStyleId s) (roomTempHours s)
                (coldFermentHours s)) as Hcalc.
  unfold run_effects, updateDefaults, autoAdjustHydration.
  rewrite Hauto. cbn [negb].
  destruct prev as [s0|].
  - destruct (same_deps_autoAdjustHydration s0 s) eqn:Hs3.
    + rewrite (same_deps_weaken s0 s Hs3). cbn [negb].
      exact (Hprev eq_refl Hauto).
    + destruct (same_deps_updateDefaults s0 s);
        cbn [negb hydration setHydration]; exact Hcalc.
  - cbn [negb hydration setHydration]. exact Hcalc.
Qed.

Lemma render_loop_hydration_in_range (nextFriday : Date) (commits : nat)
    (prev : option (State Q)) (s : State Q) :
  hydration_in_style_range s ->
  hydration_in_style_range (render_loop nextFriday commits prev s).
Proof.
  revert prev s. induction commits as [|commits IH]; intros prev s Hs.
  - exact Hs.
  - apply IH, commit_hydration_in_range.
    destruct prev; [intros _; exact Hs | exact I].
Qed.

(** In auto mode the hydration lies in the range of the selected style
    in every render but the one that handles an event: when the
    component is at rest, in every render that follows the mount, and
    from the first commit after an event on.  The rule clamps before it
    rounds, and the bounds of the five styles are whole percents.  The
    render that handles the selection of a style still shows the
    hydration from before: selecting Detroit on the mounted component
    renders 63.3 once, below the 65 of Detroit. *)
Theorem auto_hydration_within_style_range :
  (forall nextFriday : Date,
      (forall s : State Q,
          settled nextFriday s -> hydration_in_style_range s)
      /\ (forall commits : nat,
             hydration_in_style_range
               (render_loop nextFriday commits None initial))
      /\ (forall (e : Event Q) (s : State Q) (commits : nat),
             settled nextFriday s ->
             hydration_in_style_range
               (render_loop nextFriday (1 + commits) (Some s) (handle e s))))
  /\ (let next := handle (SelectStyle detroit) (mount (N := Q) None) in
      reachable None next
      /\ customMode next = false
      /\ selectedStyleId next = detroit
      /\ hydration next == 63.3
      /\ Hydration.min (DoughStyle.hydration (STYLES (N := Q) detroit)) == 65).
Proof.
  split.
  - intros nextFriday. split; [|split].
    + apply settled_hydration_in_range.
    + intros commits. apply render_loop_hydration_in_range.
      intros _. cbv zeta. split; discriminate.
    + intros e s commits Hs.
      change (render_loop nextFriday (1 + commits) (Some s) (handle e s))
        with (render_loop nextFriday commits (Some (handle e s))
                (run_effects nextFriday (Some s) (handle e s))).
      apply render_loop_hydration_in_range, commit_hydration_in_range.
      intros Hsame Hauto. cbv zeta.
      unfold same_deps_autoAdjustHydration in Hsame.
      apply andb_prop in Hsame as [Hsame Hcm].
      apply andb_prop in Hsame as [_ Hid].
      apply StyleId_eqb_eq in Hid. apply Bool.eqb_prop in Hcm.
      rewrite Hauto in Hcm.
      rewrite (handle_keeps_hydration e s Hcm), <- Hid.
      exact (settled_hydration_in_range nextFriday s Hs Hcm).
  - cbv zeta. split.
    + exact (reachable_event (SelectStyle detroit) 0
               (settled_mount (N := Q) None)).
    + repeat split; vm_compute; reflexivity.
Qed.

Lemma auto_hydration_within_style_range_witness :
  58 <= hydration (mount (N := Q) None) <= 65.
Proof.
  exact (proj1 (proj1 auto_hydration_within_style_range None) (mount None)
           (settled_mount None) eq_refl).
Defined.

(** ** PizzaCalculator: scaling the batch *)

(** The dough scales with the area and with the count: a diameter [k]
    times as large takes [k * k] times the dough, a count [k] times as
    large takes [k] times as much; and so does the flour, where the
    percentages do not add up to 0 (the flour is the dough over their
    sum). *)
Theorem dough_scales (M : MathApprox Q) (k : Q) (s : State Q) :
  let total := @totalDoughWeightG Q ExactNumber (ExactMath M) in
  let flour := @flourG Q ExactNumber (ExactMath M) in
  (total (setDiameter (k * diameter s) s) == k * k * total s
   /\ total (setCount (k * count s) s) == k * total s)
  /\ (~ totalPercent s == 0 ->
      flour (setDiameter (k * diameter s) s) == k * k * flour s
      /\ flour (setCount (k * count s) s) == k * flour s).
Proof.
  cbv zeta.
  unfold flourG, totalPercent, totalDoughWeightG,
    singleDoughWeightG, singleDoughWeightOz, area, radius, style.
  cbn [setDiameter setCount diameter count selectedStyleId hydration salt oil
       sugar yeast].
  exact_ops. rewrite !Exact_pow_2.
  split; [split; unfold Qdiv; ring|].
  intros Hp. split; field; exact Hp.
Qed.

Lemma dough_scales_witness :
  let s := mount (N := Q) None in
  @flourG Q ExactNumber ExactSample (setDiameter (2 * diameter s) s)
  == 2 * 2 * @flourG Q ExactNumber ExactSample s.
Proof.
  cbv zeta.
  assert (Hp : ~ totalPercent (mount (N := Q) None) == 0)
    by (vm_compute; discriminate).
  exact (proj1 (proj2 (dough_scales (SampleMath trim30) 2 (mount None)) Hp)).
Defined.

(** ** UTMGenerator: the history *)

Lemma pushHistory_length (newItem : UTMGenerator.HistoryItem)
    (prev : list UTMGenerator.HistoryItem) :
  (List.length (UTMGenerator.pushHistory newItem prev)
   <= Nat.max 50 (List.length prev))%nat.
Proof.
  assert (Hcut : (List.length (firstn 50 (newItem :: prev)) <= 50)%nat)
    by apply firstn_le_length.
  unfold UTMGenerator.pushHistory. destruct prev as [|top prev].
  - lia.
  - destruct (String.eqb _ _); lia.
Qed.

(** The history keeps the last 50 links: it never grows beyond 50
    entries, nor beyond what was loaded if that was more. *)
Theorem history_keeps_50
    (URL_href : string -> list (string * string) -> option string)
    (saved : list UTMGenerator.HistoryItem) (s : UTMGenerator.State) :
  UTMGenerator.reachable URL_href saved s ->
  (List.length (UTMGenerator.history s)
   <= Nat.max 50 (List.length saved))%nat.
Proof.
  induction 1 as [|e s _ IH _].
  - cbn [UTMGenerator.mount UTMGenerator.history]. lia.
  - destruct e;
      cbn [UTMGenerator.handle UTMGenerator.setParams
           UTMGenerator.handleReset UTMGenerator.handleHistoryRestore
           UTMGenerator.history];
      try exact IH.
    + unfold UTMGenerator.handleCopy.
      destruct (String.eqb _ _); [exact IH|].
      cbn [UTMGenerator.history].
      pose proof (pushHistory_length
                    (UTMGenerator.mkItem (UTMGenerator.params s)
                       (Date_now_toString now_id) now_timestamp
                       (UTMGenerator.generatedUrl s))
                    (UTMGenerator.history s)).
      lia.
    + unfold UTMGenerator.clearHistory.
      destruct confirmed; cbn [UTMGenerator.history List.length]; lia.
Qed.

(** Copying the same URL again adds nothing: after a copy the first
    entry carries the URL shown, and a second copy, whatever the clock
    says, leaves the history as it is. *)
Theorem copy_twice_adds_once
    (now1 now2 now3 now4 : Z) (s : UTMGenerator.State) :
  UTMGenerator.generatedUrl s <> EmptyString ->
  let s1 := UTMGenerator.handleCopy now1 now2 s in
  option_map UTMGenerator.fullUrl (hd_error (UTMGenerator.history s1))
  = Some (UTMGenerator.generatedUrl s)
  /\ UTMGenerator.history (UTMGenerator.handleCopy now3 now4 s1)
     = UTMGenerator.history s1.
Proof.
  intros Hurl. cbv zeta.
  apply String.eqb_neq in Hurl.
  assert (Hhd : option_map UTMGenerator.fullUrl
                  (hd_error
                     (UTMGenerator.history
                        (UTMGenerator.handleCopy now1 now2 s)))
                = Some (UTMGenerator.generatedUrl s)).
  { unfold UTMGenerator.handleCopy. rewrite Hurl.
    cbn [UTMGenerator.history]. unfold UTMGenerator.pushHistory.
    destruct (UTMGenerator.history s) as [|top prev]; [reflexivity|].
    cbn [UTMGenerator.fullUrl].
    destruct (String.eqb (UTMGenerator.fullUrl top) _) eqn:E.
    - apply String.eqb_eq in E. simpl. rewrite E. reflexivity.
    - reflexivity. }
  split; [exact Hhd|].
  unfold UTMGenerator.handleCopy at 1.
  assert (Eurl : UTMGenerator.generatedUrl
                   (UTMGenerator.handleCopy now1 now2 s)
                 = UTMGenerator.generatedUrl s).
  { unfold UTMGenerator.handleCopy. rewrite Hurl. reflexivity. }
  rewrite Eurl, Hurl. cbn [UTMGenerator.history].
  unfold UTMGenerator.pushHistory at 1.
  destruct (UTMGenerator.history (UTMGenerator.handleCopy now1 now2 s))
    as [|top prev]; [discriminate|].
  simpl in Hhd. injection Hhd as Hhd.
  cbn [UTMGenerator.fullUrl]. rewrite Hhd, String.eqb_refl. reflexivity.
Qed.

Section UTMHistory.

Variable URL_href : string -> list (string * string) -> option string.
Variable saved : list UTMGenerator.HistoryItem.
Hypothesis saved_consistent :
  Forall (UTMGenerator.consistent URL_href) saved.

Lemma firstn_Forall {A : Type} (P : A -> Prop) (n : nat) (l : list A) :
  Forall P l -> Forall P (firstn n l).
Proof.
  intros H. revert n. induction H as [|x l Hx _ IH]; intros [|n]; simpl;
    constructor; auto.
Qed.

Lemma reachable_consistent (s : UTMGenerator.State) :
  UTMGenerator.reachable URL_href saved s ->
  UTMGenerator.generatedUrl s
  = UTMGenerator.generate URL_href (UTMGenerator.params s)
  /\ Forall (UTMGenerator.consistent URL_href) (UTMGenerator.history s).
Proof.
  induction 1 as [|e s _ [IHurl IHhist] _].
  - split; [reflexivity | exact saved_consistent].
  - destruct e; simpl; try (split; [reflexivity | exact IHhist]);
      try (split; [exact IHurl | exact IHhist]).
    + unfold UTMGenerator.handleCopy.
      destruct (String.eqb _ _); [split; assumption|].
      cbn [UTMGenerator.generatedUrl UTMGenerator.params
           UTMGenerator.history].
      split; [exact IHurl|].
      unfold UTMGenerator.pushHistory.
      assert (Hnew : Forall (UTMGenerator.consistent URL_href)
                       (UTMGenerator.mkItem (UTMGenerator.params s)
                          (Date_now_toString now_id) now_timestamp
                          (UTMGenerator.generatedUrl s)
                        :: UTMGenerator.history s)).
      { constructor; [exact IHurl | exact IHhist]. }
      destruct (UTMGenerator.history s) as [|top prev].
      * apply firstn_Forall, Hnew.
      * destruct (String.eqb _ _); [exact IHhist|].
        apply firstn_Forall, Hnew.
    + unfold UTMGenerator.clearHistory.
      destruct confirmed; simpl; split; auto.
Qed.

End UTMHistory.

(** Editing a link of the history brings its URL back: when the links
    loaded from storage carry the URL of their own parameters, so does
    every link of the history, and restoring one regenerates exactly
    the URL it was saved with. *)
Theorem restore_regenerates_the_link
    (URL_href : string -> list (string * string) -> option string)
    (saved : list UTMGenerator.HistoryItem) (s : UTMGenerator.State)
    (item : UTMGenerator.HistoryItem) :
  Forall (UTMGenerator.consistent URL_href) saved ->
  UTMGenerator.reachable URL_href saved s ->
  In item (UTMGenerator.history s) ->
  UTMGenerator.generatedUrl
    (UTMGenerator.handle URL_href (UTMGenerator.Restore item) s)
  = UTMGenerator.fullUrl item.
Proof.
  intros Hsaved Hs Hitem.
  destruct (reachable_consistent URL_href saved Hsaved s Hs) as [_ Hhist].
  pose proof (proj1 (Forall_forall _ _) Hhist item Hitem) as Hc.
  unfold UTMGenerator.consistent in Hc. rewrite Hc.
  destruct item as [[u so me na te co] i t f]. reflexivity.
Qed.

Lemma sample_history_reachable :
  UTMGenerator.reachable sample_href [] sample_history.
Proof.
  unfold sample_history.
  repeat (apply UTMGenerator.reachable_handle; [|discriminate]).
  apply UTMGenerator.reachable_mount.
Qed.

Lemma history_keeps_50_witness :
  (List.length (UTMGenerator.history sample_history)
   <= Nat.max 50 (List.length (@nil UTMGenerator.HistoryItem)))%nat.
Proof.
  exact (history_keeps_50 sample_href [] sample_history
           sample_history_reachable).
Defined.

Lemma copy_twice_adds_once_witness :
  UTMGenerator.history
    (UTMGenerator.handleCopy 3 4 (UTMGenerator.handleCopy 1 2 sample_history))
  = UTMGenerator.history (UTMGenerator.handleCopy 1 2 sample_history).
Proof.
  assert (H : UTMGenerator.generatedUrl sample_history <> EmptyString)
    by (vm_compute; discriminate).
  exact (proj2 (copy_twice_adds_once 1 2 3 4 sample_history H)).
Defined.

Lemma restore_regenerates_the_link_witness :
  UTMGenerator.generatedUrl
    (UTMGenerator.handle sample_href (UTMGenerator.Restore sample_item)
       sample_history)
  = UTMGenerator.fullUrl sample_item.
Proof.
  apply (restore_regenerates_the_link sample_href [] sample_history
           sample_item).
  - constructor.
  - exact sample_history_reachable.
  - left. reflexivity.
Defined.

(** ** TapList: the tap editor *)

Lemma merge_spread {N : Type} (tap : Tap.t N) :
  TapList.merge tap (TapList.spread tap) = tap.
Proof.
  destruct tap as [i n st a ib sr d bd kd bn im ac].
  unfold TapList.merge, TapList.spread. cbn.
  destruct bd, kd, bn, im; reflexivity.
Qed.

(** Saving a tap as it was opened changes no tap and closes the editor,
    where the id of the tap is that of no other, different tap.  But a
    tap whose id is 0 (or NaN) cannot be saved at all: the editor opens
    for it and [handleSaveTap] returns at once, whatever the form
    holds. *)
Theorem save_without_edit
    (N : Type) (HN : Number N) (tap : Tap.t N) (s : TapList.State N) :
  let opened := TapList.handleEditClick tap s in
  (ToBoolean (Tap.id tap) = true ->
   (forall t, In t (TapList.taps s) ->
              strict_equal (Tap.id t) (Tap.id tap) = true -> t = tap) ->
   TapList.taps (TapList.handleSaveTap opened) = TapList.taps s
   /\ TapList.editingTapId (TapList.handleSaveTap opened) = None)
  /\ (ToBoolean (Tap.id tap) = false ->
      forall form,
        let edited :=
          TapList.mkState (TapList.taps opened) (TapList.batches opened)
            (TapList.editingTapId opened) form in
        TapList.handleSaveTap edited = edited).
Proof.
  cbv zeta. split.
  - intros Hid Hunique. unfold TapList.handleSaveTap, TapList.handleEditClick.
    cbn [TapList.editingTapId TapList.taps TapList.editForm
         TapList.batches].
    rewrite Hid. cbn [negb TapList.taps TapList.editingTapId].
    split; [|reflexivity].
    induction (TapList.taps s) as [|t l IH]; [reflexivity|].
    cbn [map]. rewrite IH.
    + destruct (strict_equal (Tap.id t) (Tap.id tap)) eqn:E;
        [|reflexivity].
      rewrite (Hunique t (or_introl eq_refl) E), merge_spread. reflexivity.
    + intros t' Ht'. apply Hunique. right. exact Ht'.
  - intros Hid form. unfold TapList.handleSaveTap, TapList.handleEditClick.
    cbn [TapList.editingTapId]. rewrite Hid. reflexivity.
Qed.

Lemma save_without_edit_witness :
  TapList.taps
    (TapList.handleSaveTap (TapList.handleEditClick sample_tap sample_taps))
  = TapList.taps sample_taps
  /\ TapList.editingTapId
       (TapList.handleSaveTap (TapList.handleEditClick sample_tap sample_taps))
     = None.
Proof.
  apply (proj1 (save_without_edit Q _ sample_tap sample_taps)).
  - reflexivity.
  - intros t Ht E. simpl in Ht.
    destruct Ht as [<-|[<-|[<-|[<-|[]]]]];
      try reflexivity; vm_compute in E; discriminate.
Defined.

Lemma date_property_throws {N : Type} `{Number N}
    (ISO_date : Z -> string) (value : option N) :
  (exists error, TapList.date_property ISO_date value = Throws error)
  <-> invalid_date value.
Proof.
  unfold TapList.date_property, TapList.toDateString, invalid_date.
  destruct value as [ts|].
  - destruct (ToBoolean ts) eqn:Eb.
    + destruct (TimeClip ts) as [t|] eqn:Et.
      * split; [intros [e He]; discriminate|].
        intros (ts' & E & _ & Hc). injection E as <-. congruence.
      * split; [|intros _; eexists; reflexivity].
        intros _. exists ts. auto.
    + split; [intros [e He]; discriminate|].
      intros (ts' & E & Hb & _). injection E as <-. congruence.
  - split; [intros [e He]; discriminate|].
    intros (ts' & E & _). discriminate.
Qed.

(** The form update of [assignBatch] throws for a batch with a date
    that is no date: once the batch is found, the updater throws (a
    RangeError, from [toISOString]) exactly when the brew date or the
    bottling date is a Number other than 0 and NaN outside the range of
    a Date; an unknown batch id leaves the state as it is. *)
Theorem assignBatch_invalid_date
    (N : Type) (HN : Number N)
    (Number_toString : N -> string) (ISO_date : Z -> string)
    (batchId : string) (s : TapList.State N) :
  match TapList.find_batch batchId (TapList.batches s) with
  | None =>
      TapList.assignBatch Number_toString ISO_date batchId s = Returns s
  | Some batch =>
      (exists error,
          TapList.assignBatch Number_toString ISO_date batchId s
          = Throws error)
      <-> invalid_date (Some (BrewfatherBatch.brewDate batch))
          \/ invalid_date (BrewfatherBatch.bottlingDate batch)
  end.
Proof.
  unfold TapList.assignBatch.
  destruct (TapList.find_batch batchId (TapList.batches s)) as [batch|];
    [|reflexivity].
  cbv zeta.
  pose proof (date_property_throws ISO_date
                (Some (BrewfatherBatch.brewDate batch))) as Hbrew.
  pose proof (date_property_throws ISO_date
                (BrewfatherBatch.bottlingDate batch)) as Hkeg.
  destruct (TapList.date_property ISO_date
              (Some (BrewfatherBatch.brewDate batch))) as [brewDate|e1].
  - destruct (TapList.date_property ISO_date
                (BrewfatherBatch.bottlingDate batch)) as [kegDate|e2].
    + split; [intros [e He]; discriminate|].
      intros [Hb|Hk].
      * apply Hbrew in Hb. destruct Hb as [e He]. discriminate.
      * apply Hkeg in Hk. destruct Hk as [e He]. discriminate.
    + split; [|intros _; eexists; reflexivity].
      intros _. right. apply Hkeg. eexists; reflexivity.
  - split; [|intros _; eexists; reflexivity].
    intros _. left. apply Hbrew. eexists; reflexivity.
Qed.

Lemma assignBatch_invalid_date_witness :
  let s :=
    TapList.mkState (@default_taps float _) [sample_batch] (Some 1%float)
      (TapList.spread (Tap.mk 1%float "Empty Tap" "Ready for Beer" 0%float
                         0%float 3%float "Nothing pouring right now."
                         absent absent absent absent false)) in
  exists error,
    TapList.assignBatch (fun _ => "12"%string) (fun _ => "1970-01-01"%string)
      "b1" s
    = Throws error.
Proof.
  cbv zeta.
  apply (assignBatch_invalid_date float _ (fun _ => "12"%string)
           (fun _ => "1970-01-01"%string) "b1"
           (TapList.mkState default_taps [sample_batch] (Some 1%float) _)).
  left. exists 1e16%float. repeat split.
Defined.

(** ** TapList: the settings across reloads *)

Section LegacySettings.

Variable JSON_stringify : AppSettings.t -> string.
Variable JSON_parse_settings : string -> Outcome AppSettings.t.
Variable JSON_parse_brewfather : string -> Outcome AppSettings.Brewfather.

Variable w0 : TapListSettings.World.
Variable old : string.
Hypothesis legacy :
  LocalStorage.getItem "bf_settings" (TapListSettings.items w0) = Some old.

(** Nothing writes to the legacy item. *)
Lemma follows_keeps_legacy (w : TapListSettings.World) :
  TapListSettings.follows JSON_stringify JSON_parse_settings
    JSON_parse_brewfather w0 w ->
  LocalStorage.getItem "bf_settings" (TapListSettings.items w) = Some old.
Proof.
  induction 1 as [|e w w' _ IH Hw'].
  - exact legacy.
  - destruct e; cbn in Hw'.
    + unfold TapListSettings.mount in Hw'.
      destruct (TapListSettings.initialSettings _ _ _) as [value|error];
        [|discriminate].
      injection Hw' as <-. exact IH.
    + injection Hw' as <-. exact IH.
    + injection Hw' as <-. exact IH.
Qed.

End LegacySettings.

(** As long as the legacy item [bf_settings] is in [localStorage], no
    change of the settings outlives the page: nothing removes the item,
    and every mount takes the Brewfather account from it and the
    storage settings from [DEFAULT_SETTINGS], whatever was saved under
    [taplist_settings]. *)
Theorem legacy_item_overrides_saved_settings
    (JSON_stringify : AppSettings.t -> string)
    (JSON_parse_settings : string -> Outcome AppSettings.t)
    (JSON_parse_brewfather : string -> Outcome AppSettings.Brewfather)
    (w0 w : TapListSettings.World) (old : string)
    (account : AppSettings.Brewfather) :
  LocalStorage.getItem "bf_settings" (TapListSettings.items w0) = Some old ->
  old <> EmptyString ->
  JSON_parse_brewfather old = Returns account ->
  TapListSettings.follows JSON_stringify JSON_parse_settings
    JSON_parse_brewfather w0 w ->
  exists w',
    TapListSettings.mount JSON_stringify JSON_parse_settings
      JSON_parse_brewfather w
    = Returns w'
    /\ TapListSettings.settings w'
       = Some {| AppSettings.brewfather := account;
                 AppSettings.storage :=
                   AppSettings.storage DEFAULT_SETTINGS |}.
Proof.
  intros Hlegacy Hold Hparse Hw.
  pose proof (follows_keeps_legacy JSON_stringify JSON_parse_settings
                JSON_parse_brewfather w0 old Hlegacy w Hw) as Hitem.
  unfold TapListSettings.mount, TapListSettings.initialSettings.
  cbv zeta. rewrite Hitem. cbn [TapListSettings.truthy].
  apply String.eqb_neq in Hold. rewrite Hold, Hparse.
  eexists. split; reflexivity.
Qed.

(** Without the legacy item the settings are kept across reloads: what
    [setSettings] stored is what the next mount starts from, provided
    [JSON.parse] reads back what [JSON.stringify] wrote for it (a text
    that is not empty). *)
Theorem settings_survive_reload
    (JSON_stringify : AppSettings.t -> string)
    (JSON_parse_settings : string -> Outcome AppSettings.t)
    (JSON_parse_brewfather : string -> Outcome AppSettings.Brewfather)
    (w : TapListSettings.World) (value : AppSettings.t) :
  TapListSettings.truthy
    (LocalStorage.getItem "bf_settings" (TapListSettings.items w)) = None ->
  JSON_stringify value <> EmptyString ->
  JSON_parse_settings (JSON_stringify value) = Returns value ->
  let saved := TapListSettings.setSettings JSON_stringify value w in
  exists w',
    TapListSettings.mount JSON_stringify JSON_parse_settings
      JSON_parse_brewfather (TapListSettings.unmount saved)
    = Returns w'
    /\ TapListSettings.settings w' = Some value.
Proof.
  intros Hlegacy Htext Hparse. cbv zeta.
  unfold TapListSettings.mount, TapListSettings.initialSettings.
  cbv zeta.
  cbn [TapListSettings.unmount TapListSettings.setSettings
       TapListSettings.items TapListSettings.saveSettings].
  unfold TapListSettings.saveSettings, LocalStorage.getItem,
    LocalStorage.setItem in *.
  change (String.eqb "bf_settings" "taplist_settings") with false.
  change (String.eqb "taplist_settings" "taplist_settings") with true.
  cbv iota. rewrite Hlegacy. cbn [TapListSettings.truthy].
  apply String.eqb_neq in Htext. rewrite Htext, Hparse.
  eexists. split; reflexivity.
Qed.

Lemma legacy_item_overrides_saved_settings_witness :
  let w0 := TapListSettings.mkWorld sample_items None in
  exists w1 w',
    TapListSettings.mount sample_stringify sample_parse_settings
      sample_parse_brewfather w0 = Returns w1
    /\ TapListSettings.mount sample_stringify sample_parse_settings
         sample_parse_brewfather
         (TapListSettings.unmount
            (TapListSettings.setSettings sample_stringify sample_settings w1))
       = Returns w'
    /\ TapListSettings.settings w'
       = Some {| AppSettings.brewfather :=
                   AppSettings.mkBrewfather "old user" "old key";
                 AppSettings.storage :=
                   AppSettings.storage DEFAULT_SETTINGS |}.
Proof.
  cbv zeta. eexists.
  assert (F : TapListSettings.follows sample_stringify sample_parse_settings
                sample_parse_brewfather
                (TapListSettings.mkWorld sample_items None)
                (TapListSettings.unmount
                   (TapListSettings.setSettings sample_stringify
                      sample_settings
                      (TapListSettings.mkWorld
                         (TapListSettings.saveSettings sample_stringify
                            {| AppSettings.brewfather :=
                                 AppSettings.mkBrewfather "old user" "old key";
                               AppSettings.storage :=
                                 AppSettings.storage DEFAULT_SETTINGS |}
                            sample_items)
                         (Some
                            {| AppSettings.brewfather :=
                                 AppSettings.mkBrewfather "old user" "old key";
                               AppSettings.storage :=
                                 AppSettings.storage DEFAULT_SETTINGS |}))))).
  { eapply TapListSettings.follows_handle
      with (e := TapListSettings.Unmount); [|reflexivity].
    eapply TapListSettings.follows_handle
      with (e := TapListSettings.SetSettings sample_settings);
      [|reflexivity].
    eapply TapListSettings.follows_handle
      with (e := TapListSettings.Mount);
      [apply TapListSettings.follows_refl | reflexivity]. }
  destruct (legacy_item_overrides_saved_settings sample_stringify
              sample_parse_settings sample_parse_brewfather
              (TapListSettings.mkWorld sample_items None) _ "{}"
              (AppSettings.mkBrewfather "old user" "old key")
              eq_refl ltac:(discriminate) eq_refl F) as (w' & Hmount & Hset).
  exists w'. split; [reflexivity|]. split; assumption.
Defined.

Lemma settings_survive_reload_witness :
  let w := TapListSettings.mkWorld (fun _ => None) (Some DEFAULT_SETTINGS) in
  exists w',
    TapListSettings.mount sample_stringify sample_parse_settings
      sample_parse_brewfather
      (TapListSettings.unmount
         (TapListSettings.setSettings sample_stringify sample_settings w))
    = Returns w'
    /\ TapListSettings.settings w' = Some sample_settings.
Proof.
  cbv zeta.
  apply (settings_survive_reload sample_stringify sample_parse_settings
           sample_parse_brewfather
           (TapListSettings.mkWorld (fun _ => None) (Some DEFAULT_SETTINGS))
           sample_settings).
  - reflexivity.
  - discriminate.
  - reflexivity.
Defined.

(** ** The router *)

Lemma find_app_last {A : Type} (f : A -> bool) (l : list A) (x : A) :
  find f (l ++ [x])
  = match find f l with
    | Some y => Some y
    | None => if f x then Some x else None
    end.
Proof.
  induction l as [|y l IH]; simpl; [reflexivity|].
  destruct (f y); [reflexivity | exact IH].
Qed.

Lemma scan_exact {A : Type} (path : string) (routes : list (string * A))
    (fallback : option A) (p : string) (child : A) :
  find (fun route => String.eqb (fst route) path) routes = Some (p, child) ->
  Router.scan path routes fallback = Some child.
Proof.
  revert fallback. induction routes as [|[r c] routes IH]; intros fallback;
    simpl; [discriminate|].
  destruct (String.eqb r path).
  - intros E. injection E as _ <-. reflexivity.
  - intros E. apply IH. exact E.
Qed.

Lemma scan_wildcard {A : Type} (path : string) (routes : list (string * A))
    (fallback : option A) :
  find (fun route => String.eqb (fst route) path) routes = None ->
  Router.scan path routes fallback
  = match find (fun route => String.eqb (fst route) "*") (rev routes) with
    | Some (_, child) => Some child
    | None => fallback
    end.
Proof.
  revert fallback. induction routes as [|[r c] routes IH]; intros fallback;
    simpl; [reflexivity|].
  destruct (String.eqb r path); [discriminate|].
  intros E. rewrite (IH _ E), find_app_last.
  destruct (find _ (rev routes)) as [[r' c']|]; [reflexivity|].
  cbn [fst]. destruct (String.eqb r "*"); reflexivity.
Qed.

(** A wildcard route shadows no route: [Routes] renders the first route
    whose path is the current path, wherever the wildcards stand, and
    only when there is none the last of the wildcard routes, or nothing
    at all. *)
Theorem exact_route_beats_wildcard
    (A : Type) (path : string) (routes : list (string * A)) :
  match find (fun route => String.eqb (fst route) path) routes with
  | Some (_, child) => Router.Routes path routes = Some child
  | None =>
      Router.Routes path routes
      = option_map snd
          (find (fun route => String.eqb (fst route) "*") (rev routes))
  end.
Proof.
  unfold Router.Routes.
  destruct (find (fun route => String.eqb (fst route) path) routes)
    as [[p child]|] eqn:E.
  - apply (scan_exact path routes None p child E).
  - rewrite (scan_wildcard path routes None E).
    destruct (find _ (rev routes)) as [[r c]|]; reflexivity.
Qed.

Import Ascii.

Section Strings.

Local Open Scope string_scope.

Variable c : ascii.

Lemma includes_app (a b : string) :
  Router.includes c (a ++ b) = Router.includes c a || Router.includes c b.
Proof.
  induction a as [|x a IH]; simpl; [reflexivity|].
  rewrite IH, orb_assoc. reflexivity.
Qed.

Lemma before_stops (a b : string) :
  Router.includes c a = false -> Router.before c (a ++ String c b) = a.
Proof.
  induction a as [|x a IH]; simpl.
  - rewrite Ascii.eqb_refl. reflexivity.
  - intros H. apply orb_false_elim in H as [Hx Ha].
    rewrite Hx, (IH Ha). reflexivity.
Qed.

Lemma includes_before (s : string) :
  Router.includes c (Router.before c s) = false.
Proof.
  induction s as [|x s IH]; simpl; [reflexivity|].
  destruct (Ascii.eqb x c) eqn:E; simpl; [reflexivity|].
  rewrite E. exact IH.
Qed.

Lemma includes_slice (s : string) :
  Router.includes c s = false ->
  Router.includes c (Router.slice_0_minus_1 s) = false.
Proof.
  induction s as [|x s IH]; simpl; [reflexivity|].
  intros H. apply orb_false_elim in H as [Hx Hs].
  destruct s as [|y s]; [reflexivity|].
  cbn [Router.includes]. rewrite Hx. exact (IH Hs).
Qed.

Lemma endsWith_app (a : string) :
  Router.endsWith c (a ++ String c EmptyString) = true.
Proof.
  induction a as [|x a IH]; simpl.
  - apply Ascii.eqb_refl.
  - destruct (a ++ String c EmptyString) eqn:E; [|exact IH].
    destruct a; discriminate.
Qed.

Lemma slice_app (a : string) :
  Router.slice_0_minus_1 (a ++ String c EmptyString) = a.
Proof.
  induction a as [|x a IH]; simpl; [reflexivity|].
  destruct (a ++ String c EmptyString) eqn:E.
  - destruct a; discriminate.
  - rewrite IH. reflexivity.
Qed.

End Strings.

Lemma length_app_one (a : string) (c : Ascii.ascii) :
  String.length (a ++ String c EmptyString) = S (String.length a).
Proof.
  induction a as [|x a IH]; simpl; [reflexivity|].
  rewrite IH. reflexivity.
Qed.

(** A query string does not count. *)
Lemma normalizePath_query (p q : string) :
  Router.includes "?"%char p = false ->
  Router.normalizePath ("#" ++ p ++ "?" ++ q)%string
  = Router.normalizePath ("#" ++ p)%string.
Proof.
  intros Hp. unfold Router.normalizePath. cbv zeta.
  cbn [String.append Router.slice_1].
  rewrite includes_app, Hp.
  cbn [Router.includes Ascii.eqb Bool.eqb orb].
  rewrite (before_stops "?"%char p q Hp). reflexivity.
Qed.

(** The path of a hash is never empty and holds no query: what follows
    the first [?] is dropped, and so is one slash at the end; a path
    without either is kept as it is. *)
Theorem normalizePath_spec :
  (forall hash : string,
      Router.normalizePath hash <> EmptyString
      /\ Router.includes "?"%char (Router.normalizePath hash) = false)
  /\ (forall p q : string,
         Router.includes "?"%char p = false ->
         Router.normalizePath ("#" ++ p ++ "?" ++ q)%string
         = Router.normalizePath ("#" ++ p)%string)
  /\ (forall p : string,
         p <> EmptyString ->
         Router.includes "?"%char p = false ->
         Router.endsWith "/"%char p = false ->
         Router.normalizePath ("#" ++ p)%string = p
         /\ Router.normalizePath ("#" ++ p ++ "/")%string = p).
Proof.
  split; [|split].
  - intros hash. unfold Router.normalizePath. cbv zeta.
    set (p0 := Router.slice_1 hash).
    set (p1 := if Router.includes "?"%char p0 then Router.before "?"%char p0 else p0).
    assert (H1 : Router.includes "?"%char p1 = false).
    { subst p1. destruct (Router.includes "?"%char p0) eqn:E;
        [apply includes_before | exact E]. }
    set (p2 := if _ : bool then Router.slice_0_minus_1 p1 else p1).
    assert (H2 : Router.includes "?"%char p2 = false).
    { subst p2. destruct (_ && _); [apply includes_slice|]; exact H1. }
    destruct (String.eqb p2 EmptyString) eqn:E.
    + split; [discriminate | reflexivity].
    + split; [apply String.eqb_neq; exact E | exact H2].
  - exact normalizePath_query.
  - intros p Hne Hq Hslash. unfold Router.normalizePath. cbv zeta.
    cbn [String.append Router.slice_1].
    apply String.eqb_neq in Hne.
    split.
    + rewrite Hq, Hslash, andb_false_r, Hne. reflexivity.
    + rewrite includes_app, Hq. cbn [Router.includes Ascii.eqb Bool.eqb orb].
      rewrite endsWith_app, slice_app, length_app_one, andb_true_r.
      destruct p as [|x p]; [discriminate|].
      cbn [String.length Nat.ltb Nat.leb]. rewrite Hne. reflexivity.
Qed.

(** [App] has a page for every hash.  Each of its seven paths renders
    its page, with or without a query string and with or without a
    slash at the end; every other hash renders the redirection to the
    home page. *)
Theorem App_resolves_every_hash :
  (forall (p : string) (page : Router.Page) (q : string),
      In (p, page) Router.App_routes -> p <> "*"%string ->
      Router.App ("#" ++ p)%string = Some page
      /\ Router.App ("#" ++ p ++ "/")%string = Some page
      /\ Router.App ("#" ++ p ++ "?" ++ q)%string = Some page)
  /\ (forall hash : string,
         (forall p page, In (p, page) Router.App_routes ->
                         Router.normalizePath hash <> p) ->
         Router.App hash = Some (Router.Navigate "/"))
  /\ (forall hash : string, Router.App hash <> None).
Proof.
  assert (Hother :
            forall path : string,
              (forall p page, In (p, page) Router.App_routes -> path <> p) ->
              Router.Routes path Router.App_routes
              = Some (Router.Navigate "/")).
  { intros path Hnone.
    unfold Router.Routes, Router.App_routes. cbn [Router.scan].
    repeat match goal with
           | |- context [String.eqb ?a path] =>
               let E := fresh "E" in
               destruct (String.eqb a path) eqn:E;
               [apply String.eqb_eq in E; exfalso;
                eapply (Hnone a); [simpl; tauto | symmetry; exact E]|]
           end.
    reflexivity. }
  split; [|split].
  - intros p page q Hin Hp. unfold Router.App.
    simpl in Hin.
    repeat (destruct Hin as [Hin|Hin];
            [injection Hin as <- <-;
             try (contradiction Hp; reflexivity);
             rewrite normalizePath_query by reflexivity;
             repeat split; reflexivity|]).
    contradiction.
  - intros hash Hnone. apply Hother, Hnone.
  - intros hash. unfold Router.App.
    generalize (Router.normalizePath hash). intros path.
    unfold Router.Routes, Router.App_routes. cbn [Router.scan].
    repeat match goal with
           | |- context [String.eqb ?a path] => destruct (String.eqb a path)
           end; discriminate.
Qed.

Lemma normalizePath_spec_witness :
  Router.normalizePath "#/tools/brewing/?recipe=ipa" = "/tools/brewing"%string.
Proof.
  change (Router.normalizePath
            ("#" ++ "/tools/brewing/" ++ "?" ++ "recipe=ipa")%string
          = "/tools/brewing"%string).
  rewrite (proj1 (proj2 normalizePath_spec) "/tools/brewing/"%string
             "recipe=ipa"%string)
    by reflexivity.
  apply (proj2 (proj2 normalizePath_spec) "/tools/brewing"%string);
    [discriminate | reflexivity | reflexivity].
Defined.

Lemma App_resolves_every_hash_witness :
  Router.App "#/tools/brewing?recipe=ipa" = Some Router.BrewMaster
  /\ Router.App "#/tools/brewing/" = Some Router.BrewMaster
  /\ Router.App "#/tools/wine" = Some (Router.Navigate "/").
Proof.
  destruct App_resolves_every_hash as (Hpage & Hother & _).
  destruct (Hpage "/tools/brewing"%string Router.BrewMaster
              "recipe=ipa"%string) as (_ & Hslash & Hquery).
  - simpl. tauto.
  - discriminate.
  - split; [exact Hquery|]. split; [exact Hslash|].
    apply Hother. intros p page Hin. simpl in Hin.
    repeat (destruct Hin as [Hin|Hin];
            [injection Hin as <- _; vm_compute; discriminate|]).
    contradiction.
Defined.
